(** * The synthesis estimation flow of [scripts/estimate.py]

    A shallow embedding of the text-processing core of the estimation
    script: the name normalizer [prettify_name], the source rewriter
    [preprocess_sv_file] with its hoisting stage
    [_hoist_logic_from_always], the top-designator scans [get_top_module]
    and [get_top_entity], the statistics extraction [sum_cell_counts], the
    tool invoker [yosys] and the parallel driver [process_files].

    Conventions of the embedding.
    - A Python [str] is a [string] of code points below 256: a character
      of type [ascii] is one such code point.  On them the classes [\w],
      [\d] and [\s] of the [re] module, [re.IGNORECASE], [str.lower],
      [str.strip], [str.split] and [str.splitlines] are those of Python
      (module [Chr]).  A text with a code point from 256 on has no
      counterpart in the embedding.
    - Python integers are unbounded: [Z].
    - A regular expression of the source is a term of [Re.regex], run by a
      backtracking matcher that tries alternatives from left to right and
      repetitions longest first, as [re] does.
    - The file system, the process identity and the external tool are an
      explicit environment [World]; what [yosys] does to the outside is
      returned as a list of events.  An exception is a value [Raise e];
      [try], [except] and [finally] are the combinators [catch] and
      [finally].
    - Of the pool of worker processes only the order in which the futures
      complete is kept: [process_files] takes it as an argument.
    - Left out: the messages that [process_files] and [main] log, the
      text of the traceback in the debug log, and the limit that [int]
      puts on the number of digits. *)

From Stdlib Require Import ZArith Ascii String List Lia Permutation DecimalString.
From stdpp Require Import base gmap strings list.

Local Open Scope list_scope.
Local Open Scope string_scope.

(** ** Characters *)

Module Chr.

Definition code (c : ascii) : nat := nat_of_ascii c.

Definition between (lo hi : nat) (c : ascii) : bool :=
  (lo <=? code c)%nat && (code c <=? hi)%nat.

Definition is_digit (c : ascii) : bool := between 48 57 c.

(** [str.lower] changes the letters [A-Z] and the capital letters from
    192 to 222, the sign 215 apart. *)
Definition is_upper (c : ascii) : bool :=
  between 65 90 c || between 192 214 c || between 216 222 c.
Definition is_lower (c : ascii) : bool :=
  between 97 122 c || between 223 246 c || between 248 255 c.

(** The letters: those with a case, the two ordinal indicators 170 and
    186 and the micro sign 181. *)
Definition is_alpha (c : ascii) : bool :=
  is_upper c || is_lower c || between 170 170 c || between 181 181 c || between 186 186 c.

(** The numeric characters that are no decimal digits: the superscripts
    178, 179 and 185 and the fractions 188 to 190. *)
Definition is_numeric (c : ascii) : bool :=
  between 178 179 c || between 185 185 c || between 188 190 c.

(** [\w]: what [str.isalnum] accepts, and the underscore. *)
Definition is_word (c : ascii) : bool :=
  is_alpha c || is_digit c || is_numeric c || Ascii.eqb c "_".

(** [\s] and [str.isspace]: TAB, LF, VT, FF, CR, the four separators
    FS, GS, RS, US, the space, NEL (133) and the no-break space (160). *)
Definition is_space (c : ascii) : bool :=
  between 9 13 c || between 28 32 c || between 133 133 c || between 160 160 c.

Definition newline : ascii := "010".
Definition dquote : ascii := "034".
Definition squote : ascii := "039".

Definition eqc (c d : ascii) : bool := Ascii.eqb c d.
Definition neqc (c d : ascii) : bool := negb (Ascii.eqb c d).

Definition lower (c : ascii) : ascii :=
  if is_upper c then ascii_of_nat (code c + 32) else c.

Definition digit_value (c : ascii) : Z := Z.of_nat (code c - 48).

End Chr.

(** ** Python string operations *)

Module Py.

Definition nl : string := String Chr.newline "".

Fixpoint rev_onto (s acc : string) : string :=
  match s with
  | "" => acc
  | String c s' => rev_onto s' (String c acc)
  end.

Definition rev (s : string) : string := rev_onto s "".

Fixpoint map (f : ascii -> ascii) (s : string) : string :=
  match s with
  | "" => ""
  | String c s' => String (f c) (map f s')
  end.

(** [s.lower()] *)
Definition lower (s : string) : string := map Chr.lower s.

(** [s.startswith(p)] *)
Fixpoint startswith (s p : string) : bool :=
  match p, s with
  | "", _ => true
  | String a p', String b s' => Ascii.eqb a b && startswith s' p'
  | String _ _, "" => false
  end.

(** [s.endswith(p)] *)
Definition endswith (s p : string) : bool := startswith (rev s) (rev p).

(** [needle in hay] *)
Fixpoint contains (needle hay : string) : bool :=
  startswith hay needle ||
  match hay with
  | "" => false
  | String _ hay' => contains needle hay'
  end.

(** [s.find(t)], [None] standing for [-1] *)
Fixpoint find (t s : string) : option nat :=
  if startswith s t then Some 0%nat
  else match s with
       | "" => None
       | String _ s' => S <$> find t s'
       end.

(** [s.rfind(t)], [None] standing for [-1] *)
Fixpoint rfind (t s : string) : option nat :=
  match s with
  | "" => if startswith s t then Some 0%nat else None
  | String _ s' =>
      match rfind t s' with
      | Some i => Some (S i)
      | None => if startswith s t then Some 0%nat else None
      end
  end.

Fixpoint drop (n : nat) (s : string) : string :=
  match n, s with
  | S n', String _ s' => drop n' s'
  | _, _ => s
  end.

Fixpoint take (n : nat) (s : string) : string :=
  match n, s with
  | S n', String c s' => String c (take n' s')
  | _, _ => ""
  end.

(** [s[i:j]] for indices within the string *)
Definition slice (i j : nat) (s : string) : string := take (j - i) (drop i s).

Fixpoint lstrip (s : string) : string :=
  match s with
  | String c s' => if Chr.is_space c then lstrip s' else s
  | "" => ""
  end.

Definition rstrip (s : string) : string := rev (lstrip (rev s)).

(** [s.strip()] *)
Definition strip (s : string) : string := rstrip (lstrip s).

(** [s.split(sep)] for a separator that is not empty: [skip] counts the
    characters of a separator still to be passed over, [acc] holds the
    current piece backwards. *)
Fixpoint split_aux (sep : string) (skip : nat) (acc s : string) : list string :=
  match s with
  | "" => [rev acc]
  | String c s' =>
      match skip with
      | S n => split_aux sep n acc s'
      | O => if startswith s sep
             then rev acc :: split_aux sep (String.length sep - 1) "" s'
             else split_aux sep 0 (String c acc) s'
      end
  end.

Definition split (sep s : string) : list string := split_aux sep 0 "" s.

(** [s.split()]: the maximal runs of characters that are not white space *)
Fixpoint words_aux (acc s : string) : list string :=
  match s with
  | "" => match acc with "" => [] | _ => [rev acc] end
  | String c s' =>
      if Chr.is_space c
      then match acc with "" => words_aux "" s' | _ => rev acc :: words_aux "" s' end
      else words_aux (String c acc) s'
  end.

Definition words (s : string) : list string := words_aux "" s.

(** [sep.join(l)] *)
Fixpoint join (sep : string) (l : list string) : string :=
  match l with
  | [] => ""
  | [x] => x
  | x :: l' => x ++ sep ++ join sep l'
  end.

(** [s.replace(old, new)] for [old] not empty *)
Fixpoint replace_aux (old new : string) (skip : nat) (s : string) : string :=
  match s with
  | "" => ""
  | String c s' =>
      match skip with
      | S n => replace_aux old new n s'
      | O => if startswith s old
             then new ++ replace_aux old new (String.length old - 1) s'
             else String c (replace_aux old new 0 s')
      end
  end.

Definition replace (old new s : string) : string := replace_aux old new 0 s.

(** [s.splitlines()]: the line boundaries below 256 are LF, CR, CR LF,
    VT, FF, FS, GS, RS and NEL; no empty last line. *)
Definition is_linebreak (c : ascii) : bool :=
  Chr.between 11 12 c || Chr.between 28 30 c || Chr.between 133 133 c.

Fixpoint splitlines_aux (after_cr : bool) (acc s : string) : list string :=
  match s with
  | "" => match acc with "" => [] | _ => [rev acc] end
  | String c s' =>
      if Chr.eqc c Chr.newline then
        if after_cr then splitlines_aux false acc s'
        else rev acc :: splitlines_aux false "" s'
      else if Chr.eqc c "013" then rev acc :: splitlines_aux true "" s'
      else if is_linebreak c then rev acc :: splitlines_aux false "" s'
      else splitlines_aux false (String c acc) s'
  end.

Definition splitlines (s : string) : list string := splitlines_aux false "" s.

(** [int(s)] on a string of decimal digits *)
Fixpoint int_acc (acc : Z) (s : string) : Z :=
  match s with
  | "" => acc
  | String c s' => int_acc (10 * acc + Chr.digit_value c) s'
  end.

Definition int (s : string) : Z := int_acc 0 s.

(** [os.path.basename] *)
Definition basename (p : string) : string :=
  match rfind "/" p with
  | Some i => drop (S i) p
  | None => p
  end.

(** [os.path.splitext(p)[0]]: the extension starts at the last dot, when
    that dot lies in the last path component and some character of the
    component before it is not a dot. *)
Fixpoint all_dots (s : string) : bool :=
  match s with
  | "" => true
  | String c s' => Chr.eqc c "." && all_dots s'
  end.

Definition splitext_root (p : string) : string :=
  let filename_index := match rfind "/" p with Some i => S i | None => 0%nat end in
  match rfind "." p with
  | Some dot_index =>
      if (filename_index <=? dot_index)%nat
      then if all_dots (slice filename_index dot_index p) then p
           else take dot_index p
      else p
  | None => p
  end.

End Py.

(** ** Regular expressions of the [re] module

    The fragment that the script uses: literals, character classes,
    sequence, alternation, greedy repetition of a character class, a
    greedy optional part, capturing groups and the assertions [^], [$] and
    [\b].  The matcher is written with a continuation, so that a failure
    further to the right makes a repetition give characters back and an
    alternation try its next branch. *)

Module Re.

Inductive regex : Type :=
| Emp                              (* the empty pattern *)
| Lit (l : string)                 (* literal text *)
| Cls (p : ascii -> bool)          (* one character of a class *)
| Cat (r1 r2 : regex)              (* r1 r2 *)
| Alt (r1 r2 : regex)              (* r1|r2 *)
| Star (p : ascii -> bool)         (* c* *)
| Plus (p : ascii -> bool)         (* c+ *)
| Opt (r : regex)                  (* (...)? *)
| Grp (n : nat) (r : regex)        (* capturing group number n *)
| Bol                              (* ^ *)
| Eol                              (* $ *)
| Wb.                              (* \b *)

(** A sequence [r1 r2 ... rn] and a choice [r|r1|...|rn]. *)
Fixpoint seq (rs : list regex) : regex :=
  match rs with
  | [] => Emp
  | [r] => r
  | r :: rs' => Cat r (seq rs')
  end.

Fixpoint alt (r : regex) (rs : list regex) : regex :=
  match rs with
  | [] => r
  | r' :: rs' => Alt r (alt r' rs')
  end.

(** The classes of the patterns. *)
Definition w : ascii -> bool := Chr.is_word.
Definition d : ascii -> bool := Chr.is_digit.
Definition s : ascii -> bool := Chr.is_space.
Definition any : ascii -> bool := fun c => Chr.neqc c Chr.newline.   (* . *)
Definition but (c : ascii) : ascii -> bool := fun x => Chr.neqc x c. (* [^c] *)

(** Group values, most recent first. *)
Definition caps : Type := list (nat * string).

Fixpoint lookup_cap (n : nat) (cs : caps) : option string :=
  match cs with
  | [] => None
  | (k, v) :: cs' => if (k =? n)%nat then Some v else lookup_cap n cs'
  end.

(** A position in the subject is the text before it, backwards, and the
    text after it. *)
Fixpoint unrev (n : nat) (pre acc : string) : string :=
  match n, pre with
  | S n', String c p => unrev n' p (String c acc)
  | _, _ => acc
  end.

(** The text between an earlier position [pre] and a later one [pre']. *)
Definition span (pre pre' : string) : string :=
  unrev (String.length pre' - String.length pre) pre' "".

Definition chr_eq (icase : bool) (a b : ascii) : bool :=
  if icase then Ascii.eqb (Chr.lower a) (Chr.lower b) else Ascii.eqb a b.

Fixpoint lit_m (icase : bool) (l pre s : string) : option (string * string) :=
  match l with
  | "" => Some (pre, s)
  | String a l' =>
      match s with
      | String b s' => if chr_eq icase a b then lit_m icase l' (String b pre) s' else None
      | "" => None
      end
  end.

Definition orelse {A} (x y : option A) : option A :=
  match x with Some _ => x | None => y end.

Fixpoint star_m {A} (p : ascii -> bool) (pre s : string)
    (k : string -> string -> option A) : option A :=
  match s with
  | String c s' =>
      if p c then orelse (star_m p (String c pre) s' k) (k pre s) else k pre s
  | "" => k pre s
  end.

Definition at_word_boundary (pre s : string) : bool :=
  xorb (match pre with String c _ => Chr.is_word c | "" => false end)
       (match s with String c _ => Chr.is_word c | "" => false end).

Fixpoint run {A} (icase : bool) (r : regex) (pre s : string) (cs : caps)
    (k : string -> string -> caps -> option A) : option A :=
  match r with
  | Emp => k pre s cs
  | Lit l =>
      match lit_m icase l pre s with
      | Some (pre', s') => k pre' s' cs
      | None => None
      end
  | Cls p =>
      match s with
      | String c s' => if p c then k (String c pre) s' cs else None
      | "" => None
      end
  | Cat r1 r2 => run icase r1 pre s cs (fun pre' s' cs' => run icase r2 pre' s' cs' k)
  | Alt r1 r2 => orelse (run icase r1 pre s cs k) (run icase r2 pre s cs k)
  | Star p => star_m p pre s (fun pre' s' => k pre' s' cs)
  | Plus p =>
      match s with
      | String c s' =>
          if p c then star_m p (String c pre) s' (fun pre' s' => k pre' s' cs) else None
      | "" => None
      end
  | Opt r1 => orelse (run icase r1 pre s cs k) (k pre s cs)
  | Grp n r1 => run icase r1 pre s cs (fun pre' s' cs' => k pre' s' ((n, span pre pre') :: cs'))
  | Bol => match pre with "" => k pre s cs | _ => None end
  | Eol => if String.eqb s "" || String.eqb s Py.nl then k pre s cs else None
  | Wb => if at_word_boundary pre s then k pre s cs else None
  end.

(** A match object. *)
Record mobj : Type := Mobj {
  m_start : string;   (* the subject before the match, backwards *)
  m_end : string;     (* the subject up to the end of the match, backwards *)
  m_rest : string;    (* the subject after the match *)
  m_caps : caps
}.

(** [m.group(0)], [m.group(n)], [m.end()] *)
Definition group0 (m : mobj) : string := span (m_start m) (m_end m).
Definition group (n : nat) (m : mobj) : option string := lookup_cap n (m_caps m).
Definition end_pos (m : mobj) : nat := String.length (m_end m).

Definition match_at (icase : bool) (r : regex) (pre s : string) : option mobj :=
  run icase r pre s [] (fun pre' s' cs => Some (Mobj pre pre' s' cs)).

(** [re.match(r, s)] *)
Definition rmatch (r : regex) (s : string) : option mobj := match_at false r "" s.

(** [re.search(r, s)]: the leftmost position with a match *)
Fixpoint search_from (icase : bool) (r : regex) (pre s : string) : option mobj :=
  orelse (match_at icase r pre s)
         (match s with
          | String c s' => search_from icase r (String c pre) s'
          | "" => None
          end).

Definition search (r : regex) (s : string) : option mobj := search_from false r "" s.
Definition isearch (r : regex) (s : string) : option mobj := search_from true r "" s.

(** [re.finditer(r, s)]: the matches from left to right, none overlapping
    an earlier one.  [skip] counts the characters of the last match still
    to be passed over.  No pattern of the script matches the empty
    string. *)
Fixpoint finditer_from (icase : bool) (r : regex) (skip : nat) (pre s : string)
    : list mobj :=
  let step k := match s with
                | String c s' => finditer_from icase r k (String c pre) s'
                | "" => []
                end in
  match skip with
  | S n => step n
  | O => match match_at icase r pre s with
         | Some m => m :: step (String.length (group0 m) - 1)
         | None => step 0%nat
         end
  end.

Definition finditer (icase : bool) (r : regex) (s : string) : list mobj :=
  finditer_from icase r 0 "" s.

(** [re.sub(r, repl, s)], the replacement given as a function of the
    match *)
Fixpoint sub_from (icase : bool) (r : regex) (repl : mobj -> string)
    (skip : nat) (pre s : string) : string :=
  match skip with
  | S n => match s with
           | String c s' => sub_from icase r repl n (String c pre) s'
           | "" => ""
           end
  | O => match match_at icase r pre s with
         | Some m =>
             repl m ++
             match s with
             | String c s' =>
                 match group0 m with
                 | "" => String c (sub_from icase r repl 0 (String c pre) s')
                 | g => sub_from icase r repl (String.length g - 1) (String c pre) s'
                 end
             | "" => ""
             end
         | None =>
             match s with
             | String c s' => String c (sub_from icase r repl 0 (String c pre) s')
             | "" => ""
             end
         end
  end.

Definition sub (r : regex) (repl : mobj -> string) (s : string) : string :=
  sub_from false r repl 0 "" s.
Definition isub (r : regex) (repl : mobj -> string) (s : string) : string :=
  sub_from true r repl 0 "" s.

Definition matches (r : regex) (s : string) : bool := bool_decide (is_Some (search r s)).

End Re.

(** ** Name normalizer *)

Import Re.

(** [fp_map.get((e, m), f"e{e}_m{m}")] *)
Definition fp_map (e m : string) : string :=
  if String.eqb e "5" && String.eqb m "10" then "FP16"
  else if String.eqb e "8" && String.eqb m "23" then "FP32"
  else if String.eqb e "8" && String.eqb m "24" then "FP32"
  else if String.eqb e "11" && String.eqb m "52" then "FP64"
  else if String.eqb e "11" && String.eqb m "53" then "FP64"
  else "e" ++ e ++ "_m" ++ m.

(** A group that took part in the match. *)
Definition grp (n : nat) (m : mobj) : string := default "" (group n m).

(** The patterns of [prettify_name], in the order of the source. *)
Definition cfg_re : regex :=
  seq [Lit "CFG_FP_"; Grp 1 (Plus w); Lit "_"; Grp 2 (Plus d); Lit "_"; Grp 3 (Plus d)].
Definition hardfloat_re : regex :=
  seq [Lit "FP"; Grp 1 (Plus w); Lit "_"; Grp 2 (Plus d); Lit "_"; Grp 3 (Plus d)].
Definition openfloat_re : regex :=
  seq [Lit "FP_"; Grp 1 (Plus w); Lit "_"; Grp 2 (Plus d); Lit "_"; Grp 3 (Plus d)].
Definition openfloat_div_re : regex :=
  seq [Lit "FP_"; Grp 1 (Plus w); Lit "_"; Grp 2 (Plus d); Lit "_"; Grp 3 (Plus d);
       Lit "_"; Grp 4 (Plus d)].
Definition rial_re : regex :=
  seq [Lit "Rial"; Grp 1 (Plus w); Grp 2 (seq [Lit "FP"; Plus d])].
Definition main_re : regex :=
  seq [Grp 1 (seq [Lit "Rial"; Plus w]);
       Grp 2 (seq [Lit "_e"; Grp 3 (Plus d); Lit "_m"; Grp 4 (Plus d); Lit "_s"; Plus d])].
Definition phase_re : regex :=
  seq [Grp 1 (seq [Lit "Rial"; Plus w; Lit "Phase1"; Plus w; Lit "Phase2"; Plus w]);
       Grp 2 (seq [Lit "_e"; Grp 3 (Plus d); Lit "_m"; Grp 4 (Plus d); Lit "_s"; Plus d])].

(** The three-way test on the bit width shared by the CFG and OpenFloat
    rules: a label, or no [return] at all. *)
Definition by_bits (lib op bits : string) : option string :=
  if String.eqb bits "16" then Some (lib ++ op ++ "_FP16")
  else if String.eqb bits "32" then Some (lib ++ op ++ "_FP32")
  else if String.eqb bits "64" then Some (lib ++ op ++ "_FP64")
  else None.

Definition rule_bits (r : regex) (lib name : string) : option string :=
  match rmatch r name with
  | Some m => by_bits lib (grp 1 m) (grp 2 m)
  | None => None
  end.

Definition prettify_name (filename : string) : string :=
  let name := Py.splitext_root filename in
  if Py.startswith name "FLOPCO_FP" then name else
  match rule_bits cfg_re "CFG" name with Some r => r | None =>
  match rmatch hardfloat_re name with
  | Some m => "HardFloat" ++ grp 1 m ++ "_" ++ fp_map (grp 2 m) (grp 3 m)
  | None =>
  match rule_bits openfloat_re "OpenFloat" name with Some r => r | None =>
  match rule_bits openfloat_div_re "OpenFloat" name with Some r => r | None =>
  match rmatch rial_re name with
  | Some m => "Rial" ++ grp 1 m ++ "_" ++ grp 2 m
  | None =>
  let name := Py.replace "ReciprocalATan2Phase1ATan2Phase2" "Atan2" name in
  let name := Py.replace "SqrtACosPhase1ACosPhase2" "Acos" name in
  match rmatch main_re name with
  | Some m => grp 1 m ++ "_" ++ fp_map (grp 3 m) (grp 4 m)
  | None =>
  match rmatch phase_re name with
  | Some m => grp 1 m ++ "_" ++ fp_map (grp 3 m) (grp 4 m)
  | None => name
  end end end end end end end.

(** ** Source rewriter, stage 6: hoisting out of clocked blocks *)

(** The header of a clocked block, line 127 of the source (the star
    before a closing parenthesis is written [{0,}] here):
    [^(\s{0,})always\s+@\s*\([^)]+\)\s+begin\b] *)
Definition always_re : regex :=
  seq [Bol; Grp 1 (Star s); Lit "always"; Plus s; Lit "@"; Star s; Lit "(";
       Plus (but ")"); Lit ")"; Plus s; Lit "begin"; Wb].

(** [\bbegin\b], [\bend\b] and
    [\bend(endmodule|function|case|task|primitive|generate)\b] *)
Definition begin_re : regex := seq [Wb; Lit "begin"; Wb].
Definition end_re : regex := seq [Wb; Lit "end"; Wb].
Definition end_keyword_re : regex :=
  seq [Wb; Lit "end";
       alt (Lit "endmodule") [Lit "function"; Lit "case"; Lit "task"; Lit "primitive";
                              Lit "generate"];
       Wb].

(** A declaration with an initializer, line 154 of the source:
    [^(\s{0,})logic\s+(\[[^\]]+\]\s+)?(\w+)\s*=\s*(.{0,})$] *)
Definition logic_re : regex :=
  seq [Bol; Grp 1 (Star s); Lit "logic"; Plus s;
       Opt (Grp 2 (seq [Lit "["; Plus (but "]"); Lit "]"; Plus s]));
       Grp 3 (Plus w); Star s; Lit "="; Star s; Grp 4 (Star any); Eol].

(** [out.insert(i, x)] *)
Definition list_insert_at (i : nat) (x : string) (out : list string) : list string :=
  (take i out ++ x :: drop i out)%list.

(** [for idx, w in enumerate(hoisted): out.insert(always_start + idx, w)] *)
Fixpoint insert_hoisted (always_start : nat) (hoisted out : list string) : list string :=
  match hoisted with
  | [] => out
  | w :: hoisted' => insert_hoisted (S always_start) hoisted' (list_insert_at always_start w out)
  end.

(** The loop that collects a statement up to its terminator:
    [while ';' not in rhs and j < len(lines)].  The result is the
    statement and the number of further lines it took. *)
Fixpoint gather (rhs : string) (stmt : list string) (taken : nat) (ls : list string)
    : list string * nat :=
  if Py.contains ";" rhs then (stmt, taken)
  else match ls with
       | [] => (stmt, taken)
       | l :: ls' => gather (rhs ++ Py.nl ++ l) (stmt ++ [l])%list (S taken) ls'
       end.

(** The wire for a statement, when it has both [=] and [;]. *)
Definition wire_of (indent typ name : string) (stmt : list string) : option string :=
  let full := Py.join Py.nl stmt in
  match Py.find "=" full, Py.rfind ";" full with
  | Some eq, Some semi =>
      let rhs := Py.strip (Py.slice (S eq) semi full) in
      let rhs := Py.join " " (Py.words rhs) in
      Some (indent ++ "wire " ++ typ ++ name ++ " = " ++ rhs ++ ";")
  | _, _ => None
  end.

(** The state of the scan inside a block. *)
Record block : Type := Block {
  indent : string;
  always_start : nat;
  depth : Z;
  hoisted : list string
}.

(** The two nested loops over [lines], one line at a time.  [blk] is
    [None] until the first header; afterwards it holds the variables of
    the inner loop, and the inner loop runs while its [depth] is
    positive.  [skip] counts the lines of a collected statement that the
    assignment [i = j] passes over. *)
Fixpoint hoist_loop (ls : list string) (skip : nat) (blk : option block)
    (out : list string) : list string :=
  match ls with
  | [] => out
  | cur :: ls' =>
      match skip with
      | S n => hoist_loop ls' n blk out
      | O =>
          let outer :=
            match rmatch always_re cur with
            | Some m =>
                hoist_loop ls' 0
                  (Some (Block (grp 1 m) (length out) 1 [])) (out ++ [cur])%list
            | None => hoist_loop ls' 0 blk (out ++ [cur])%list
            end in
          match blk with
          | None => outer
          | Some b =>
              if (depth b <=? 0)%Z then outer else
              let rest := hd "" (Py.split "//" cur) in
              let depth1 := if matches begin_re rest then (depth b + 1)%Z else depth b in
              if matches end_re rest && negb (matches end_keyword_re rest) then
                let depth2 := (depth1 - 1)%Z in
                if (depth2 =? 0)%Z then
                  hoist_loop ls' 0
                    (Some (Block (indent b) (always_start b) depth2 (hoisted b)))
                    (insert_hoisted (always_start b) (hoisted b) out ++ [cur])%list
                else
                  hoist_loop ls' 0
                    (Some (Block (indent b) (always_start b) depth2 (hoisted b)))
                    (out ++ [cur])%list
              else
                match rmatch logic_re cur with
                | Some m =>
                    if (1 <=? depth1)%Z then
                      let '(stmt, taken) := gather (grp 4 m) [cur] 0 ls' in
                      let hoisted' :=
                        match wire_of (indent b) (grp 2 m) (grp 3 m) stmt with
                        | Some wire => (hoisted b ++ [wire])%list
                        | None => hoisted b
                        end in
                      hoist_loop ls' taken
                        (Some (Block (indent b) (always_start b) depth1 hoisted')) out
                    else
                      hoist_loop ls' 0
                        (Some (Block (indent b) (always_start b) depth1 (hoisted b)))
                        (out ++ [cur])%list
                | None =>
                    hoist_loop ls' 0
                      (Some (Block (indent b) (always_start b) depth1 (hoisted b)))
                      (out ++ [cur])%list
                end
          end
      end
  end.

Definition _hoist_logic_from_always (content : string) : string :=
  Py.join Py.nl (hoist_loop (Py.split Py.nl content) 0 None []).

(** ** Source rewriter: the stages on the text of a file *)

(** Stage 1, lines 190 to 202: the qualifier [automatic]. *)
Definition automatic_type_re : regex :=
  seq [Wb; Lit "automatic"; Plus s;
       Grp 1 (alt (Lit "logic")
                [Lit "reg"; Lit "wire"; Lit "integer"; Lit "real"; Lit "time"; Lit "int";
                 Lit "bit"; Lit "byte"; Lit "shortint"; Lit "longint"; Lit "shortreal";
                 Lit "string"; Lit "chandle"; Lit "event"; Lit "struct"; Lit "union";
                 Lit "enum"; Lit "class"; Lit "interface"; Lit "modport"; Lit "package";
                 Lit "program"; Lit "task"; Lit "function"]);
       Plus s].
Definition automatic_re : regex := seq [Wb; Lit "automatic"; Plus s].

Definition strip_automatic (content : string) : string :=
  Py.join Py.nl
    (List.map (fun line =>
                 let cleaned_line := sub automatic_type_re (fun m => grp 1 m ++ " ") line in
                 sub automatic_re (fun _ => "") cleaned_line)
              (Py.split Py.nl content)).

(** Stage 2, lines 209 to 226: inclusion directives for verification
    files, by line and then by pattern. *)
Definition is_verification_include (line : string) : bool :=
  Py.contains "`include" line &&
  (let line_lower := Py.lower line in
   Py.contains "layers-" line_lower || Py.contains "verification" line_lower).

Definition hspace : ascii -> bool := fun c => Chr.is_space c && Chr.neqc c Chr.newline.
Definition quote : ascii -> bool := fun c => Chr.eqc c Chr.dquote || Chr.eqc c Chr.squote.
Definition not_quote : ascii -> bool := fun c => negb (quote c).

Definition include_re (marker : string) : regex :=
  seq [Star hspace; Lit "`include"; Plus s; Cls quote; Star not_quote; Lit marker;
       Star not_quote; Cls quote; Star (but Chr.newline); Opt (Lit Py.nl)].

Definition strip_includes (content : string) : string :=
  let content :=
    Py.join Py.nl (List.filter (fun line => negb (is_verification_include line))
                               (Py.split Py.nl content)) in
  let content := sub (include_re "layers-") (fun _ => "") content in
  isub (include_re "verification") (fun _ => "") content.

(** Stage 3, lines 230 to 242: a verification section runs from a marker
    line to the next blank line. *)
Fixpoint skip_sections (lines : list string) (skip_verification : bool) : list string :=
  match lines with
  | [] => []
  | line :: lines' =>
      let skip_verification :=
        if Py.contains ("FILE " ++ String Chr.dquote "verification/") line ||
           Py.contains ("FILE " ++ String Chr.dquote "layers-") line
        then true else skip_verification in
      if negb skip_verification then line :: skip_sections lines' skip_verification
      else if String.eqb (Py.strip line) "" then skip_sections lines' false
      else skip_sections lines' skip_verification
  end.

Definition strip_sections (content : string) : string :=
  Py.join Py.nl (skip_sections (Py.split Py.nl content) false).

(** Stage 4, lines 245 and 248: guard, define, end-of-guard triples. *)
Definition layers_guard_re : regex :=
  seq [Lit "`ifndef"; Plus s; Lit "layers_"; Plus (but Chr.newline); Lit Py.nl;
       Star s; Lit "`define"; Plus (but Chr.newline); Lit Py.nl;
       Star s; Lit "`endif"; Star (but Chr.newline); Lit Py.nl].
Definition empty_guard_re : regex :=
  seq [Lit "`ifndef"; Plus s; Plus w; Star s; Lit Py.nl;
       Star s; Lit "`define"; Plus s; Plus w; Star s; Lit Py.nl;
       Star s; Lit "`endif"; Star (but Chr.newline); Lit Py.nl].

Definition strip_guards (content : string) : string :=
  sub empty_guard_re (fun _ => "") (sub layers_guard_re (fun _ => "") content).

(** Stage 5, lines 252 to 273: blocks guarded by the marker
    [ENABLE_INITIAL_REG_], by counting depth. *)
Definition marker : string := "ENABLE_INITIAL_REG_".
Definition ifdef_marker_re : regex := seq [Lit "`ifdef"; Plus s; Lit marker].
Definition ifndef_marker_re : regex := seq [Lit "`ifndef"; Plus s; Lit marker].
Definition endif_marker_re : regex := seq [Lit "`endif"; Star any; Lit marker].
Definition open_re : regex := seq [Lit "`"; alt (Lit "ifdef") [Lit "ifndef"]; Wb].
Definition close_re : regex := seq [Lit "`endif"; Wb].

(** One turn of the loop over the lines: the new [skip_depth] and
    [cleaned]. *)
Definition skip_step (st : Z * list string) (line : string) : Z * list string :=
  let '(skip_depth, cleaned) := st in
  let unmarked :=
    if (0 <? skip_depth)%Z then
      if matches open_re line then ((skip_depth + 1)%Z, cleaned)
      else if matches close_re line then ((skip_depth - 1)%Z, cleaned)
      else (skip_depth, cleaned)
    else (skip_depth, (cleaned ++ [line])%list) in
  if Py.contains marker line then
    if matches ifdef_marker_re line then ((skip_depth + 1)%Z, cleaned)
    else if matches ifndef_marker_re line then (1%Z, cleaned)
    else if matches endif_marker_re line then ((skip_depth - 1)%Z, cleaned)
    else unmarked
  else unmarked.

Definition skip_pass (lines : list string) : Z * list string :=
  fold_left skip_step lines (0%Z, []).

Definition strip_initial_blocks (content : string) : string :=
  Py.join Py.nl (snd (skip_pass (Py.split Py.nl content))).

(** Stage 7, line 281: the opening of an assignment pattern. *)
Definition strip_patterns (content : string) : string := Py.replace "'{" "{" content.

(** The body of the [try] of [preprocess_sv_file], after the read. *)
Definition rewrite (content : string) : string :=
  strip_patterns
    (_hoist_logic_from_always
       (strip_initial_blocks (strip_guards (strip_sections (strip_includes
          (strip_automatic content)))))).

(** ** Statistics extractor *)

(** [\s*Number of cells:\s*(\d+)], matched at the start of a line *)
Definition cells_re : regex :=
  seq [Star s; Lit "Number of cells:"; Star s; Grp 1 (Plus d)].

Definition enumerate (lines : list string) : list (nat * string) :=
  combine (List.seq 0 (length lines)) lines.

(** The index of the last line with the marker; [None] stands for [-1]. *)
Definition last_stats_index (lines : list string) : option nat :=
  fold_left (fun last_stats_index (il : nat * string) =>
               if Py.contains "Printing statistics." (snd il) then Some (fst il)
               else last_stats_index)
            (enumerate lines) None.

Definition add_cells (total_cells : Z) (line : string) : Z :=
  match rmatch cells_re line with
  | Some m => (total_cells + Py.int (grp 1 m))%Z
  | None => total_cells
  end.

Definition sum_cell_counts (text : string) : Z :=
  let lines := Py.split Py.nl (Py.strip text) in
  match last_stats_index lines with
  | None => 0%Z
  | Some i => fold_left add_cells (drop i lines) 0%Z
  end.

(** The patterns of the SystemVerilog path, lines 505 to 533. *)
Definition digits_re : regex := Plus d.
Definition wire_bits_re : regex := seq [Plus d; Plus s; Lit "wire bits"].
Definition wire_bits_grp_re : regex := seq [Grp 1 (Plus d); Plus s; Lit "wire bits"].
Definition cells_line_re : regex :=
  seq [Bol; Plus s; Plus d; Plus s; Lit "cells"; Star s; Eol].
Definition cells_grp_re : regex := seq [Grp 1 (Plus d); Plus s; Lit "cells"].

(** [int(re.search(r'\d+', line).group())]: [None] when the search finds
    nothing, which the source catches as [AttributeError]. *)
Definition first_int (line : string) : option Z :=
  (fun m => Py.int (group0 m)) <$> search digits_re line.

Definition group_int (r : regex) (line : string) : option Z :=
  (fun m => Py.int (grp 1 m)) <$> search r line.

(** One turn of the loop over the lines of the output: the new
    [(wire_bits, cells)]. *)
Definition stat_step (st : Z * Z) (line : string) : Z * Z :=
  let '(wire_bits, cells) := st in
  if Py.contains "Number of wire bits:" line then
    (default wire_bits (first_int line), cells)
  else if matches wire_bits_re line && negb (Py.contains "Number of" line) then
    (default wire_bits (group_int wire_bits_grp_re line), cells)
  else if Py.contains "Number of cells:" line then
    (wire_bits, default cells (first_int line))
  else if matches cells_line_re line then
    (wire_bits, default cells (group_int cells_grp_re line))
  else (wire_bits, cells).

Definition sv_stats (p : string) : Z * Z :=
  fold_left stat_step (Py.split Py.nl p) (0%Z, 0%Z).

(** ** Top designators *)

(** [\bmodule\s+(\w+)\s*(?:\(|#)] *)
Definition module_re : regex :=
  seq [Wb; Lit "module"; Plus s; Grp 1 (Plus w); Star s; alt (Lit "(") [Lit "#"]].

Definition skip_words : list string :=
  ["verification"; "assert"; "assume"; "cover"; "layer"].

Definition is_skipped (name : string) : bool :=
  existsb (fun skip => Py.contains skip (Py.lower name)) skip_words.

Definition candidates (content : string) : list string :=
  fold_left (fun candidates m =>
               let name := grp 1 m in
               if is_skipped name then candidates else (candidates ++ [name])%list)
            (finditer false module_re content) [].

Definition top_of (base : string) (candidates : list string) : string :=
  match candidates with
  | [] => base
  | _ => match List.find (fun c => String.eqb c base) candidates with
         | Some c => c
         | None => List.last candidates base
         end
  end.

(** [\bentity\b] with [re.IGNORECASE], and the word after it *)
Definition entity_re : regex := seq [Wb; Lit "entity"; Wb].
Definition next_word_re : regex := seq [Star s; Grp 1 (Plus w)].

Definition entity_match (last_entity_word : option string) (m : mobj) : option string :=
  let rest_of_line := Py.strip (m_rest m) in
  match rmatch next_word_re rest_of_line with
  | Some next_word_match => Some (grp 1 next_word_match)
  | None => last_entity_word
  end.

Definition entity_line (last_entity_word : option string) (line : string) : option string :=
  match isearch entity_re line with
  | Some _ => fold_left entity_match (finditer true entity_re line) last_entity_word
  | None => last_entity_word
  end.

Definition last_entity (content : string) : option string :=
  fold_left entity_line (Py.splitlines content) None.

(** ** The outside world and the effects of the script *)

Inductive exn_kind : Type := TimeoutExpired | FileNotFoundError | OSError | OtherException.

(** A raised exception: its class and [str(e)]. *)
Record exn : Type := Exn { kind : exn_kind; message : string }.

Inductive outcome (A : Type) : Type :=
| Ok (a : A)
| Raise (e : exn).
Arguments Ok {A} a.
Arguments Raise {A} e.

(** [subprocess.CompletedProcess] *)
Record completed : Type := Completed {
  stdout : string;
  stderr : string;
  returncode : Z
}.

Record World : Type := {
  read_text : string -> outcome string;            (* open(path, 'r').read() *)
  write_text : string -> string -> outcome unit;   (* open(path, 'w').write(text) *)
  append_text : string -> string -> outcome unit;  (* open(path, 'a').write(text) *)
  subprocess_run : list string -> outcome completed;          (* subprocess.run(argv, timeout=TIMEOUT) *)
  os_path_exists : string -> bool;                    (* os.path.exists, at cleanup *)
  os_remove : string -> outcome unit;                 (* os.remove *)
  os_getpid : string;                                 (* str(os.getpid()) *)
  os_path_abspath : string -> string;                      (* os.path.abspath *)
  script_dir : string                              (* the directory of the script *)
}.

Inductive event : Type :=
| Log (level msg : string)
| WriteFile (path text : string)
| AppendFile (path text : string)
| RunTool (argv : list string)
| RemoveFile (path : string).

(** A computation: what it did, and its value or the exception that left
    it. *)
Definition M (A : Type) : Type := list event * outcome A.

Definition ret {A} (a : A) : M A := ([], Ok a).

Definition bind {A B} (m : M A) (f : A -> M B) : M B :=
  match m with
  | (t, Ok a) => let '(t', r) := f a in ((t ++ t')%list, r)
  | (t, Raise e) => (t, Raise e)
  end.

Notation "x <- m ;; k" := (bind m (fun x => k))
  (at level 100, m at next level, right associativity).
Notation "m ;;; k" := (bind m (fun _ => k))
  (at level 100, right associativity).

Definition log (level msg : string) : M unit := ([Log level msg], Ok tt).
Definition act (ev : event) (o : outcome unit) : M unit := ([ev], o).
Definition lift {A} (o : outcome A) : M A := ([], o).

(** [try: m except Exception as e: h e], for a handler that returns *)
Definition catch {A} (m : M A) (h : exn -> list event * A) : list event * A :=
  match m with
  | (t, Ok a) => (t, a)
  | (t, Raise e) => let '(t', a) := h e in ((t ++ t')%list, a)
  end.

(** [try: m finally: c] around a computation that returns *)
Definition finally {A} (m : list event * A) (c : list event) : list event * A :=
  ((fst m ++ c)%list, snd m).

Definition os_path_join (a b : string) : string :=
  if String.eqb a "" || Py.endswith a "/" then a ++ b else a ++ "/" ++ b.

Definition str_of_Z (z : Z) : string := NilEmpty.string_of_int (Z.to_int z).

Section Script.

Variable W : World.

(** Lines 182 to 288 *)
Definition preprocess_sv_file (filename : string) : list event * option string :=
  catch (content <- lift (read_text W filename) ;;
         ret (Some (rewrite content)))
        (fun e => ([Log "ERROR" ("Error preprocessing " ++ filename ++ ": " ++ message e);
                    Log "DEBUG" "Preprocessing traceback: "], None)).

(** Lines 290 to 313 *)
Definition get_top_module (filename : string) : list event * string :=
  catch (content <- lift (read_text W filename) ;;
         let base := Py.splitext_root (Py.basename filename) in
         ret (top_of base (candidates content)))
        (fun e => ([Log "DEBUG" ("Error reading " ++ filename ++ " for module name: "
                                 ++ message e)],
                   Py.splitext_root (Py.basename filename))).

(** Lines 315 to 345 *)
Definition get_top_entity (filename : string) : list event * option string :=
  catch (content <- lift (read_text W filename) ;;
         match last_entity content with
         | Some (String c w' as last_entity_word) =>
             log "INFO" ("Found top entity " ++ last_entity_word ++ " in " ++ filename) ;;;
             ret (Some last_entity_word)
         | _ =>
             log "ERROR" ("No entity declaration found in " ++ filename) ;;;
             ret None
         end)
        (fun e => ([Log "ERROR" ("Error reading " ++ filename ++ ": " ++ message e)], None)).

(** Lines 422 to 428: the script for a rewritten file. *)
Definition preprocessed_script (abs_path top : string) : string :=
  "read_verilog -sv " ++ abs_path ++ Py.nl ++
  "hierarchy -top " ++ top ++ Py.nl ++
  "proc" ++ Py.nl ++
  "techmap -map +/techmap.v" ++ Py.nl ++
  "opt_clean" ++ Py.nl ++
  "stat" ++ Py.nl.

(** Lines 432 to 438: the script for the original file. *)
Definition original_script (abs_path top : string) : string :=
  "read -sv " ++ abs_path ++ Py.nl ++
  "hierarchy -top " ++ top ++ Py.nl ++
  "proc" ++ Py.nl ++
  "techmap -map +/techmap.v" ++ Py.nl ++
  "opt_clean" ++ Py.nl ++
  "stat" ++ Py.nl.

Definition log_file : string :=
  os_path_join (os_path_join (script_dir W) "..") "yosys_output.log".

Definition log_text (fn top : string) (preprocessed_file : option string)
    (yosyscmd p stderr_output : string) : string :=
  Py.nl ++ "=== Processing " ++ fn ++ " ===" ++ Py.nl ++
  "Top module: " ++ top ++ Py.nl ++
  match preprocessed_file with
  | Some f => "Using preprocessed file: " ++ f ++ Py.nl
  | None => ""
  end ++
  "Yosys commands:" ++ Py.nl ++ yosyscmd ++ Py.nl ++
  "Yosys stdout:" ++ Py.nl ++ p ++
  Py.nl ++ "Yosys stderr:" ++ Py.nl ++ stderr_output ++ Py.nl.

(** Lines 480 to 486: the first error line of a failed run, for the
    debug log. *)
Definition report_failure (fn : string) (result : completed) : M unit :=
  if (returncode result =? 0)%Z then ret tt
  else match stderr result with
       | "" => ret tt
       | stderr_output =>
           match List.map Py.strip
                   (List.filter (Py.contains "ERROR") (Py.split Py.nl stderr_output)) with
           | [] => ret tt
           | l :: _ => log "DEBUG" ("Yosys error for " ++ fn ++ ": " ++ Py.take 150 l)
           end
       end.

(** Lines 443 to 496: the run of the tool; [None] stands for the three
    handlers that return [(0, 0)]. *)
Definition run_yosys (fn top : string) (preprocessed_file : option string)
    (yosyscmd temp_file : string) : list event * option string :=
  let argv := if Py.endswith fn ".vhdl"
              then ["yosys"; "-m"; "ghdl"; "-p"; yosyscmd]
              else ["yosys"; temp_file] in
  catch (result <- ([RunTool argv], subprocess_run W argv) ;;
         let p := stdout result in
         let text := log_text fn top preprocessed_file yosyscmd p (stderr result) in
         act (AppendFile log_file text) (append_text W log_file text) ;;;
         report_failure fn result ;;;
         ret (Some p))
        (fun e =>
           match kind e with
           | TimeoutExpired => ([Log "ERROR" ("Timeout processing " ++ fn)], None)
           | FileNotFoundError =>
               ([Log "ERROR"
                   "Yosys not found. Please install Yosys and ensure it's in your PATH."],
                None)
           | _ => ([Log "ERROR" ("Unexpected error running Yosys for " ++ fn ++ ": "
                                 ++ message e)], None)
           end).

(** Lines 498 to 538 *)
Definition parse_output (fn p : string) : M (Z * Z) :=
  if Py.endswith fn ".vhdl" then
    let cells := sum_cell_counts p in
    log "INFO" ("VHDL file " ++ fn ++ " processed: " ++ str_of_Z cells ++ " cells") ;;;
    ret (0%Z, cells)
  else ret (sv_stats p).

Definition write_and_run (fn top : string) (preprocessed_file : option string)
    (yosyscmd temp_file : string) : M (Z * Z) :=
  act (WriteFile temp_file yosyscmd) (write_text W temp_file yosyscmd) ;;;
  let '(t, r) := run_yosys fn top preprocessed_file yosyscmd temp_file in
  match r with
  | None => (t, Ok (0%Z, 0%Z))
  | Some p => bind (t, Ok tt) (fun _ => parse_output fn p)
  end.

(** Lines 542 to 552: the removal of one temporary file. *)
Definition cleanup (what path : string) : list event :=
  if os_path_exists W path then
    match os_remove W path with
    | Ok _ => [RemoveFile path]
    | Raise e =>
        [RemoveFile path;
         Log "WARNING" ("Could not remove " ++ what ++ " " ++ path ++ ": " ++ message e)]
    end
  else [].

(** The name that [preprocessed_file] holds when the [finally] clause
    runs: it is assigned once the rewriting has produced a text. *)
Definition preprocessed_name (fn : string) : option string :=
  if Py.endswith fn ".vhdl" then None
  else match snd (preprocess_sv_file fn) with
       | Some _ => Some ("tmp_" ++ os_getpid W ++ "_" ++ Py.basename fn)
       | None => None
       end.

(** Lines 392 to 552 *)
Definition yosys (fn : string) : list event * (Z * Z) :=
  let temp_file := "tmp_" ++ os_getpid W ++ ".ys" in
  finally
    (catch
       (if Py.endswith fn ".vhdl" then
          top <- (fst (get_top_entity fn), Ok (snd (get_top_entity fn))) ;;
          match top with
          | None =>
              log "ERROR" ("Could not find top entity in " ++ fn) ;;;
              ret (0%Z, 0%Z)
          | Some top =>
              let yosyscmd := "ghdl --std=08 -fsynopsys " ++ fn ++ " -e " ++ top
                              ++ "; synth; stat" in
              log "INFO" ("Processing VHDL file: " ++ fn ++ " with top entity: " ++ top) ;;;
              write_and_run fn top None yosyscmd temp_file
          end
        else
          top <- (fst (get_top_module fn), Ok (snd (get_top_module fn))) ;;
          preprocessed_content <-
            (fst (preprocess_sv_file fn), Ok (snd (preprocess_sv_file fn))) ;;
          match preprocessed_content with
          | Some content =>
              let preprocessed_file := "tmp_" ++ os_getpid W ++ "_" ++ Py.basename fn in
              act (WriteFile preprocessed_file content)
                  (write_text W preprocessed_file content) ;;;
              let abs_path := os_path_abspath W preprocessed_file in
              write_and_run fn top (Some preprocessed_file)
                (preprocessed_script abs_path top) temp_file
          | None =>
              log "WARNING" ("Preprocessing failed for " ++ fn ++
                ", using original file (may have Yosys compatibility issues)") ;;;
              let abs_path := os_path_abspath W fn in
              write_and_run fn top None (original_script abs_path top) temp_file
          end)
       (fun e => ([Log "ERROR" ("Unexpected error processing " ++ fn ++ ": " ++ message e)],
                  (0%Z, 0%Z))))
    (cleanup "temporary file" temp_file ++
     match preprocessed_name fn with
     | Some f => cleanup "preprocessed file" f
     | None => []
     end)%list.

End Script.

(** ** Parallel driver

    The futures are numbered in the order of their submission:
    [future_to_file] maps the future [i] to [files[i]].  [result i] is
    what [future.result()] gives for the future [i], the value of the
    worker or an exception; [completed_order] is the order in which
    [as_completed] yields the futures. *)
Definition results_step (result : nat -> outcome (Z * Z)) (files : list string)
    (results : gmap string (Z * Z)) (future : nat) : gmap string (Z * Z) :=
  match files !! future with
  | Some file =>
      match result future with
      | Ok r => <[file := r]> results
      | Raise _ => <[file := (0%Z, 0%Z)]> results
      end
  | None => results
  end.

Definition process_files (result : nat -> outcome (Z * Z)) (completed_order : list nat)
    (files : list string) : gmap string (Z * Z) :=
  fold_left (results_step result files) completed_order ∅.

(** * Vocabulary of the properties *)

(** ** Parallel driver *)

Definition value_of (o : outcome (Z * Z)) : Z * Z :=
  match o with Ok r => r | Raise _ => (0%Z, 0%Z) end.

(** ** Statistics extractor, VHDL path *)

(** The count a line contributes: the integer after the label, [0] for a
    line without it. *)
Definition cell_count (line : string) : Z :=
  match rmatch cells_re line with
  | Some m => Py.int (grp 1 m)
  | None => 0%Z
  end.

Definition has_marker (line : string) : bool := Py.contains "Printing statistics." line.

(** The sum of the counts of some lines. *)
Fixpoint sum_counts (lines : list string) : Z :=
  match lines with
  | [] => 0%Z
  | l :: lines' => (cell_count l + sum_counts lines')%Z
  end.

(** ** Tool invoker *)

(** The kinds of events. *)
Definition is_run (ev : event) : bool :=
  match ev with RunTool _ => true | _ => false end.

Definition is_write (ev : event) : bool :=
  match ev with WriteFile _ _ => true | _ => false end.

Definition is_log (ev : event) : bool :=
  match ev with Log _ _ => true | _ => false end.

(** ** Top entity of a VHDL file *)

(** The word after one occurrence of the keyword. *)
Definition word_after (m : mobj) : option string :=
  grp 1 <$> rmatch next_word_re (Py.strip (m_rest m)).

(** The entity names of a line and of a file, in the order of the text. *)
Definition names_in_line (line : string) : list string :=
  omap word_after (finditer true entity_re line).

Definition entity_names (content : string) : list string :=
  List.flat_map names_in_line (Py.splitlines content).

(** ** Rewrite fallback *)

(** The warning of line 414. *)
Definition fallback_warning (fn : string) : event :=
  Log "WARNING" ("Preprocessing failed for " ++ fn ++
                 ", using original file (may have Yosys compatibility issues)").

(** The commands that follow the reading of the source. *)
Definition pipeline (top : string) : string :=
  "hierarchy -top " ++ top ++ Py.nl ++
  "proc" ++ Py.nl ++
  "techmap -map +/techmap.v" ++ Py.nl ++
  "opt_clean" ++ Py.nl ++
  "stat" ++ Py.nl.

(** The script of the fallback: the one for the original path. *)
Definition fallback_script (W : World) (fn : string) : string :=
  original_script (os_path_abspath W fn) (snd (get_top_module W fn)).

(** ** Top module of a SystemVerilog file *)

(** The names of the module declarations, in the order of the text. *)
Definition module_names (content : string) : list string :=
  grp 1 <$> finditer false module_re content.

(** The names that are kept. *)
Definition remaining (content : string) : list string :=
  List.filter (fun name => negb (is_skipped name)) (module_names content).

(** ** Name normalizer *)

(** Whether a rule finds something. *)
Definition found {A} (o : option A) : bool :=
  match o with Some _ => true | None => false end.

(** The rules of [prettify_name] on a name without extension. *)
Definition label_of (name : string) : string :=
  if Py.startswith name "FLOPCO_FP" then name else
  match rule_bits cfg_re "CFG" name with Some r => r | None =>
  match rmatch hardfloat_re name with
  | Some m => "HardFloat" ++ grp 1 m ++ "_" ++ fp_map (grp 2 m) (grp 3 m)
  | None =>
  match rule_bits openfloat_re "OpenFloat" name with Some r => r | None =>
  match rule_bits openfloat_div_re "OpenFloat" name with Some r => r | None =>
  match rmatch rial_re name with
  | Some m => "Rial" ++ grp 1 m ++ "_" ++ grp 2 m
  | None =>
  let name := Py.replace "ReciprocalATan2Phase1ATan2Phase2" "Atan2" name in
  let name := Py.replace "SqrtACosPhase1ACosPhase2" "Acos" name in
  match rmatch main_re name with
  | Some m => grp 1 m ++ "_" ++ fp_map (grp 3 m) (grp 4 m)
  | None =>
  match rmatch phase_re name with
  | Some m => grp 1 m ++ "_" ++ fp_map (grp 3 m) (grp 4 m)
  | None => name
  end end end end end end end.

(** Some rule of the normalizer applies to a name: the CFG rule gives a
    label, the HardFloat, the Rial, the main or the phase pattern
    matches, or one of the composite names stands in it. *)
Definition applies (name : string) : bool :=
  found (rule_bits cfg_re "CFG" name) ||
  found (rmatch hardfloat_re name) ||
  found (rmatch rial_re name) ||
  Py.contains "ReciprocalATan2Phase1ATan2Phase2" name ||
  Py.contains "SqrtACosPhase1ACosPhase2" name ||
  found (rmatch main_re name) ||
  found (rmatch phase_re name).

(** A label in canonical form: it has no extension to strip, and either
    it begins with [FLOPCO_FP] or no rule applies to it. *)
Definition canonical (r : string) : bool :=
  String.eqb (Py.splitext_root r) r &&
  (Py.startswith r "FLOPCO_FP" || negb (applies r)).

(** ** Source rewriter, stage 5 *)

(** A line is an opening or a closing directive by the test of the loop
    that reads it. *)
Definition directive (line : string) : option bool :=
  if Py.contains marker line && matches ifdef_marker_re line then Some true
  else if Py.contains marker line && matches ifndef_marker_re line then Some true
  else if Py.contains marker line && matches endif_marker_re line then Some false
  else if matches open_re line then Some true
  else if matches close_re line then Some false
  else None.

(** Directives that nest: no closing without an opening, none left
    open.  [t] counts the blocks that are open. *)
Fixpoint nested (t : Z) (lines : list string) : bool :=
  match lines with
  | [] => (t =? 0)%Z
  | line :: lines' =>
      match directive line with
      | Some true => nested (t + 1) lines'
      | Some false => (1 <=? t)%Z && nested (t - 1) lines'
      | None => nested t lines'
      end
  end.

(** ** Statistics extractor, SystemVerilog path *)




Fixpoint all_space (ws : string) : bool :=
  match ws with
  | "" => true
  | String c ws' => Chr.is_space c && all_space ws'
  end.


(** ** Source rewriter, stage 6 *)

(** The part of a line before a comment, and what the scan reads in it. *)
Definition code_part (cur : string) : string := hd "" (Py.split "//" cur).

Definition opens (cur : string) : bool := matches begin_re (code_part cur).

Definition closes (cur : string) : bool :=
  matches end_re (code_part cur) && negb (matches end_keyword_re (code_part cur)).

(** The depth after a line of a block. *)
Definition depth_after (d : Z) (cur : string) : Z :=
  ((if opens cur then d + 1 else d) - (if closes cur then 1 else 0))%Z.

Definition depth_through (d : Z) (body : list string) : Z :=
  fold_left depth_after body d.

(** A line that is taken out of the block: a declaration with an
    initializer on a line that closes nothing. *)
Definition declaration (cur : string) : option mobj :=
  if closes cur then None else rmatch logic_re cur.

(** The wire of a declaration that ends on its own line. *)
Definition wire_for (indent cur : string) : option string :=
  match declaration cur with
  | Some m => wire_of indent (grp 2 m) (grp 3 m) [cur]
  | None => None
  end.

Definition wires (indent : string) (body : list string) : list string :=
  omap (wire_for indent) body.

Definition is_declaration (cur : string) : bool :=
  match declaration cur with Some _ => true | None => false end.

Definition kept (body : list string) : list string :=
  List.filter (fun cur => negb (is_declaration cur)) body.

(** The lines of a block that stays open: the depth does not fall below
    one, and every declaration ends on its own line. *)
Fixpoint body_ok (d : Z) (body : list string) : bool :=
  match body with
  | [] => true
  | cur :: body' =>
      (1 <=? depth_after d cur)%Z &&
      match declaration cur with
      | Some m => Py.contains ";" (grp 4 m)
      | None => true
      end &&
      body_ok (depth_after d cur) body'
  end.




(** ** Further vocabulary: texts and matches *)

(** Every character of a text is in a class. *)
Fixpoint all_chars (p : ascii -> bool) (u : string) : bool :=
  match u with
  | "" => true
  | String c u' => p c && all_chars p u'
  end.

(** ** Further vocabulary: name normalizer *)

(** The normalizer without its two OpenFloat rules. *)
Definition prettify_name_without_openfloat (filename : string) : string :=
  let name := Py.splitext_root filename in
  if Py.startswith name "FLOPCO_FP" then name else
  match rule_bits cfg_re "CFG" name with Some r => r | None =>
  match rmatch hardfloat_re name with
  | Some m => "HardFloat" ++ grp 1 m ++ "_" ++ fp_map (grp 2 m) (grp 3 m)
  | None =>
  match rmatch rial_re name with
  | Some m => "Rial" ++ grp 1 m ++ "_" ++ grp 2 m
  | None =>
  let name := Py.replace "ReciprocalATan2Phase1ATan2Phase2" "Atan2" name in
  let name := Py.replace "SqrtACosPhase1ACosPhase2" "Acos" name in
  match rmatch main_re name with
  | Some m => grp 1 m ++ "_" ++ fp_map (grp 3 m) (grp 4 m)
  | None =>
  match rmatch phase_re name with
  | Some m => grp 1 m ++ "_" ++ fp_map (grp 3 m) (grp 4 m)
  | None => name
  end end end end end.

(** The continuation of [re.match]: the match object. *)
Definition final (pre' t' : string) (cs : caps) : option mobj :=
  Some (Mobj "" pre' t' cs).

(** A continuation that succeeds or fails whatever the groups hold. *)
Definition caps_blind {A} (k : string -> string -> caps -> option A) : Prop :=
  ∀ pre' t' c1 c2, is_Some (k pre' t' c1) → is_Some (k pre' t' c2).

(** The part that the HardFloat and OpenFloat patterns share: an
    underscore, digits, an underscore, digits. *)
Definition widths_re : regex :=
  seq [Lit "_"; Grp 2 (Plus d); Lit "_"; Grp 3 (Plus d)].

Definition widths_more_re : regex :=
  seq [Lit "_"; Grp 2 (Plus d); Lit "_"; Grp 3 (Plus d); Lit "_"; Grp 4 (Plus d)].

(** ** Further vocabulary: tool invoker *)

(** The two temporary files of a call. *)
Definition temp_script (W : World) : string := "tmp_" ++ os_getpid W ++ ".ys".

Definition temp_source (W : World) (fn : string) : string :=
  "tmp_" ++ os_getpid W ++ "_" ++ Py.basename fn.

(** The command line of the tool. *)
Definition tool_argv (fn yosyscmd temp_file : string) : list string :=
  if Py.endswith fn ".vhdl" then ["yosys"; "-m"; "ghdl"; "-p"; yosyscmd]
  else ["yosys"; temp_file].

(** What the extractor reads from the output of the tool. *)
Definition extract (fn p : string) : Z * Z :=
  if Py.endswith fn ".vhdl" then (0%Z, sum_cell_counts p) else sv_stats p.

(** The command for a VHDL file. *)
Definition vhdl_command (fn top : string) : string :=
  "ghdl --std=08 -fsynopsys " ++ fn ++ " -e " ++ top ++ "; synth; stat".

Definition nonneg (r : Z * Z) : Prop := (0 <= fst r)%Z ∧ (0 <= snd r)%Z.

(** What a call may do to the outside: log, write and remove its two
    temporary files, add to the log file, run the tool. *)
Definition event_ok (W : World) (fn : string) (ev : event) : Prop :=
  match ev with
  | Log _ _ => True
  | WriteFile path _ | RemoveFile path => path = temp_script W ∨ path = temp_source W fn
  | AppendFile path _ => path = log_file W
  | RunTool argv => ∃ yosyscmd, argv = tool_argv fn yosyscmd (temp_script W)
  end.

Definition runs (t : list event) : nat := length (List.filter is_run t).

(** The removals of the [finally] clause. *)
Definition cleanups (W : World) (fn : string) : list event :=
  (cleanup W "temporary file" (temp_script W) ++
   match preprocessed_name W fn with
   | Some f => cleanup W "preprocessed file" f
   | None => []
   end)%list.

(** An event before the script is written: a message, or the write of
    the rewritten source. *)
Definition is_prelude (W : World) (fn : string) (ev : event) : Prop :=
  is_log ev = true
  ∨ (preprocessed_name W fn = Some (temp_source W fn)
     ∧ ∃ text, ev = WriteFile (temp_source W fn) text).

(** What a call did to the outside, its messages left out. *)
Definition actions (t : list event) : list event :=
  List.filter (fun ev => negb (is_log ev)) t.

(** The removal of a file that exists. *)
Definition removal (W : World) (path : string) : list event :=
  if os_path_exists W path then [RemoveFile path] else [].

(** The events and the value of a call that got as far as the script. *)
Definition after_script (fn : string) (prelude : list event) (wr : M (Z * Z))
    : list event * (Z * Z) :=
  match wr with
  | (tw, Ok r) => ((prelude ++ tw)%list, r)
  | (tw, Raise e) =>
      ((prelude ++ tw ++
        [Log "ERROR" ("Unexpected error processing " ++ fn ++ ": " ++ message e)])%list,
       (0%Z, 0%Z))
  end.

(** ** Further vocabulary: source rewriter *)

(** The two tests of stage 3 on a line: it opens a verification section,
    it is blank. *)
Definition section_marker (line : string) : bool :=
  Py.contains ("FILE " ++ String Chr.dquote "verification/") line ||
  Py.contains ("FILE " ++ String Chr.dquote "layers-") line.

Definition blank (line : string) : bool := String.eqb (Py.strip line) "".

(** The three directives of the marker that stage 5 looks for. *)
Definition marker_directive (line : string) : bool :=
  Py.contains marker line &&
  (matches ifdef_marker_re line || matches ifndef_marker_re line
   || matches endif_marker_re line).

(** ** Further vocabulary: the top module, read from the text *)

(** The longest run of characters of a class at the head of a text, and
    the text after it. *)
Fixpoint take_while (p : ascii -> bool) (t : string) : string :=
  match t with
  | String c t' => if p c then String c (take_while p t') else ""
  | "" => ""
  end.

Fixpoint drop_while (p : ascii -> bool) (t : string) : string :=
  match t with
  | String c t' => if p c then drop_while p t' else t
  | "" => ""
  end.

(** A word can begin where no character of a word stands before;
    [before] is the text before the place, backwards. *)
Definition starts_word (before : string) : bool :=
  match before with
  | String c _ => negb (Chr.is_word c)
  | "" => true
  end.

(** A module declaration at the head of a text: the word [module],
    white space, a name, white space or none, and an opening parenthesis
    or a hash sign.  The result is the name and the number of characters
    of the declaration. *)
Definition declaration_at (before t : string) : option (string * nat) :=
  if starts_word before && Py.startswith t "module" then
    let t1 := Py.drop 6 t in
    let ws := take_while Chr.is_space t1 in
    let t2 := drop_while Chr.is_space t1 in
    let name := take_while Chr.is_word t2 in
    let t3 := drop_while Chr.is_word t2 in
    let ws' := take_while Chr.is_space t3 in
    match ws, name, drop_while Chr.is_space t3 with
    | String _ _, String _ _, String c _ =>
        if Ascii.eqb c "(" || Ascii.eqb c "#"
        then Some (name, 6 + String.length ws + String.length name + String.length ws' + 1)
        else None
    | _, _, _ => None
    end
  else None.

(** The names of the declarations of a text, from left to right; a
    declaration begins after the end of the one before.  [skip] counts
    the characters of a declaration still to be passed over. *)
Fixpoint declared_from (skip : nat) (before t : string) : list string :=
  match t with
  | "" => []
  | String c t' =>
      match skip with
      | S n => declared_from n (String c before) t'
      | O =>
          match declaration_at before t with
          | Some (name, len) => name :: declared_from (len - 1) (String c before) t'
          | None => declared_from 0 (String c before) t'
          end
      end
  end.

Definition declared_modules (content : string) : list string :=
  declared_from 0 "" content.

(** A letter of a word looked for, in small type, and a character of
    the text that is this letter in small or in capital type. *)
Definition same_letter (w x : ascii) : bool :=
  Ascii.eqb w x || (Chr.between 65 90 x && (Chr.code x + 32 =? Chr.code w)%nat).

Fixpoint begins_with_word (word t : string) : bool :=
  match word, t with
  | "", _ => true
  | String w word', String x t' => same_letter w x && begins_with_word word' t'
  | String _ _, "" => false
  end.

(** A name mentions a word when the word stands somewhere in it, in
    small or capital letters. *)
Fixpoint mentions (word t : string) : bool :=
  begins_with_word word t ||
  match t with
  | String _ t' => mentions word t'
  | "" => false
  end.

Definition excluded (name : string) : bool :=
  existsb (fun word => mentions word name)
          ["verification"; "assert"; "assume"; "cover"; "layer"].

(** The top module as the description of the resolver gives it: of the
    declared modules that are not excluded, the one named like the file,
    otherwise the last one; the name of the file when there is none. *)
Definition described_top_module (base content : string) : string :=
  let names := List.filter (fun name => negb (excluded name)) (declared_modules content) in
  if existsb (String.eqb base) names then base else List.last names base.

(** All characters. *)
Definition all_ascii : list ascii := List.map ascii_of_nat (List.seq 0 256).

(** ** Instances on concrete inputs *)

(** An environment with one VHDL file and one SystemVerilog file, where
    every write succeeds and the tool prints a small statistics block. *)
Definition sample_world : World := {|
  read_text := fun path =>
    if String.eqb path "adder.vhdl" then
      Ok (Py.join Py.nl ["entity helper is"; "end entity;"; "ENTITY Adder is"; "end entity;"])
    else if String.eqb path "top.sv" then
      Ok (Py.join Py.nl ["module sub(input a);"; "endmodule"; "module top(input b);";
                         "endmodule"])
    else Raise (Exn FileNotFoundError "No such file or directory");
  write_text := fun _ _ => Ok tt;
  append_text := fun _ _ => Ok tt;
  subprocess_run := fun _ =>
    Ok (Completed (Py.join Py.nl ["Printing statistics."; "   Number of wire bits: 9";
                                  "   Number of cells: 4"; ""]) "" 0);
  os_path_exists := fun _ => true;
  os_remove := fun _ => Ok tt;
  os_getpid := "4242";
  os_path_abspath := fun path => "/work/" ++ path;
  script_dir := "/work/scripts"
|}.

(** The same environment on a file system that takes no writes. *)
Definition readonly_world : World := {|
  read_text := read_text sample_world;
  write_text := fun _ _ => Raise (Exn OSError "Read-only file system");
  append_text := fun _ _ => Raise (Exn OSError "Read-only file system");
  subprocess_run := subprocess_run sample_world;
  os_path_exists := fun _ => false;
  os_remove := fun _ => Ok tt;
  os_getpid := "4242";
  os_path_abspath := fun path => "/work/" ++ path;
  script_dir := "/work/scripts"
|}.

(** An environment with SystemVerilog files of several modules: a
    design whose modules are named unlike the file, the same text under
    the name of its first module, and a file of checks only; and a VHDL
    file whose last entity has a letter beyond the first 128 codes in its
    name. *)
Definition design_text : string :=
  Py.join Py.nl ["module alu ("; "  input a);"; "endmodule";
                 "module Cover_alu(input a);"; "endmodule";
                 "module core #("; "  parameter N = 1) (input b);"; "endmodule";
                 "module LAYER_core(input b);"; "endmodule"; ""].

Definition design_world : World := {|
  read_text := fun path =>
    if String.eqb path "rtl/design.sv" then Ok design_text
    else if String.eqb path "rtl/alu.sv" then Ok design_text
    else if String.eqb path "rtl/checks.sv" then
      Ok (Py.join Py.nl ["module checks_ASSERT(input a);"; "endmodule";
                         "module Verification_top(input a);"; "endmodule"; ""])
    else if String.eqb path "zaehler.vhdl" then
      (* an entity name with the letter of code 228, a with diaeresis *)
      Ok (Py.join Py.nl ["entity first is"; "end entity;";
                         "Entity Z" ++ String "228" "hler is"; "end entity;"])
    else Raise (Exn FileNotFoundError "No such file or directory");
  write_text := fun _ _ => Ok tt;
  append_text := fun _ _ => Ok tt;
  subprocess_run := subprocess_run sample_world;
  os_path_exists := fun _ => true;
  os_remove := fun _ => Ok tt;
  os_getpid := "4242";
  os_path_abspath := fun path => "/work/" ++ path;
  script_dir := "/work/scripts"
|}.

(** The environment [sample_world] where no file can be removed. *)
Definition stuck_world : World := {|
  read_text := read_text sample_world;
  write_text := write_text sample_world;
  append_text := append_text sample_world;
  subprocess_run := subprocess_run sample_world;
  os_path_exists := fun _ => true;
  os_remove := fun _ => Raise (Exn OSError "Permission denied");
  os_getpid := "4242";
  os_path_abspath := fun path => "/work/" ++ path;
  script_dir := "/work/scripts"
|}.

(** * Properties *)

(** ** Parallel driver *)

Section Driver.

Variable result : nat -> outcome (Z * Z).
Variable files : list string.

Lemma results_step_eq results future :
  results_step result files results future =
  match files !! future with
  | Some file => <[file := value_of (result future)]> results
  | None => results
  end.
Proof.
  unfold results_step. destruct (files !! future); [|done].
  by destruct (result future).
Qed.

(** The keys after the loop: those before it and the files of the
    futures seen. *)
Lemma fold_results_dom order results :
  dom (fold_left (results_step result files) order results) =
  dom results ∪ list_to_set (omap (files !!.) order).
Proof.
  revert results. induction order as [|i order IH]; intros results; simpl.
  - set_solver.
  - rewrite IH, results_step_eq. destruct (files !! i) as [file|]; simpl.
    + rewrite dom_insert_L. set_solver.
    + done.
Qed.

(** The entry of a file after the loop comes from one of its futures, or
    was there before. *)
Lemma fold_results_lookup order results file :
  fold_left (results_step result files) order results !! file = results !! file ∨
  ∃ i, i ∈ order ∧ files !! i = Some file ∧
       fold_left (results_step result files) order results !! file
       = Some (value_of (result i)).
Proof.
  revert results. induction order as [|i order IH]; intros results; simpl.
  - by left.
  - destruct (IH (results_step result files results i)) as [Heq | (j & Hj & Hf & Heq)].
    + rewrite Heq, results_step_eq. destruct (files !! i) as [f|] eqn:Hi; [|by left].
      destruct (decide (f = file)) as [->|Hne].
      * right. exists i. rewrite lookup_insert_eq. split; [set_solver | done].
      * left. by rewrite lookup_insert_ne.
    + right. exists j. split; [set_solver | done].
Qed.

Lemma files_of_order order :
  order ≡ₚ List.seq 0 (length files) →
  list_to_set (C := gset string) (omap (files !!.) order) = list_to_set files.
Proof.
  intros Hp. apply set_eq. intros x.
  rewrite !elem_of_list_to_set, list_elem_of_omap. split.
  - intros (i & _ & Hi). by eapply list_elem_of_lookup_2.
  - intros Hx. apply list_elem_of_lookup_1 in Hx as [i Hi]. exists i. split; [|done].
    rewrite Hp. apply elem_of_seq. apply lookup_lt_Some in Hi. lia.
Qed.

End Driver.

(** C1.  For every list of input files and every completion order of
    their futures, the mapping returned by [process_files] has exactly
    the input files as keys; the entry of a file is the outcome of one of
    its own futures; and for a file submitted once the entry is [(0, 0)]
    when its future raises and the value of its worker otherwise. *)
Theorem process_files_one_entry_per_file
    (result : nat -> outcome (Z * Z)) (order : list nat) (files : list string) :
  order ≡ₚ List.seq 0 (length files) →
  dom (process_files result order files) = list_to_set files
  ∧ (∀ file, file ∈ files →
       ∃ i, files !! i = Some file ∧
            process_files result order files !! file = Some (value_of (result i)))
  ∧ (∀ i file e, files !! i = Some file → (∀ j, files !! j = Some file → j = i) →
       result i = Raise e →
       process_files result order files !! file = Some (0%Z, 0%Z))
  ∧ (∀ i file r, files !! i = Some file → (∀ j, files !! j = Some file → j = i) →
       result i = Ok r →
       process_files result order files !! file = Some r).
Proof.
  intros Hp. unfold process_files.
  assert (Hdom : dom (fold_left (results_step result files) order ∅)
                 = list_to_set (C := gset string) files).
  { rewrite fold_results_dom, files_of_order by done. set_solver. }
  assert (Hsome : ∀ file, file ∈ files →
            ∃ i, files !! i = Some file ∧
                 fold_left (results_step result files) order ∅ !! file
                 = Some (value_of (result i))).
  { intros file Hin.
    destruct (fold_results_lookup result files order ∅ file) as [Heq | (i & _ & Hi & Heq)].
    - exfalso. rewrite lookup_empty in Heq.
      apply (not_elem_of_dom_2 (D := gset string)) in Heq. apply Heq.
      rewrite Hdom. set_solver.
    - eauto. }
  split; [done|]. split; [done|]. split.
  - intros i file e Hi Huniq Hr.
    destruct (Hsome file) as (j & Hj & Heq); [by eapply list_elem_of_lookup_2|].
    apply Huniq in Hj as ->. by rewrite Heq, Hr.
  - intros i file r Hi Huniq Hr.
    destruct (Hsome file) as (j & Hj & Heq); [by eapply list_elem_of_lookup_2|].
    apply Huniq in Hj as ->. by rewrite Heq, Hr.
Qed.

(** ** Statistics extractor, VHDL path *)

Lemma fold_add_cells lines total :
  fold_left add_cells lines total = (total + sum_counts lines)%Z.
Proof.
  revert total. induction lines as [|l lines IH]; intros total; simpl; [lia|].
  rewrite IH. unfold add_cells, cell_count. destruct (rmatch cells_re l); lia.
Qed.

Lemma last_index_fold (lines : list string) (n : nat) (acc : option nat) :
  fold_left (fun last (il : nat * string) =>
               if Py.contains "Printing statistics." (snd il) then Some (fst il) else last)
            (combine (List.seq n (length lines)) lines) acc
  = match last (List.filter (fun il : nat * string => has_marker (snd il))
                            (combine (List.seq n (length lines)) lines)) with
    | Some il => Some (fst il)
    | None => acc
    end.
Proof.
  revert n acc. induction lines as [|l lines IH]; intros n acc; simpl; [done|].
  rewrite IH. unfold has_marker at 2. destruct (Py.contains _ l) eqn:Hl; simpl; [|done].
  rewrite last_cons.
  by destruct (last (List.filter _ _)).
Qed.

Lemma filter_markers_none (lines : list string) (n : nat) :
  Forall (fun l => has_marker l = false) lines →
  List.filter (fun il : nat * string => has_marker (snd il))
              (combine (List.seq n (length lines)) lines) = [].
Proof.
  intros H. revert n. induction H as [|l lines Hl _ IH]; intros n; simpl; [done|].
  by rewrite Hl, IH.
Qed.

Lemma combine_append {A B} (l1 l2 : list A) (k1 k2 : list B) :
  length l1 = length k1 →
  combine (l1 ++ l2) (k1 ++ k2) = (combine l1 k1 ++ combine l2 k2)%list.
Proof.
  revert k1. induction l1 as [|a l1 IH]; intros [|b k1] H; simpl in *; try done.
  f_equal. apply IH. lia.
Qed.

Lemma last_stats_index_none lines :
  Forall (fun l => has_marker l = false) lines → last_stats_index lines = None.
Proof.
  intros H. unfold last_stats_index, enumerate.
  by rewrite last_index_fold, filter_markers_none.
Qed.

Lemma last_stats_index_split pre m post :
  has_marker m = true → Forall (fun l => has_marker l = false) post →
  last_stats_index (pre ++ m :: post) = Some (length pre).
Proof.
  intros Hm Hpost. unfold last_stats_index, enumerate.
  rewrite last_index_fold.
  rewrite length_app, seq_app, combine_append by (by rewrite length_seq).
  rewrite List.filter_app, last_app. simpl. rewrite Hm.
  by rewrite filter_markers_none.
Qed.

(** C8.  [sum_cell_counts] is [0] when no line of the stripped output has
    the marker; otherwise it is the sum of the counts of the lines from
    the last marker line on, whatever comes before that line. *)
Theorem sum_cell_counts_after_last_marker (text : string) :
  let lines := Py.split Py.nl (Py.strip text) in
  (Forall (fun l => has_marker l = false) lines → sum_cell_counts text = 0%Z)
  ∧ (∀ pre m post,
       lines = (pre ++ m :: post)%list →
       has_marker m = true →
       Forall (fun l => has_marker l = false) post →
       sum_cell_counts text = sum_counts (m :: post)).
Proof.
  intros lines. split.
  - intros H. unfold sum_cell_counts. fold lines. by rewrite last_stats_index_none.
  - intros pre m post Hl Hm Hpost. unfold sum_cell_counts. fold lines. rewrite Hl.
    rewrite last_stats_index_split by done.
    rewrite drop_app_length, fold_add_cells. lia.
Qed.

(** ** Tool invoker *)

Section Invoker.

Variable W : World.

Lemma snd_finally {A} (m : list event * A) (c : list event) : snd (finally m c) = snd m.
Proof. done. Qed.

Lemma fst_finally {A} (m : list event * A) (c : list event) :
  fst (finally m c) = (fst m ++ c)%list.
Proof. done. Qed.

(** What the VHDL path returns once the script is written: a pair whose
    wire-bit count is [0], or an exception of the write. *)
Lemma write_and_run_vhdl fn top pf yosyscmd temp_file :
  Py.endswith fn ".vhdl" = true →
  match snd (write_and_run W fn top pf yosyscmd temp_file) with
  | Ok r => fst r = 0%Z
  | Raise _ => True
  end.
Proof.
  intros Hv. unfold write_and_run, bind, act.
  destruct (write_text W temp_file yosyscmd); [|done].
  destruct (run_yosys W fn top pf yosyscmd temp_file) as [t [p|]]; [|done].
  unfold parse_output. rewrite Hv. done.
Qed.

End Invoker.

(** C10.  For a file whose name ends in [.vhdl], the pair returned by
    [yosys] has wire-bit count [0], whatever the environment and the
    output of the tool. *)
Theorem yosys_vhdl_wire_bits_zero (W : World) (fn : string) :
  Py.endswith fn ".vhdl" = true → fst (snd (yosys W fn)) = 0%Z.
Proof.
  intros Hv. unfold yosys. rewrite snd_finally, Hv.
  unfold catch, bind.
  destruct (snd (get_top_entity W fn)) as [top|]; [|done].
  unfold log.
  pose proof (write_and_run_vhdl W fn top None
    ("ghdl --std=08 -fsynopsys " ++ fn ++ " -e " ++ top ++ "; synth; stat")
    ("tmp_" ++ os_getpid W ++ ".ys") Hv) as Hw.
  destruct (write_and_run W fn top None _ _) as [t [r|e]]; simpl in *; done.
Qed.

(** ** The regular expression matcher *)

Section Matcher.

Context {A : Type}.

(** A repetition hands a position to its continuation that is not before
    the one it started from. *)
Lemma star_m_grows (p : ascii -> bool) (k : string -> string -> option A) s pre x :
  star_m p pre s k = Some x →
  ∃ pre' s', k pre' s' = Some x ∧ (String.length pre <= String.length pre')%nat.
Proof.
  revert pre. induction s as [|c s IH]; intros pre; simpl.
  - intros H. exists pre, "". eauto.
  - destruct (p c).
    + unfold orelse. destruct (star_m p (String c pre) s k) eqn:Hs.
      * intros [= ->]. apply IH in Hs as (pre' & s' & Hk & Hlen).
        exists pre', s'. simpl in Hlen. split; [done | lia].
      * intros H. exists pre, (String c s). eauto.
    + intros H. exists pre, (String c s). eauto.
Qed.

End Matcher.

Lemma unrev_length n pre acc :
  (String.length acc <= String.length (unrev n pre acc))%nat.
Proof.
  revert pre acc. induction n as [|n IH]; intros [|c pre] acc; simpl; try lia.
  specialize (IH pre (String c acc)). simpl in IH. lia.
Qed.

(** The text between two positions is not empty when the second lies
    after the first. *)
Lemma span_nonempty pre pre' :
  (String.length pre < String.length pre')%nat → span pre pre' ≠ "".
Proof.
  intros Hlt. unfold span.
  destruct (String.length pre' - String.length pre)%nat as [|n] eqn:Hn; [lia|].
  destruct pre' as [|c pre']; [simpl in Hlt; lia|]. simpl.
  pose proof (unrev_length n pre' (String c "")) as Hl. intros Heq.
  rewrite Heq in Hl. simpl in Hl. lia.
Qed.

(** [re.search] finds nothing exactly when [re.finditer] yields nothing. *)
Lemma finditer_search_none icase r pre s :
  search_from icase r pre s = None → finditer_from icase r 0 pre s = [].
Proof.
  revert pre. induction s as [|c s IH]; intros pre; simpl; unfold orelse.
  - by destruct (match_at icase r pre "").
  - destruct (match_at icase r pre (String c s)); [done|]. apply IH.
Qed.

(** ** Top entity of a VHDL file *)

Lemma word_after_nonempty m w : word_after m = Some w → w ≠ "".
Proof.
  unfold word_after, rmatch, match_at, next_word_re. simpl.
  destruct (star_m _ _ _ _) as [x|] eqn:Hs; [|done]. simpl. intros [= <-].
  apply star_m_grows in Hs as (pre1 & s1 & Hk & _).
  destruct s1 as [|c s1]; [done|]. destruct (w c); [|done].
  apply star_m_grows in Hk as (pre2 & s2 & [= <-] & Hlen).
  unfold grp, group. simpl. apply span_nonempty. simpl in Hlen. lia.
Qed.

Lemma fold_entity_match ms acc :
  fold_left entity_match ms acc = from_option Some acc (last (omap word_after ms)).
Proof.
  revert acc. induction ms as [|m ms IH]; intros acc; [done|].
  assert (Hm : entity_match acc m = from_option Some acc (word_after m)).
  { unfold entity_match, word_after. by destruct (rmatch next_word_re _). }
  cbn [fold_left]. rewrite IH, Hm. cbn [omap list_omap].
  destruct (word_after m); simpl; [|done].
  rewrite last_cons. by destruct (last _).
Qed.

Lemma entity_line_names acc line :
  entity_line acc line = from_option Some acc (last (names_in_line line)).
Proof.
  unfold entity_line, names_in_line, isearch.
  destruct (search_from true entity_re "" line) eqn:Hs.
  - apply fold_entity_match.
  - unfold finditer. by rewrite finditer_search_none.
Qed.

Lemma fold_entity_line lines acc :
  fold_left entity_line lines acc
  = from_option Some acc (last (List.flat_map names_in_line lines)).
Proof.
  revert acc. induction lines as [|l lines IH]; intros acc; simpl; [done|].
  rewrite IH, entity_line_names, last_app.
  by destruct (last (List.flat_map _ lines)).
Qed.

Lemma last_entity_names content : last_entity content = last (entity_names content).
Proof.
  unfold last_entity, entity_names. rewrite fold_entity_line.
  by destruct (last _).
Qed.



Lemma get_top_entity_quiet W fn :
  Forall (fun ev => is_run ev = false) (fst (get_top_entity W fn)).
Proof.
  unfold get_top_entity, catch, bind, lift, log, ret.
  destruct (read_text W fn); simpl; [|repeat constructor].
  destruct (last_entity a) as [[|c w']|]; simpl; repeat constructor.
Qed.


(** ** Rewrite fallback *)

Lemma preprocess_fails_on_read W fn e :
  read_text W fn = Raise e → snd (preprocess_sv_file W fn) = None.
Proof. intros Hr. unfold preprocess_sv_file, catch, bind, lift. by rewrite Hr. Qed.

Lemma preprocess_none_is_read_failure W fn :
  snd (preprocess_sv_file W fn) = None → ∃ e, read_text W fn = Raise e.
Proof.
  unfold preprocess_sv_file, catch, bind, lift, ret.
  destruct (read_text W fn); [done | eauto].
Qed.

Lemma fst_catch {A} (m : M A) (h : exn -> list event * A) :
  fst (catch m h) =
  (fst m ++ match snd m with Ok _ => [] | Raise e => fst (h e) end)%list.
Proof. destruct m as [t [a|e]]; simpl; [by rewrite app_nil_r|]. by destruct (h e). Qed.

Lemma snd_catch {A} (m : M A) (h : exn -> list event * A) :
  snd (catch m h) = match snd m with Ok a => a | Raise e => snd (h e) end.
Proof. destruct m as [t [a|e]]; simpl; [done|]. by destruct (h e). Qed.

Lemma fst_bind {A B} (m : M A) (f : A -> M B) :
  fst (bind m f) =
  (fst m ++ match snd m with Ok a => fst (f a) | Raise _ => [] end)%list.
Proof. destruct m as [t [a|e]]; simpl; [by destruct (f a)|by rewrite app_nil_r]. Qed.

Lemma snd_bind {A B} (m : M A) (f : A -> M B) :
  snd (bind m f) = match snd m with Ok a => snd (f a) | Raise e => Raise e end.
Proof. destruct m as [t [a|e]]; simpl; [by destruct (f a)|done]. Qed.

(** The debug report of a failed run only logs, and returns. *)
Lemma report_failure_logs fn result :
  snd (report_failure fn result) = Ok tt ∧
  Forall (fun ev => is_log ev = true) (fst (report_failure fn result)).
Proof.
  unfold report_failure, ret, log.
  destruct (returncode result =? 0)%Z; [by split|].
  destruct (stderr result); [by split|].
  destruct (List.map _ _); [by split|]. split; [done|]. by repeat constructor.
Qed.

Section Fallback.

Variable W : World.
Variables fn top yosyscmd temp_file : string.
Variable pf : option string.
Hypothesis Hsv : Py.endswith fn ".vhdl" = false.

(** The run of the tool on a SystemVerilog file: the first event is the
    run of the script, no file is written, and the output comes back when
    the run and the log entry succeed. *)
Lemma run_yosys_sv :
  ∃ rest,
    fst (run_yosys W fn top pf yosyscmd temp_file) = RunTool ["yosys"; temp_file] :: rest
    ∧ Forall (fun ev => is_write ev = false) rest
    ∧ ∀ result,
        subprocess_run W ["yosys"; temp_file] = Ok result →
        append_text W (log_file W)
          (log_text fn top pf yosyscmd (stdout result) (stderr result)) = Ok tt →
        snd (run_yosys W fn top pf yosyscmd temp_file) = Some (stdout result).
Proof.
  unfold run_yosys. rewrite Hsv.
  destruct (subprocess_run W ["yosys"; temp_file]) as [result|er] eqn:Hrun.
  - destruct (report_failure_logs fn result) as [Hok Hlogs].
    destruct (report_failure fn result) as [tr rr] eqn:Hrep. simpl in Hok, Hlogs.
    subst rr.
    destruct (append_text W (log_file W)
                (log_text fn top pf yosyscmd (stdout result) (stderr result)))
      as [[]|ea] eqn:Ha.
    + unfold catch, bind, act, ret. rewrite Ha, Hrep. simpl. eexists. split; [done|].
      split.
      * constructor; [done|]. rewrite !Forall_app. split; [|by constructor].
        eapply Forall_impl; [exact Hlogs|]. by intros [] ?.
      * by intros r [= <-] _.
    + unfold catch, bind, act. rewrite Ha. simpl.
      destruct (kind ea); simpl; (eexists; split; [done|]);
        (split; [by repeat constructor | intros r [= <-] ?; congruence]).
  - unfold catch, bind. simpl.
    destruct (kind er); simpl; (eexists; split; [done|]);
      (split; [by repeat constructor | done]).
Qed.

Lemma write_and_run_sv :
  ∃ mid,
    fst (write_and_run W fn top pf yosyscmd temp_file) = WriteFile temp_file yosyscmd :: mid
    ∧ Forall (fun ev => is_write ev = false) mid
    ∧ (write_text W temp_file yosyscmd = Ok tt →
       RunTool ["yosys"; temp_file] ∈ mid
       ∧ ∀ result,
           subprocess_run W ["yosys"; temp_file] = Ok result →
           append_text W (log_file W)
             (log_text fn top pf yosyscmd (stdout result) (stderr result)) = Ok tt →
           snd (write_and_run W fn top pf yosyscmd temp_file)
           = Ok (sv_stats (stdout result))).
Proof.
  destruct run_yosys_sv as (rest & Hfst & Hrest & Hres).
  unfold write_and_run, bind, act.
  destruct (write_text W temp_file yosyscmd) as [[]|ew].
  - destruct (run_yosys W fn top pf yosyscmd temp_file) as [t [p|]] eqn:Hrun;
      simpl in Hfst; subst t.
    + unfold parse_output. rewrite Hsv. simpl. eexists. split; [done|]. split.
      * rewrite app_nil_r. by constructor.
      * intros _. split; [set_solver|].
        intros result Hr Ha. specialize (Hres result Hr Ha). simpl in Hres.
        by injection Hres as ->.
    + simpl. eexists. split; [done|]. split; [by constructor|].
      intros _. split; [set_solver|].
      intros result Hr Ha. by specialize (Hres result Hr Ha).
  - eexists. split; [done|]. split; [constructor | done].
Qed.

End Fallback.

(** C9.  When the read of a SystemVerilog file raises, [preprocess_sv_file]
    returns [None]; [yosys] then logs the warning and writes, as the only
    file, the script that reads the original path, with the same
    commands after the reading as the script for a rewritten file; if
    that write succeeds, the tool is run on the script, and when the run
    and the log entry succeed too, the result is what the extractor reads
    from the output of the tool. *)
Theorem yosys_falls_back_to_original (W : World) (fn : string) (e : exn) :
  Py.endswith fn ".vhdl" = false →
  read_text W fn = Raise e →
  let temp_file := "tmp_" ++ os_getpid W ++ ".ys" in
  let script := fallback_script W fn in
  snd (preprocess_sv_file W fn) = None
  ∧ script = "read -sv " ++ os_path_abspath W fn ++ Py.nl
             ++ pipeline (snd (get_top_module W fn))
  ∧ (∀ path top, preprocessed_script path top
                 = "read_verilog -sv " ++ path ++ Py.nl ++ pipeline top)
  ∧ fallback_warning fn ∈ fst (yosys W fn)
  ∧ WriteFile temp_file script ∈ fst (yosys W fn)
  ∧ (∀ path text, WriteFile path text ∈ fst (yosys W fn) →
       path = temp_file ∧ text = script)
  ∧ (write_text W temp_file script = Ok tt →
       RunTool ["yosys"; temp_file] ∈ fst (yosys W fn)
       ∧ ∀ result,
           subprocess_run W ["yosys"; temp_file] = Ok result →
           append_text W (log_file W)
             (log_text fn (snd (get_top_module W fn)) None script
                (stdout result) (stderr result)) = Ok tt →
           snd (yosys W fn) = sv_stats (stdout result)).
Proof.
  intros Hv Hr temp_file script.
  pose proof (preprocess_fails_on_read W fn e Hr) as Hnone.
  split; [done|]. split; [done|]. split; [done|].
  assert (Hpre : preprocess_sv_file W fn =
                 ([Log "ERROR" ("Error preprocessing " ++ fn ++ ": " ++ message e);
                   Log "DEBUG" "Preprocessing traceback: "], None)).
  { unfold preprocess_sv_file, catch, bind, lift. by rewrite Hr. }
  assert (Htop : fst (get_top_module W fn) =
                 [Log "DEBUG" ("Error reading " ++ fn ++ " for module name: " ++ message e)]).
  { unfold get_top_module, catch, bind, lift. by rewrite Hr. }
  destruct (write_and_run_sv W fn (snd (get_top_module W fn)) script temp_file None Hv)
    as (mid & Hfst & Hmid & Hrun).
  destruct (write_and_run W fn (snd (get_top_module W fn)) None script temp_file)
    as [tw rw] eqn:Hwr.
  simpl in Hfst, Hrun. subst tw.
  assert (Hev : ∃ l1 l2,
             fst (yosys W fn) = (l1 ++ fallback_warning fn :: WriteFile temp_file script
                                   :: mid ++ l2)%list
             ∧ Forall (fun ev => is_write ev = false) l1
             ∧ Forall (fun ev => is_write ev = false) l2).
  { unfold yosys. rewrite fst_finally, fst_catch, Hv.
    rewrite !fst_bind, !snd_bind. simpl. rewrite Hpre, Htop. simpl.
    fold temp_file. fold (fallback_script W fn). fold script. rewrite Hwr. simpl.
    eexists [_; _; _], _. split.
    - simpl. rewrite <- !app_assoc. done.
    - split; [by repeat constructor|].
      rewrite Forall_app. split.
      + destruct rw; by repeat constructor.
      + unfold preprocessed_name. rewrite Hv, Hnone, app_nil_r. unfold cleanup.
        destruct (os_path_exists W temp_file); [|constructor].
        destruct (os_remove W temp_file); by repeat constructor. }
  destruct Hev as (l1 & l2 & Hev & Hl1 & Hl2).
  rewrite Hev. split; [set_solver|]. split; [set_solver|]. split.
  - intros path text Hin.
    rewrite elem_of_app, !elem_of_cons, elem_of_app in Hin.
    rewrite Forall_forall in Hl1, Hl2, Hmid.
    destruct Hin as [Hin | [Hin | [Hin | [Hin | Hin]]]].
    + by apply Hl1 in Hin.
    + done.
    + by injection Hin as -> ->.
    + by apply Hmid in Hin.
    + by apply Hl2 in Hin.
  - intros Hw. destruct (Hrun Hw) as [Hin Hres]. split; [set_solver|].
    intros result Hr' Ha. specialize (Hres result Hr' Ha).
    unfold yosys. rewrite snd_finally, snd_catch, Hv.
    rewrite !snd_bind. simpl. rewrite Hnone. simpl.
    fold temp_file. fold (fallback_script W fn). fold script. rewrite Hwr. simpl.
    by rewrite Hres.
Qed.

(** ** Top module of a SystemVerilog file *)

Lemma fold_candidates (ms : list mobj) (acc : list string) :
  fold_left (fun candidates m =>
               let name := grp 1 m in
               if is_skipped name then candidates else (candidates ++ [name])%list)
            ms acc
  = (acc ++ List.filter (fun name => negb (is_skipped name)) (grp 1 <$> ms))%list.
Proof.
  revert acc. induction ms as [|m ms IH]; intros acc; simpl.
  - by rewrite app_nil_r.
  - rewrite IH. destruct (is_skipped (grp 1 m)); simpl; [done|].
    by rewrite <- app_assoc.
Qed.

Lemma candidates_remaining content : candidates content = remaining content.
Proof. unfold candidates, remaining, module_names. by rewrite fold_candidates. Qed.

Lemma list_last_default (l : list string) (d c : string) :
  last l = Some c → List.last l d = c.
Proof.
  induction l as [|a l IH]; [done|]. destruct l as [|b l].
  - by intros [= ->].
  - rewrite last_cons_cons. intros H. change (List.last (b :: l) d = c). by apply IH.
Qed.

Lemma top_of_base base cands : base ∈ cands → top_of base cands = base.
Proof.
  intros Hin. unfold top_of. destruct cands as [|c0 cands]; [done|].
  destruct (List.find _ (c0 :: cands)) as [c|] eqn:Hf.
  - apply find_some in Hf as [_ Heq]. by apply String.eqb_eq in Heq.
  - apply list_elem_of_In in Hin. eapply find_none in Hf; [|exact Hin].
    by rewrite String.eqb_refl in Hf.
Qed.

Lemma top_of_last base cands c :
  base ∉ cands → last cands = Some c → top_of base cands = c.
Proof.
  intros Hnot Hl. unfold top_of. destruct cands as [|c0 cands]; [done|].
  destruct (List.find _ (c0 :: cands)) as [c'|] eqn:Hf.
  - apply find_some in Hf as [Hin Heq]. apply String.eqb_eq in Heq. subst c'.
    by apply list_elem_of_In in Hin.
  - by apply list_last_default.
Qed.


(** ** Name normalizer *)

Lemma lit_m_mismatch l pre s :
  Py.startswith s l = false → lit_m false l pre s = None.
Proof.
  revert pre s. induction l as [|a l IH]; intros pre [|b s]; simpl; try done.
  destruct (Ascii.eqb a b); simpl; [apply IH | done].
Qed.

(** A pattern that begins with a literal does not match a text that does
    not begin with it. *)
Lemma match_literal_first {A} l r pre s cs (k : string -> string -> caps -> option A) :
  Py.startswith s l = false → run false (Cat (Lit l) r) pre s cs k = None.
Proof. intros H. cbn [run]. by rewrite lit_m_mismatch. Qed.

Lemma match_group_literal_first {A} n l r r' pre s cs
    (k : string -> string -> caps -> option A) :
  Py.startswith s l = false →
  run false (Cat (Grp n (Cat (Lit l) r)) r') pre s cs k = None.
Proof. intros H. cbn [run]. by rewrite lit_m_mismatch. Qed.

Lemma startswith_longer s l l' :
  Py.startswith s l = false → Py.startswith s (l ++ l') = false.
Proof.
  revert s. induction l as [|a l IH]; intros [|b s]; simpl; try done.
  destruct (Ascii.eqb a b); simpl; [apply IH | done].
Qed.

Lemma replace_absent old new s :
  Py.contains old s = false → Py.replace old new s = s.
Proof.
  unfold Py.replace. induction s as [|c s IH]; [done|].
  cbn [Py.contains Py.replace_aux]. intros H.
  apply orb_false_iff in H as [H1 H2]. rewrite H1. f_equal. by apply IH.
Qed.


(** ** Source rewriter, stage 5 *)

(** C4 fails on the code.  In a guarded block that holds a nested guard
    of the form [`ifndef ENABLE_INITIAL_REG_], the nested opening sets the
    depth to [1] where the opening with [`ifdef] adds [1]: the line after
    the nested block is kept although it lies in the guarded block, the
    pass ends with depth [-1], and a guarded block that follows is not
    removed either. *)
Lemma skip_pass_nested_ifndef :
  let nested_block := ["`ifdef ENABLE_INITIAL_REG_";
                       "  `ifndef ENABLE_INITIAL_REG_";
                       "  `endif";
                       "  initial x = 0;";
                       "`endif // ENABLE_INITIAL_REG_"] in
  fst (skip_pass ["`ifdef ENABLE_INITIAL_REG_"; "  `ifdef ENABLE_INITIAL_REG_"]) = 2%Z
  ∧ fst (skip_pass ["`ifdef ENABLE_INITIAL_REG_"; "  `ifndef ENABLE_INITIAL_REG_"]) = 1%Z
  ∧ nested 0 nested_block = true
  ∧ skip_pass nested_block = ((-1)%Z, ["  initial x = 0;"])
  ∧ skip_pass (nested_block ++ ["`ifdef ENABLE_INITIAL_REG_";
                                "  initial y = 0;";
                                "`endif // ENABLE_INITIAL_REG_"])
    = ((-1)%Z, ["  initial x = 0;"; "  initial y = 0;"]).
Proof. by vm_compute. Qed.

(** The depth of the pass never exceeds the number of open blocks. *)
Lemma skip_pass_depth_bound lines t d cleaned :
  (0 <= t)%Z → (d <= t)%Z → nested t lines = true →
  (fst (fold_left skip_step lines (d, cleaned)) <= 0)%Z.
Proof.
  revert t d cleaned. induction lines as [|line lines IH]; intros t d cleaned Ht Hd Hn.
  - simpl in *. apply Z.eqb_eq in Hn. lia.
  - cbn [nested] in Hn. cbn [fold_left]. unfold skip_step, directive in *.
    destruct (Py.contains marker line); cbn [andb] in Hn;
      repeat match type of Hn with
        | context [if ?b then _ else _] => destruct b eqn:?
        end;
      repeat match goal with
        | |- context [(0 <? d)%Z] => destruct (Z.ltb_spec 0 d)
        | H : (_ && _) = true |- _ => apply andb_true_iff in H as [? ?]
        | H : (_ <=? _)%Z = true |- _ => apply Z.leb_le in H
        end;
      (eapply IH; [ | | eassumption]; lia).
Qed.

(** X12.  On well-formed input the pass ends without suppression: the
    depth is not positive after lines whose directives nest, and the
    lines that follow, when they do not name the marker, are all kept. *)
Lemma skip_pass_no_residual_suppression lines tail :
  nested 0 lines = true →
  Forall (fun l => Py.contains marker l = false) tail →
  (fst (skip_pass lines) <= 0)%Z
  ∧ skip_pass (lines ++ tail) = (fst (skip_pass lines), (snd (skip_pass lines) ++ tail)%list).
Proof.
  intros Hn Htail. unfold skip_pass.
  assert (Hd : (fst (fold_left skip_step lines (0%Z, [])) <= 0)%Z)
    by (by eapply (skip_pass_depth_bound lines 0)).
  split; [done|]. rewrite fold_left_app.
  destruct (fold_left skip_step lines (0%Z, [])) as [d cleaned]. cbn [fst snd] in *.
  revert cleaned. induction Htail as [|l tail Hl _ IH]; intros cleaned.
  - by rewrite app_nil_r.
  - cbn [fold_left]. unfold skip_step at 2. rewrite Hl.
    replace (0 <? d)%Z with false by (symmetry; apply Z.ltb_ge; lia).
    rewrite IH. by rewrite <- app_assoc.
Qed.

(** ** Statistics extractor, SystemVerilog path *)




(** A text looked for does not begin in leading white space when its
    first character is not white space. *)
Lemma contains_after_spaces a l ws t :
  Chr.is_space a = false → all_space ws = true →
  Py.contains (String a l) (ws ++ t) = Py.contains (String a l) t.
Proof.
  intros Ha. induction ws as [|c ws IH]; [done|].
  intros H. apply andb_true_iff in H as [Hc Hws].
  change (String c ws ++ t) with (String c (ws ++ t)).
  cbn [Py.contains Py.startswith].
  destruct (Ascii.eqb_spec a c) as [->|_]; [congruence|]. simpl. by apply IH.
Qed.



(** The text between a position and a later one that adds [u], read
    backwards, to it. *)
Lemma unrev_app u pre acc :
  unrev (String.length u) (u ++ pre) acc = Py.rev_onto u acc.
Proof.
  revert acc. induction u as [|c u IH]; intros acc; simpl; [done|]. apply IH.
Qed.

Lemma length_append (u v : string) :
  String.length (u ++ v) = (String.length u + String.length v)%nat.
Proof. induction u as [|c u IH]; simpl; [done | by rewrite IH]. Qed.

Lemma span_app u pre : span pre (u ++ pre) = Py.rev u.
Proof.
  unfold span. rewrite length_append.
  replace (String.length u + String.length pre - String.length pre)%nat
    with (String.length u) by lia.
  apply unrev_app.
Qed.


Lemma matches_none r t : search r t = None → matches r t = false.
Proof.
  intros H. unfold matches. rewrite H. apply bool_decide_eq_false. by intros [? ?].
Qed.




(** The new format has leading white space: a line [48 cells] that does
    not begin with white space is not read, and the cell count stays
    [52]. *)
Lemma sv_stats_unaligned_cells_line :
  sv_stats (Py.join Py.nl ["Number of cells: 52"; "48 cells"]) = (0%Z, 52%Z)
  ∧ snd (sv_stats (Py.join Py.nl ["Number of cells: 52"; "48 cells"])) ≠ 48%Z.
Proof. split; [by vm_compute | by vm_compute]. Qed.

(** ** Source rewriter, stage 6 *)





(** The scan of the lines of a block that stays open. *)
Lemma hoist_loop_body body rest ind a d h out :
  (1 <= d)%Z → body_ok d body = true →
  hoist_loop (body ++ rest) 0 (Some (Block ind a d h)) out
  = hoist_loop rest 0
      (Some (Block ind a (depth_through d body) (h ++ wires ind body)))
      (out ++ kept body).
Proof.
  revert d h out. induction body as [|cur body IH]; intros d h out Hd Hok.
  - simpl. by rewrite !app_nil_r.
  - cbn [body_ok] in Hok.
    apply andb_true_iff in Hok as [Hok Hrest].
    apply andb_true_iff in Hok as [Hdepth Hdecl].
    apply Z.leb_le in Hdepth.
    specialize (IH (depth_after d cur)).
    cbn [app hoist_loop depth always_start indent hoisted].
    replace (d <=? 0)%Z with false by (symmetry; apply Z.leb_gt; lia).
    fold (code_part cur). fold (opens cur). fold (closes cur).
    unfold depth_through. cbn [fold_left]. fold (depth_through (depth_after d cur) body).
    unfold wires, kept, wire_for, is_declaration.
    cbn [omap list_omap List.filter].
    unfold declaration in *. unfold depth_after in *.
    destruct (closes cur) eqn:Hc.
    + replace (_ =? 0)%Z with false by (symmetry; apply Z.eqb_neq; lia).
      rewrite IH by done. cbn [negb app]. by rewrite <- app_assoc.
    + rewrite Z.sub_0_r in *.
      destruct (rmatch logic_re cur) as [m|] eqn:Hm.
      * replace (1 <=? _)%Z with true by (symmetry; apply Z.leb_le; lia).
        assert (Hg : gather (grp 4 m) [cur] 0 (body ++ rest) = ([cur], 0%nat)).
        { destruct (body ++ rest)%list; cbn [gather]; by rewrite Hdecl. }
        rewrite Hg. cbn [negb].
        destruct (wire_of ind (grp 2 m) (grp 3 m) [cur]) as [wire|].
        -- rewrite IH by done. by rewrite <- app_assoc.
        -- by rewrite IH by done.
      * rewrite IH by done. cbn [negb app]. by rewrite <- app_assoc.
Qed.





(** Lines before the first header are put out as they are. *)
Lemma hoist_loop_outside pre rest out :
  Forall (fun l => rmatch always_re l = None) pre →
  hoist_loop (pre ++ rest) 0 None out = hoist_loop rest 0 None (out ++ pre).
Proof.
  intros H. revert out. induction H as [|l pre Hl _ IH]; intros out.
  - by rewrite app_nil_r.
  - cbn [app hoist_loop]. rewrite Hl, IH. by rewrite <- app_assoc.
Qed.





(** A word that a text does not contain is not found in it. *)
Lemma search_word_absent l r pre t :
  Py.contains l t = false → search_from false (Cat Wb (Cat (Lit l) r)) pre t = None.
Proof.
  revert pre. induction t as [|c t IH]; intros pre; cbn [Py.contains]; intros H.
  - rewrite orb_false_r in H. cbn [search_from]. unfold match_at. cbn [run].
    rewrite lit_m_mismatch by done. by destruct (at_word_boundary pre "").
  - apply orb_false_iff in H as [H1 H2]. cbn [search_from]. unfold match_at at 1.
    cbn [run]. rewrite lit_m_mismatch by done. rewrite IH by done.
    by destruct (at_word_boundary pre (String c t)).
Qed.














(** ** The matcher, continued *)

Lemma append_empty_r (u : string) : u ++ "" = u.
Proof.
  induction u as [|c u IH]; [done|].
  change (String c (u ++ "") = String c u). by rewrite IH.
Qed.

Lemma append_assoc (u v t : string) : (u ++ v) ++ t = u ++ v ++ t.
Proof.
  induction u as [|c u IH]; [done|].
  change (String c ((u ++ v) ++ t) = String c (u ++ v ++ t)). by rewrite IH.
Qed.

Lemma rev_onto_rev_onto u a b :
  Py.rev_onto (Py.rev_onto u a) b = Py.rev_onto a (u ++ b).
Proof.
  revert a b. induction u as [|c u IH]; intros a b; simpl; [done|].
  by rewrite IH.
Qed.

Lemma rev_onto_app u acc : Py.rev_onto u acc = Py.rev u ++ acc.
Proof.
  unfold Py.rev. revert acc. induction u as [|c u IH]; intros acc; simpl; [done|].
  rewrite IH, (IH (String c "")). by rewrite append_assoc.
Qed.

Lemma rev_involutive u : Py.rev (Py.rev u) = u.
Proof. unfold Py.rev. rewrite rev_onto_rev_onto. simpl. apply append_empty_r. Qed.

(** The text between a position and the one reached by reading [u]. *)
Lemma span_read u pre : span pre (Py.rev_onto u pre) = u.
Proof. rewrite rev_onto_app, span_app. apply rev_involutive. Qed.

Section Inversion.

Context {A : Type}.

(** What a repetition hands on: the text after a run of characters of
    the class. *)
Lemma star_m_inv (p : ascii -> bool) (k : string -> string -> option A) t pre x :
  star_m p pre t k = Some x →
  ∃ u t', t = u ++ t' ∧ all_chars p u = true ∧ k (Py.rev_onto u pre) t' = Some x.
Proof.
  revert pre. induction t as [|c t IH]; intros pre; simpl.
  - intros H. exists "", "". eauto.
  - destruct (p c) eqn:Hc.
    + unfold orelse. destruct (star_m p (String c pre) t k) eqn:Hs.
      * intros [= ->]. apply IH in Hs as (u & t' & -> & Hu & Hk).
        exists (String c u), t'. simpl. by rewrite Hc.
      * intros H. exists "", (String c t). eauto.
    + intros H. exists "", (String c t). eauto.
Qed.

(** A repetition succeeds as soon as the rest succeeds after some run of
    characters of the class. *)
Lemma star_m_complete (p : ascii -> bool) (k : string -> string -> option A) u t' pre :
  all_chars p u = true → is_Some (k (Py.rev_onto u pre) t') →
  is_Some (star_m p pre (u ++ t') k).
Proof.
  revert pre. induction u as [|c u IH]; intros pre Hu Hk.
  - simpl in *. destruct t' as [|c t']; [done|]. simpl.
    destruct (p c); [|done]. unfold orelse. by destruct (star_m _ _ _ _).
  - simpl in Hu. apply andb_true_iff in Hu as [Hc Hu].
    change (String c u ++ t') with (String c (u ++ t')). simpl. rewrite Hc.
    destruct (IH (String c pre) Hu Hk) as [x Hx]. unfold orelse. by rewrite Hx.
Qed.

End Inversion.

Lemma lit_m_inv l pre t pre' t' :
  lit_m false l pre t = Some (pre', t') → t = l ++ t' ∧ pre' = Py.rev_onto l pre.
Proof.
  revert pre t. induction l as [|a l IH]; intros pre t; simpl.
  - by intros [= -> ->].
  - destruct t as [|b t]; [done|]. destruct (Ascii.eqb_spec a b) as [->|]; [|done].
    intros H. apply IH in H as [-> ->]. done.
Qed.

Lemma lit_m_read l pre t : lit_m false l pre (l ++ t) = Some (Py.rev_onto l pre, t).
Proof.
  revert pre. induction l as [|a l IH]; intros pre; simpl; [done|].
  rewrite Ascii.eqb_refl. apply IH.
Qed.

(** ** Top entity, continued *)

Lemma word_after_word m name :
  word_after m = Some name → name ≠ "" ∧ all_chars Chr.is_word name = true.
Proof.
  intros H. split; [by eapply word_after_nonempty|]. revert H.
  unfold word_after, rmatch, match_at, next_word_re. simpl.
  destruct (star_m _ _ _ _) as [x|] eqn:Hs; [|done]. simpl. intros [= <-].
  apply star_m_inv in Hs as (u1 & t1 & _ & _ & Hk).
  destruct t1 as [|c t1]; [done|]. destruct (w c) eqn:Hc; [|done].
  apply star_m_inv in Hk as (u2 & t2 & _ & Hu2 & [= <-]).
  unfold grp, group. simpl.
  change (Py.rev_onto u2 (String c (Py.rev_onto u1 "")))
    with (Py.rev_onto (String c u2) (Py.rev_onto u1 "")).
  rewrite span_read. unfold w in *. cbn [all_chars]. by rewrite Hc, Hu2.
Qed.

(** X1.  The top entity of a VHDL file, when there is one, is a word: it
    is not empty and made of characters of the class [\w] only, the
    letters, the digits and the underscore; so it holds no white space
    and no separator of the command built from it. *)
Theorem get_top_entity_is_word (W : World) (fn top : string) :
  snd (get_top_entity W fn) = Some top →
  top ≠ "" ∧ all_chars Chr.is_word top = true.
Proof.
  unfold get_top_entity, catch, bind, lift. destruct (read_text W fn) as [content|e]; [|done].
  rewrite last_entity_names.
  destruct (last (entity_names content)) as [name|] eqn:Hl; [|done].
  apply last_Some_elem_of in Hl.
  unfold entity_names in Hl. apply list_elem_of_In, in_flat_map in Hl as (line & _ & Hin).
  apply list_elem_of_In in Hin. unfold names_in_line in Hin.
  apply list_elem_of_omap in Hin as (m & _ & Hm).
  apply word_after_word in Hm as [Hne Hw].
  destruct name as [|c name']; [done|]. simpl. by intros [= <-].
Qed.

(** ** Whether a pattern matches *)

Lemma is_Some_orelse {A} (x y : option A) :
  is_Some (orelse x y) ↔ is_Some x ∨ is_Some y.
Proof.
  unfold orelse. destruct x; split; eauto. intros [[? ?]|?]; [done|done].
Qed.

Lemma star_m_some_mono {A B} (p : ascii -> bool)
    (k : string -> string -> option A) (k' : string -> string -> option B) pre t :
  (∀ pre' t', is_Some (k pre' t') → is_Some (k' pre' t')) →
  is_Some (star_m p pre t k) → is_Some (star_m p pre t k').
Proof.
  intros Hk [x Hx]. apply star_m_inv in Hx as (u & t' & -> & Hu & Hx).
  apply star_m_complete; [done|]. apply Hk. eauto.
Qed.

(** Whether a pattern matches at a position does not depend on the
    groups filled so far, nor on what the continuation returns. *)
Lemma run_some_mono {A B} (r : regex) :
  ∀ pre t cs cs' (k : string -> string -> caps -> option A)
    (k' : string -> string -> caps -> option B),
    (∀ pre' t' c1 c2, is_Some (k pre' t' c1) → is_Some (k' pre' t' c2)) →
    is_Some (run false r pre t cs k) → is_Some (run false r pre t cs' k').
Proof.
  induction r as [|l|p|r1 IH1 r2 IH2|r1 IH1 r2 IH2|p|p|r1 IH1|n r1 IH1| | |];
    intros pre t cs cs' k k' Hk; cbn [run].
  - apply Hk.
  - destruct (lit_m false l pre t) as [[pre' t']|]; [apply Hk | done].
  - destruct t as [|c t]; [done|]. destruct (p c); [apply Hk | done].
  - apply IH1. intros pre' t' c1 c2. by apply IH2.
  - rewrite !is_Some_orelse. intros [H|H]; [left; by eapply IH1 | right; by eapply IH2].
  - apply star_m_some_mono. intros pre' t'. apply Hk.
  - destruct t as [|c t]; [done|]. destruct (p c); [|done].
    apply star_m_some_mono. intros pre' t'. apply Hk.
  - rewrite !is_Some_orelse. intros [H|H]; [left; by eapply IH1 | right; by eapply Hk].
  - apply IH1. intros pre' t' c1 c2. apply Hk.
  - destruct pre; [apply Hk | done].
  - destruct (_ || _); [apply Hk | done].
  - destruct (at_word_boundary pre t); [apply Hk | done].
Qed.

(** A group of one or more characters of a class, followed by more. *)
Lemma run_plus_group_inv {A} n p r pre t cs
    (k : string -> string -> caps -> option A) :
  caps_blind k →
  is_Some (run false (Cat (Grp n (Plus p)) r) pre t cs k) →
  ∃ c u t', t = String c (u ++ t') ∧ p c = true ∧ all_chars p u = true ∧
    is_Some (run false r (Py.rev_onto (String c u) pre) t' cs k).
Proof.
  intros Hk. cbn [run]. destruct t as [|c t]; [by intros [? ?]|].
  destruct (p c) eqn:Hc; [|by intros [? ?]].
  intros [x Hx]. apply star_m_inv in Hx as (u & t' & -> & Hu & Hx).
  exists c, u, t'. repeat split; try done.
  eapply run_some_mono; [exact Hk | by eexists].
Qed.

Lemma run_plus_group_complete {A} n p r pre c u t' cs
    (k : string -> string -> caps -> option A) :
  caps_blind k →
  p c = true → all_chars p u = true →
  is_Some (run false r (Py.rev_onto (String c u) pre) t' cs k) →
  is_Some (run false (Cat (Grp n (Plus p)) r) pre (String c (u ++ t')) cs k).
Proof.
  intros Hk Hc Hu H. cbn [run]. rewrite Hc. apply star_m_complete; [done|].
  eapply run_some_mono; [exact Hk | exact H].
Qed.

Lemma final_caps_blind : caps_blind final.
Proof. intros pre' t' c1 c2 _. by eexists. Qed.

Lemma run_literal_inv {A} l r pre t cs (k : string -> string -> caps -> option A) :
  is_Some (run false (Cat (Lit l) r) pre t cs k) →
  ∃ t', t = l ++ t' ∧ is_Some (run false r (Py.rev_onto l pre) t' cs k).
Proof.
  cbn [run]. destruct (lit_m false l pre t) as [[pre' t']|] eqn:Hl; [|by intros [? ?]].
  apply lit_m_inv in Hl as [-> ->]. eauto.
Qed.

Lemma run_literal_complete {A} l r pre t' cs (k : string -> string -> caps -> option A) :
  is_Some (run false r (Py.rev_onto l pre) t' cs k) →
  is_Some (run false (Cat (Lit l) r) pre (l ++ t') cs k).
Proof. intros H. cbn [run]. by rewrite lit_m_read. Qed.

(** ** Name normalizer, continued *)

(** Three widths begin with two widths. *)
Lemma widths_more_widths pre t cs :
  is_Some (run false widths_more_re pre t cs final) →
  is_Some (run false widths_re pre t cs final).
Proof.
  unfold widths_more_re, widths_re. cbn [seq].
  intros H. apply run_literal_inv in H as (t1 & -> & H).
  apply run_plus_group_inv in H as (c1 & u1 & t2 & -> & Hc1 & Hu1 & H);
    [|apply final_caps_blind].
  apply run_literal_inv in H as (t3 & -> & H).
  apply run_plus_group_inv in H as (c2 & u2 & t4 & -> & Hc2 & Hu2 & _);
    [|apply final_caps_blind].
  apply run_literal_complete.
  apply run_plus_group_complete; [apply final_caps_blind | done | done |].
  apply run_literal_complete.
  cbn [run]. rewrite Hc2. apply star_m_complete; [done | by eexists].
Qed.

(** A name that the OpenFloat pattern matches is matched by the
    HardFloat pattern, which is tried first. *)
Lemma openfloat_is_hardfloat name :
  is_Some (rmatch openfloat_re name) → is_Some (rmatch hardfloat_re name).
Proof.
  unfold rmatch, match_at, openfloat_re, hardfloat_re. cbn [seq]. fold final.
  change (Cat (Lit "_") (Cat (Grp 2 (Plus d)) (Cat (Lit "_") (Grp 3 (Plus d)))))
    with widths_re.
  intros H. apply run_literal_inv in H as (t1 & -> & H).
  apply run_plus_group_inv in H as (c & u & t2 & -> & Hc & Hu & H);
    [|apply final_caps_blind].
  change ("FP_" ++ String c (u ++ t2)) with ("FP" ++ String "_" (String c u ++ t2)).
  apply run_literal_complete.
  apply run_plus_group_complete;
    [apply final_caps_blind | done | by cbn; rewrite Hc, Hu |].
  exact H.
Qed.

Lemma openfloat_div_is_hardfloat name :
  is_Some (rmatch openfloat_div_re name) → is_Some (rmatch hardfloat_re name).
Proof.
  intros H. apply openfloat_is_hardfloat. revert H.
  unfold rmatch, match_at, openfloat_re, openfloat_div_re. cbn [seq]. fold final.
  change (Cat (Lit "_") (Cat (Grp 2 (Plus d)) (Cat (Lit "_") (Grp 3 (Plus d)))))
    with widths_re.
  change (Cat (Lit "_") (Cat (Grp 2 (Plus d)) (Cat (Lit "_") (Cat (Grp 3 (Plus d))
            (Cat (Lit "_") (Grp 4 (Plus d)))))))
    with widths_more_re.
  intros H. apply run_literal_inv in H as (t1 & -> & H).
  apply run_plus_group_inv in H as (c & u & t2 & -> & Hc & Hu & H);
    [|apply final_caps_blind].
  apply run_literal_complete.
  apply run_plus_group_complete; [apply final_caps_blind | done | done |].
  by apply widths_more_widths.
Qed.

(** X2.  The two OpenFloat rules of [prettify_name] are never taken.  The
    HardFloat pattern, tried before them, matches every name that they
    match; so the normalizer is the same function without them, and a
    name that an OpenFloat pattern matches, such as [FP_add_32_1], gets
    the label of the HardFloat rule. *)
Theorem prettify_name_openfloat_rules_dead (filename : string) :
  let name := Py.splitext_root filename in
  (rmatch hardfloat_re name = None →
   rmatch openfloat_re name = None ∧ rmatch openfloat_div_re name = None)
  ∧ prettify_name filename = prettify_name_without_openfloat filename
  ∧ (is_Some (rmatch openfloat_re name) ∨ is_Some (rmatch openfloat_div_re name) →
     ∃ m, rmatch hardfloat_re name = Some m
          ∧ prettify_name filename
            = "HardFloat" ++ grp 1 m ++ "_" ++ fp_map (grp 2 m) (grp 3 m)).
Proof.
  intros name.
  assert (Hdead : rmatch hardfloat_re name = None →
                  rmatch openfloat_re name = None ∧ rmatch openfloat_div_re name = None).
  { intros Hh. split.
    - destruct (rmatch openfloat_re _) eqn:Ho; [|done].
      destruct (openfloat_is_hardfloat name) as [? ?]; [by eexists|].
      congruence.
    - destruct (rmatch openfloat_div_re _) eqn:Ho; [|done].
      destruct (openfloat_div_is_hardfloat name) as [? ?];
        [by eexists|]. congruence. }
  split; [done|]. split.
  - unfold prettify_name, prettify_name_without_openfloat. fold name.
    destruct (Py.startswith _ "FLOPCO_FP"); [done|].
    destruct (rule_bits cfg_re "CFG" _); [done|].
    destruct (rmatch hardfloat_re _) eqn:Hh; [done|].
    destruct (Hdead eq_refl) as [Ho Hd]. unfold rule_bits. by rewrite Ho, Hd.
  - intros Hopen.
    assert (Hhard : is_Some (rmatch hardfloat_re name)).
    { destruct Hopen; [by apply openfloat_is_hardfloat | by apply openfloat_div_is_hardfloat]. }
    assert (Hfp : ∃ t', name = String "F" (String "P" t')).
    { destruct Hhard as [m Hm]. unfold rmatch, match_at, hardfloat_re in Hm. cbn [seq] in Hm.
      destruct (run_literal_inv "FP" _ "" name [] _ (mk_is_Some _ _ Hm)) as (t' & -> & _).
      by exists t'. }
    destruct Hfp as (t' & Hname). destruct Hhard as [m Hm]. exists m. split; [done|].
    unfold prettify_name. fold name. rewrite Hm.
    replace (Py.startswith name "FLOPCO_FP") with false by (by rewrite Hname).
    replace (rule_bits cfg_re "CFG" name) with (@None string); [done|].
    unfold rule_bits, rmatch, match_at, cfg_re. cbn [seq].
    rewrite match_literal_first; [done | by rewrite Hname].
Qed.

(** ** Metrics are not negative *)

Lemma int_acc_nonneg t acc : (0 <= acc)%Z → (0 <= Py.int_acc acc t)%Z.
Proof.
  revert acc. induction t as [|c t IH]; intros acc Hacc; simpl; [done|].
  apply IH. unfold Chr.digit_value. lia.
Qed.

Lemma int_nonneg t : (0 <= Py.int t)%Z.
Proof. by apply int_acc_nonneg. Qed.

Lemma stat_step_nonneg st line : nonneg st → nonneg (stat_step st line).
Proof.
  destruct st as [wb c]. intros [Hw Hc]. simpl in Hw, Hc.
  unfold stat_step, first_int, group_int.
  repeat case_match; simplify_eq; split; simpl; try done;
    repeat match goal with
    | H : _ <$> ?o = _ |- _ => destruct o; simpl in H; simplify_eq
    | |- context [default _ (_ <$> ?o)] => destruct o; simpl
    end; try done; apply int_nonneg.
Qed.

Lemma sv_stats_nonneg p : nonneg (sv_stats p).
Proof.
  unfold sv_stats.
  assert (H : ∀ lines st, nonneg st → nonneg (fold_left stat_step lines st)).
  { induction lines as [|l lines IH]; intros st Hst; [done|].
    simpl. apply IH. by apply stat_step_nonneg. }
  apply H. by split.
Qed.

Lemma sum_cell_counts_nonneg text : (0 <= sum_cell_counts text)%Z.
Proof.
  unfold sum_cell_counts. destruct (last_stats_index _) as [i|]; [|done].
  assert (H : ∀ lines total, (0 <= total)%Z → (0 <= fold_left add_cells lines total)%Z).
  { induction lines as [|l lines IH]; intros total Ht; [done|].
    simpl. apply IH. unfold add_cells. destruct (rmatch cells_re l); [|done].
    pose proof (int_nonneg (grp 1 m)). lia. }
  by apply H.
Qed.

Lemma extract_nonneg fn p : nonneg (extract fn p).
Proof.
  unfold extract. destruct (Py.endswith fn ".vhdl"); [|apply sv_stats_nonneg].
  split; [done | apply sum_cell_counts_nonneg].
Qed.

(** ** Tool invoker, continued *)

Section Calls.

Variable W : World.
Variables fn top yosyscmd : string.
Variable pf : option string.

Let temp_file := temp_script W.
Let argv := tool_argv fn yosyscmd temp_file.

(** The run of the tool: one run, then at most the entry in the log
    file and messages; the output comes back exactly when the run and
    the entry succeed. *)
Lemma run_yosys_cases :
  ∃ rest,
    fst (run_yosys W fn top pf yosyscmd temp_file) = RunTool argv :: rest
    ∧ Forall (fun ev => is_log ev = true ∨ ∃ text, ev = AppendFile (log_file W) text) rest
    ∧ match subprocess_run W argv with
      | Ok result =>
          match append_text W (log_file W)
                  (log_text fn top pf yosyscmd (stdout result) (stderr result)) with
          | Ok _ => snd (run_yosys W fn top pf yosyscmd temp_file) = Some (stdout result)
          | Raise _ => snd (run_yosys W fn top pf yosyscmd temp_file) = None
          end
      | Raise _ => snd (run_yosys W fn top pf yosyscmd temp_file) = None
      end.
Proof.
  unfold run_yosys. fold (tool_argv fn yosyscmd temp_file). fold argv.
  destruct (subprocess_run W argv) as [result|er] eqn:Hrun.
  - destruct (report_failure_logs fn result) as [Hok Hlogs].
    destruct (report_failure fn result) as [tr rr] eqn:Hrep. simpl in Hok, Hlogs.
    subst rr.
    destruct (append_text W (log_file W)
                (log_text fn top pf yosyscmd (stdout result) (stderr result)))
      as [[]|ea] eqn:Ha.
    + unfold catch, bind, act, ret. rewrite Ha, Hrep. simpl. eexists. split; [done|].
      split; [|done]. constructor; [right; by eexists|].
      rewrite app_nil_r. eapply Forall_impl; [exact Hlogs|]. by left.
    + unfold catch, bind, act. rewrite Ha. simpl.
      destruct (kind ea); simpl; (eexists; split; [done|]); (split; [|done]);
        (constructor; [right; by eexists|]); repeat constructor; by left.
  - unfold catch, bind. simpl.
    destruct (kind er); simpl; (eexists; split; [done|]); (split; [|done]);
      repeat constructor; by left.
Qed.

(** The call after the command is built: the script is written, then the
    tool runs; the value is an exception of the write, [(0, 0)], or what
    the extractor reads from the output. *)
Lemma write_and_run_cases :
  ∃ rest,
    fst (write_and_run W fn top pf yosyscmd temp_file)
    = WriteFile temp_file yosyscmd :: rest
    ∧ match write_text W temp_file yosyscmd with
      | Raise e => rest = [] ∧ snd (write_and_run W fn top pf yosyscmd temp_file) = Raise e
      | Ok _ =>
          (∃ rest', rest = RunTool argv :: rest'
             ∧ Forall (fun ev => is_log ev = true ∨ ∃ text, ev = AppendFile (log_file W) text)
                      rest')
          ∧ match subprocess_run W argv with
            | Ok result =>
                match append_text W (log_file W)
                        (log_text fn top pf yosyscmd (stdout result) (stderr result)) with
                | Ok _ => snd (write_and_run W fn top pf yosyscmd temp_file)
                          = Ok (extract fn (stdout result))
                | Raise _ => snd (write_and_run W fn top pf yosyscmd temp_file)
                             = Ok (0%Z, 0%Z)
                end
            | Raise _ => snd (write_and_run W fn top pf yosyscmd temp_file) = Ok (0%Z, 0%Z)
            end
      end.
Proof.
  destruct run_yosys_cases as (rest & Hfst & Hrest & Hres).
  unfold write_and_run, bind, act.
  destruct (write_text W temp_file yosyscmd) as [[]|ew]; [|by eexists].
  destruct (run_yosys W fn top pf yosyscmd temp_file) as [t [p|]] eqn:Hrun;
    simpl in Hfst, Hres; subst t.
  - unfold parse_output, extract, log, ret.
    destruct (Py.endswith fn ".vhdl") eqn:Hv; simpl.
    + eexists. split; [done|]. split.
      * eexists. split; [done|]. rewrite Forall_app. split; [done|].
        by repeat constructor.
      * destruct (subprocess_run W argv) as [result|]; [|done].
        destruct (append_text _ _ _); [|done]. by injection Hres as ->.
    + eexists. split; [done|]. split.
      * eexists. split; [done|]. by rewrite app_nil_r.
      * destruct (subprocess_run W argv) as [result|]; [|done].
        destruct (append_text _ _ _); [|done]. by injection Hres as ->.
  - simpl. eexists. split; [done|]. split; [by eexists|].
    destruct (subprocess_run W argv) as [result|]; [|done].
    by destruct (append_text _ _ _).
Qed.

End Calls.

Lemma cleanup_events W what path :
  cleanup W what path = []
  ∨ (os_path_exists W path = true ∧
     ∃ rest, cleanup W what path = RemoveFile path :: rest
             ∧ Forall (fun ev => is_log ev = true) rest).
Proof.
  unfold cleanup. destruct (os_path_exists W path); [|by left].
  right. split; [done|]. destruct (os_remove W path); eexists; by repeat constructor.
Qed.

(** The course of a call: either no command is built and the call
    returns [(0, 0)] after messages only, or a script is written and the
    tool is started. *)
Lemma yosys_plan W fn :
  (∃ quiet, Forall (is_prelude W fn) quiet
            ∧ yosys W fn = finally (quiet, (0%Z, 0%Z)) (cleanups W fn))
  ∨ (∃ prelude top pf yosyscmd,
       Forall (is_prelude W fn) prelude
       ∧ yosys W fn
         = finally (after_script fn prelude
                      (write_and_run W fn top pf yosyscmd (temp_script W)))
                   (cleanups W fn)).
Proof.
  unfold yosys. fold (temp_script W). fold (cleanups W fn).
  destruct (Py.endswith fn ".vhdl") eqn:Hv.
  - pose proof (get_top_entity_quiet W fn) as Hq.
    assert (Hlogs : Forall (is_prelude W fn) (fst (get_top_entity W fn))).
    { unfold get_top_entity, catch, bind, lift, log, ret.
      destruct (read_text W fn); simpl; [|repeat constructor].
      destruct (last_entity a) as [[|c w']|]; simpl; repeat constructor. }
    destruct (snd (get_top_entity W fn)) as [top|] eqn:Htop.
    + right. exists (fst (get_top_entity W fn) ++
                     [Log "INFO" ("Processing VHDL file: " ++ fn ++ " with top entity: " ++ top)])%list,
               top, None, ("ghdl --std=08 -fsynopsys " ++ fn ++ " -e " ++ top ++ "; synth; stat").
      split; [rewrite Forall_app; split; [done | by repeat constructor]|].
      f_equal. unfold catch, bind, log, after_script. simpl.
      destruct (write_and_run W fn top None _ _) as [tw [r|e]]; simpl;
        by rewrite <- ?app_assoc.
    + left. eexists. split; [|unfold catch, bind, log, ret; simpl; reflexivity].
      rewrite !Forall_app. split; [done | by repeat constructor].
  - assert (Hm : Forall (is_prelude W fn) (fst (get_top_module W fn))).
    { unfold get_top_module, catch, bind, lift, ret.
      destruct (read_text W fn); simpl; repeat constructor. }
    assert (Hp : Forall (is_prelude W fn) (fst (preprocess_sv_file W fn))).
    { unfold preprocess_sv_file, catch, bind, lift, ret.
      destruct (read_text W fn); simpl; repeat constructor. }
    destruct (snd (preprocess_sv_file W fn)) as [content|] eqn:Hpc.
    + fold (temp_source W fn).
      assert (Hname : preprocessed_name W fn = Some (temp_source W fn)).
      { unfold preprocessed_name. by rewrite Hv, Hpc. }
      destruct (write_text W (temp_source W fn) content) as [[]|e] eqn:Hw.
      * right. exists (fst (get_top_module W fn) ++ fst (preprocess_sv_file W fn) ++
                       [WriteFile (temp_source W fn) content])%list,
                 (snd (get_top_module W fn)), (Some (temp_source W fn)),
                 (preprocessed_script (os_path_abspath W (temp_source W fn))
                    (snd (get_top_module W fn))).
        split.
        -- rewrite !Forall_app. repeat split; try done.
           constructor; [right; split; [exact Hname | by eexists] | constructor].
        -- f_equal. unfold catch, bind, act, after_script. simpl. rewrite Hw.
           destruct (write_and_run W fn _ _ _ _) as [tw [r|e]]; simpl;
             by rewrite <- ?app_assoc.
      * left. eexists. split; [|unfold catch, bind, act; simpl; rewrite Hw; simpl;
                                 rewrite <- ?app_assoc; reflexivity].
        rewrite !Forall_app. repeat split; try done.
        -- constructor; [right; split; [exact Hname | by eexists] | constructor].
        -- by repeat constructor.
    + right. exists (fst (get_top_module W fn) ++ fst (preprocess_sv_file W fn) ++
                     [fallback_warning fn])%list,
               (snd (get_top_module W fn)), None,
               (original_script (os_path_abspath W fn) (snd (get_top_module W fn))).
      split; [rewrite !Forall_app; repeat split; try done; by repeat constructor|].
      f_equal. unfold catch, bind, log, after_script, fallback_warning. simpl.
      destruct (write_and_run W fn _ _ _ _) as [tw [r|e]]; simpl;
        by rewrite <- ?app_assoc.
Qed.

Lemma runs_app t1 t2 : runs (t1 ++ t2)%list = runs t1 + runs t2.
Proof. unfold runs. by rewrite List.filter_app, length_app. Qed.

Lemma runs_none (P : event → Prop) t :
  (∀ ev, P ev → is_run ev = false) → Forall P t → runs t = 0.
Proof.
  intros HP. unfold runs. induction 1 as [|ev t Hev _ IH]; [done|].
  simpl. by rewrite (HP _ Hev).
Qed.

Lemma prelude_not_run W fn ev : is_prelude W fn ev → is_run ev = false.
Proof. intros [H | [_ [text ->]]]; [by destruct ev | done]. Qed.

Lemma prelude_ok W fn ev : is_prelude W fn ev → event_ok W fn ev.
Proof. intros [H | [_ [text ->]]]; [by destruct ev | by right]. Qed.

Lemma entry_not_run W ev :
  is_log ev = true ∨ (∃ text, ev = AppendFile (log_file W) text) → is_run ev = false.
Proof. intros [H | [text ->]]; [by destruct ev | done]. Qed.

Lemma entry_ok W fn ev :
  is_log ev = true ∨ (∃ text, ev = AppendFile (log_file W) text) → event_ok W fn ev.
Proof. intros [H | [text ->]]; [by destruct ev | done]. Qed.

Lemma preprocessed_name_temp W fn f :
  preprocessed_name W fn = Some f → f = temp_source W fn.
Proof.
  unfold preprocessed_name, temp_source.
  destruct (Py.endswith fn ".vhdl"); [done|].
  destruct (snd (preprocess_sv_file W fn)); [|done]. by intros [= <-].
Qed.

(** The [finally] clause removes the two temporary files and logs; it
    neither writes nor runs. *)
Lemma cleanups_events W fn :
  Forall (fun ev => is_log ev = true
                    ∨ ev = RemoveFile (temp_script W)
                    ∨ ev = RemoveFile (temp_source W fn)) (cleanups W fn).
Proof.
  unfold cleanups. rewrite Forall_app. split.
  - destruct (cleanup_events W "temporary file" (temp_script W))
      as [-> | (_ & rest & -> & Hrest)]; [done|].
    constructor; [by right; left|]. eapply Forall_impl; [exact Hrest|]. by left.
  - destruct (preprocessed_name W fn) as [f|] eqn:Hf; [|done].
    apply preprocessed_name_temp in Hf as ->.
    destruct (cleanup_events W "preprocessed file" (temp_source W fn))
      as [-> | (_ & rest & -> & Hrest)]; [done|].
    constructor; [by right; right|]. eapply Forall_impl; [exact Hrest|]. by left.
Qed.

Lemma cleanup_not_run W fn ev :
  is_log ev = true ∨ ev = RemoveFile (temp_script W) ∨ ev = RemoveFile (temp_source W fn) →
  is_run ev = false.
Proof. intros [H | [-> | ->]]; [by destruct ev | done | done]. Qed.

Lemma cleanup_ok W fn ev :
  is_log ev = true ∨ ev = RemoveFile (temp_script W) ∨ ev = RemoveFile (temp_source W fn) →
  event_ok W fn ev.
Proof. intros [H | [-> | ->]]; [by destruct ev | by left | by right]. Qed.

(** A call that got as far as the script: the script is written; if the
    write fails the call logs and gives [(0, 0)]; otherwise the tool runs
    once and the value is [(0, 0)] or what the extractor reads from the
    output of that run. *)
Lemma after_script_cases W fn prelude top pf yosyscmd :
  let argv := tool_argv fn yosyscmd (temp_script W) in
  let r := after_script fn prelude (write_and_run W fn top pf yosyscmd (temp_script W)) in
  ∃ rest,
    fst r = (prelude ++ WriteFile (temp_script W) yosyscmd :: rest)%list
    ∧ ((Forall (fun ev => is_log ev = true) rest ∧ snd r = (0%Z, 0%Z))
       ∨ (∃ rest', rest = RunTool argv :: rest'
            ∧ Forall (fun ev => is_log ev = true
                                ∨ ∃ text, ev = AppendFile (log_file W) text) rest'
            ∧ (snd r = (0%Z, 0%Z)
               ∨ ∃ result, subprocess_run W argv = Ok result
                           ∧ snd r = extract fn (stdout result)))).
Proof.
  intros argv r. subst r.
  destruct (write_and_run_cases W fn top yosyscmd pf) as (rest & Hfst & Hcases).
  fold argv in Hcases.
  destruct (write_and_run W fn top pf yosyscmd (temp_script W)) as [tw [v|e]] eqn:Hwr;
    simpl in Hfst; subst tw; unfold after_script.
  - exists rest. split; [done|].
    destruct (write_text W (temp_script W) yosyscmd) as [[]|ew]; [|by destruct Hcases].
    destruct Hcases as [(rest' & -> & Hrest') Hv]. right. exists rest'.
    split; [done|]. split; [done|]. simpl in *.
    destruct (subprocess_run W argv) as [result|].
    + destruct (append_text _ _ _); injection Hv as ->; [right; by eexists | by left].
    + injection Hv as ->. by left.
  - eexists. split; [simpl; reflexivity|].
    destruct (write_text W (temp_script W) yosyscmd) as [[]|ew].
    + destruct Hcases as [_ Hv]. simpl in Hv.
      destruct (subprocess_run W argv) as [result|]; [|done].
      by destruct (append_text _ _ _).
    + destruct Hcases as [-> _]. left. split; [by repeat constructor | done].
Qed.

Lemma yosys_value_nonneg W fn : nonneg (snd (yosys W fn)).
Proof.
  destruct (yosys_plan W fn) as [(quiet & _ & ->) | (prelude & top & pf & cmd & _ & ->)];
    rewrite snd_finally; [by split|].
  destruct (after_script_cases W fn prelude top pf cmd)
    as (rest & _ & [[_ ->] | (rest' & _ & _ & [-> | (result & _ & ->)])]);
    try by split.
  apply extract_nonneg.
Qed.

(** X3.  Whatever the environment does and whatever the tool prints,
    both numbers that [yosys] returns are non-negative: on every path
    the result is [(0, 0)] or is read from the output by the extractor,
    which only ever assigns the value of a string of digits. *)
Theorem yosys_metrics_nonnegative (W : World) (fn : string) :
  (0 <= fst (snd (yosys W fn)))%Z ∧ (0 <= snd (snd (yosys W fn)))%Z.
Proof. apply yosys_value_nonneg. Qed.

(** X4.  One call of [yosys] starts the tool at most once; its result is
    [(0, 0)], or the tool was started, the run returned, and the result
    is what the extractor reads from the standard output of that run,
    whatever its exit status.  So the result is [(0, 0)] when the tool
    cannot be run. *)
Theorem yosys_result_from_one_run (W : World) (fn : string) :
  runs (fst (yosys W fn)) <= 1
  ∧ (snd (yosys W fn) = (0%Z, 0%Z)
     ∨ ∃ yosyscmd result,
         let argv := tool_argv fn yosyscmd (temp_script W) in
         RunTool argv ∈ fst (yosys W fn)
         ∧ subprocess_run W argv = Ok result
         ∧ snd (yosys W fn) = extract fn (stdout result)).
Proof.
  pose proof (runs_none _ _ (cleanup_not_run W fn) (cleanups_events W fn)) as Hc.
  destruct (yosys_plan W fn) as [(quiet & Hq & ->) | (prelude & top & pf & cmd & Hp & ->)];
    rewrite snd_finally, fst_finally, runs_app, Hc.
  - simpl. rewrite (runs_none _ _ (prelude_not_run W fn) Hq). split; [lia | by left].
  - pose proof (runs_none _ _ (prelude_not_run W fn) Hp) as Hp0.
    destruct (after_script_cases W fn prelude top pf cmd)
      as (rest & -> & [[Hlogs ->] | (rest' & -> & Hrest' & Hv)]).
    + split; [|by left]. rewrite runs_app, Hp0.
      change (runs (WriteFile (temp_script W) cmd :: rest)) with (runs rest).
      rewrite (runs_none (fun ev => is_log ev = true) rest); [lia | | done].
      intros ev H. by destruct ev.
    + split.
      * rewrite runs_app, Hp0.
        change (runs (WriteFile (temp_script W) cmd :: RunTool _ :: rest'))
          with (S (runs rest')).
        rewrite (runs_none _ _ (entry_not_run W) Hrest'). lia.
      * destruct Hv as [-> | (result & Hrun & ->)]; [by left|].
        right. exists cmd, result. split; [|done].
        rewrite !elem_of_app. left. right. right. left.
Qed.

(** X5.  What one call of [yosys] does to the outside: it logs, writes
    and removes only its two temporary files, adds only to the log file
    of the tool output, and runs only the tool, on its own script. *)
Theorem yosys_events_confined (W : World) (fn : string) :
  Forall (event_ok W fn) (fst (yosys W fn)).
Proof.
  assert (Hc : Forall (event_ok W fn) (cleanups W fn)).
  { eapply Forall_impl; [apply cleanups_events | apply cleanup_ok]. }
  destruct (yosys_plan W fn) as [(quiet & Hq & ->) | (prelude & top & pf & cmd & Hp & ->)];
    rewrite fst_finally, Forall_app; (split; [|done]).
  - simpl. eapply Forall_impl; [exact Hq | apply prelude_ok].
  - assert (Hp' : Forall (event_ok W fn) prelude).
    { eapply Forall_impl; [exact Hp | apply prelude_ok]. }
    destruct (after_script_cases W fn prelude top pf cmd)
      as (rest & -> & [[Hlogs _] | (rest' & -> & Hrest' & _)]);
      rewrite Forall_app; (split; [done|]); (constructor; [by left|]).
    + eapply Forall_impl; [exact Hlogs|]. intros ev H. by destruct ev.
    + constructor; [by exists cmd|].
      eapply Forall_impl; [exact Hrest' | apply entry_ok].
Qed.

Lemma cleanup_exists W what path :
  os_path_exists W path = true →
  ∃ rest, cleanup W what path = RemoveFile path :: rest
          ∧ Forall (fun ev => is_log ev = true) rest
          ∧ match os_remove W path with
            | Ok _ => rest = []
            | Raise e =>
                rest = [Log "WARNING" ("Could not remove " ++ what ++ " " ++ path ++ ": "
                                       ++ message e)]
            end.
Proof.
  intros He. unfold cleanup. rewrite He.
  destruct (os_remove W path); eexists; by repeat constructor.
Qed.

Lemma cleanup_passive W what path :
  Forall (fun ev => is_write ev = false ∧ is_run ev = false) (cleanup W what path).
Proof.
  unfold cleanup. destruct (os_path_exists W path); [|done].
  destruct (os_remove W path); by repeat constructor.
Qed.

Lemma logs_passive t :
  Forall (fun ev => is_log ev = true) t →
  Forall (fun ev => is_write ev = false ∧ is_run ev = false) t.
Proof. intros H. eapply Forall_impl; [exact H|]. intros ev Hev. by destruct ev. Qed.

(** X6.  [os.remove] is called on every temporary file that a call of
    [yosys] has written and that exists when the call ends, on every
    path through the call: the call of [os.remove] comes after the
    write, and nothing is written or run after it.  When [os.remove]
    raises, the file stays, and the next thing the call does is to log
    the warning. *)
Theorem yosys_calls_remove_on_what_it_writes (W : World) (fn path text : string) :
  WriteFile path text ∈ fst (yosys W fn) →
  os_path_exists W path = true →
  ∃ before after,
    fst (yosys W fn) = (before ++ RemoveFile path :: after)%list
    ∧ WriteFile path text ∈ before
    ∧ Forall (fun ev => is_write ev = false ∧ is_run ev = false) after
    ∧ match os_remove W path with
      | Ok _ => True
      | Raise e =>
          ∃ what rest,
            after = Log "WARNING" ("Could not remove " ++ what ++ " " ++ path ++ ": "
                                   ++ message e) :: rest
      end.
Proof.
  intros Hin He.
  assert (Hbody : ∃ body, fst (yosys W fn) = (body ++ cleanups W fn)%list
            ∧ ∀ ev, ev ∈ body → is_prelude W fn ev
                                ∨ (∃ cmd, ev = WriteFile (temp_script W) cmd)
                                ∨ is_write ev = false).
  { destruct (yosys_plan W fn) as [(quiet & Hq & ->) | (prelude & top & pf & cmd & Hp & ->)];
      rewrite fst_finally; eexists; (split; [reflexivity|]).
    - intros ev Hev. left. simpl in Hev. by eapply Forall_forall in Hq.
    - destruct (after_script_cases W fn prelude top pf cmd)
        as (rest & -> & [[Hlogs _] | (rest' & -> & Hrest' & _)]);
        intros ev; rewrite elem_of_app, ?elem_of_cons;
        (intros [Hev | [-> | Hev]];
         [left; by eapply Forall_forall in Hp | right; left; by eexists |]).
      + right. right. eapply Forall_forall in Hlogs; [|done]. by destruct ev.
      + right. right. destruct Hev as [-> | Hev]; [done|].
        eapply Forall_forall in Hrest'; [|done].
        destruct Hrest' as [H | [t' ->]]; [by destruct ev | done]. }
  destruct Hbody as (body & Hfst & Hbody). rewrite Hfst in Hin |- *.
  assert (Hb : WriteFile path text ∈ body).
  { apply elem_of_app in Hin as [Hin | Hin]; [done|].
    pose proof (cleanups_events W fn) as Hc.
    eapply Forall_forall in Hc; [|done]. by destruct Hc as [? | [? | ?]]. }
  unfold cleanups.
  destruct (Hbody _ Hb) as [[Hl | (Hname & t' & Heq)] | [(cmd & Heq) | Hw]]; try done.
  - injection Heq as -> ->. rewrite Hname.
    destruct (cleanup_exists W "preprocessed file" (temp_source W fn) He)
      as (rest & -> & Hrest & Hwarn).
    exists (body ++ cleanup W "temporary file" (temp_script W))%list, rest.
    split; [by rewrite <- !app_assoc|]. split; [set_solver|].
    split; [by apply logs_passive|].
    destruct (os_remove W (temp_source W fn)); [done|]. subst rest. by eexists _, _.
  - injection Heq as -> ->.
    destruct (cleanup_exists W "temporary file" (temp_script W) He)
      as (rest & -> & Hrest & Hwarn).
    exists body. eexists. split; [by rewrite <- app_comm_cons|]. split; [done|].
    split.
    + rewrite Forall_app. split; [by apply logs_passive|].
      destruct (preprocessed_name W fn); [apply cleanup_passive | done].
    + destruct (os_remove W (temp_script W)); [done|]. subst rest. by eexists _, _.
Qed.

Lemma actions_app t1 t2 : actions (t1 ++ t2)%list = (actions t1 ++ actions t2)%list.
Proof. apply List.filter_app. Qed.

Lemma actions_logs t : Forall (fun ev => is_log ev = true) t → actions t = [].
Proof.
  unfold actions. induction 1 as [|ev t Hev _ IH]; [done|]. simpl. by rewrite Hev.
Qed.

Lemma actions_cleanup W what path : actions (cleanup W what path) = removal W path.
Proof.
  unfold cleanup, removal. destruct (os_path_exists W path); [|done].
  by destruct (os_remove W path).
Qed.

Lemma get_top_entity_logs W fn :
  Forall (fun ev => is_log ev = true) (fst (get_top_entity W fn)).
Proof.
  unfold get_top_entity, catch, bind, lift, log, ret.
  destruct (read_text W fn); simpl; [|by repeat constructor].
  destruct (last_entity a) as [[|c w']|]; simpl; by repeat constructor.
Qed.

(** The call after the command is built, when the write of the script,
    the run and the entry in the log file all succeed. *)
Lemma write_and_run_success W fn top pf yosyscmd result :
  let argv := tool_argv fn yosyscmd (temp_script W) in
  let text := log_text fn top pf yosyscmd (stdout result) (stderr result) in
  write_text W (temp_script W) yosyscmd = Ok tt →
  subprocess_run W argv = Ok result →
  append_text W (log_file W) text = Ok tt →
  ∃ logs, Forall (fun ev => is_log ev = true) logs
    ∧ write_and_run W fn top pf yosyscmd (temp_script W)
      = (WriteFile (temp_script W) yosyscmd :: RunTool argv
           :: AppendFile (log_file W) text :: logs,
         Ok (extract fn (stdout result))).
Proof.
  intros argv text Hw Hrun Ha.
  destruct (report_failure_logs fn result) as [Hok Hlogs].
  destruct (report_failure fn result) as [tr rr] eqn:Hrep. simpl in Hok, Hlogs. subst rr.
  unfold write_and_run, run_yosys. fold (tool_argv fn yosyscmd (temp_script W)). fold argv.
  unfold catch, bind, act, ret. rewrite Hw, Hrun. fold text. rewrite Ha, Hrep.
  unfold parse_output, extract, log, ret.
  destruct (Py.endswith fn ".vhdl"); simpl; eexists; (split; [|reflexivity]).
  - rewrite app_nil_r, Forall_app. split; [done | by repeat constructor].
  - by rewrite !app_nil_r.
Qed.

(** X7.  The course of a successful call on a VHDL file: with a top
    entity found and the write of the script, the run and the log entry
    succeeding, [yosys] returns [0] wire bits and the cell count after
    the last statistics marker, whatever the exit status of the tool;
    and, messages apart, it does exactly this: write the one-line
    command to its script file, run [yosys -m ghdl -p] on the command,
    add the entry to the log file, remove the script file. *)
Theorem yosys_vhdl_success (W : World) (fn top : string) (result : completed) :
  let cmd := vhdl_command fn top in
  let argv := ["yosys"; "-m"; "ghdl"; "-p"; cmd] in
  let text := log_text fn top None cmd (stdout result) (stderr result) in
  Py.endswith fn ".vhdl" = true →
  snd (get_top_entity W fn) = Some top →
  write_text W (temp_script W) cmd = Ok tt →
  subprocess_run W argv = Ok result →
  append_text W (log_file W) text = Ok tt →
  snd (yosys W fn) = (0%Z, sum_cell_counts (stdout result))
  ∧ actions (fst (yosys W fn))
    = ([WriteFile (temp_script W) cmd; RunTool argv; AppendFile (log_file W) text]
       ++ removal W (temp_script W))%list.
Proof.
  intros cmd argv text Hv Htop Hw Hrun Ha.
  assert (Hargv : tool_argv fn cmd (temp_script W) = argv).
  { unfold tool_argv. by rewrite Hv. }
  destruct (write_and_run_success W fn top None cmd result) as (logs & Hlogs & Hwr);
    [done | by rewrite Hargv | done |].
  rewrite Hargv in Hwr. fold text in Hwr.
  pose proof (get_top_entity_logs W fn) as Hte.
  unfold yosys. cbv zeta. fold (temp_script W). rewrite Hv, Htop.
  unfold preprocessed_name. rewrite Hv. unfold catch, bind, log.
  fold (vhdl_command fn top). fold cmd. rewrite Hwr. unfold extract. rewrite Hv.
  rewrite snd_finally, fst_finally. split; [done|]. simpl fst.
  rewrite !actions_app, (actions_logs _ Hte), actions_cleanup. simpl.
  by rewrite (actions_logs _ Hlogs), app_nil_r.
Qed.


(** X8.  The course of a successful call on a SystemVerilog file: with
    the source readable and the two writes, the run and the log entry
    succeeding, [yosys] returns what the extractor reads from the output
    of the tool, whatever its exit status; and, messages apart, it does
    exactly this: write the rewritten source to its own temporary file,
    write the script that reads that file by its absolute path and takes
    the top module found in the source, run the tool on the script, add
    the entry to the log file, remove the script and then the rewritten
    source. *)
Theorem yosys_sv_success (W : World) (fn content : string) (result : completed) :
  let top := top_of (Py.splitext_root (Py.basename fn)) (candidates content) in
  let source := temp_source W fn in
  let cmd := preprocessed_script (os_path_abspath W source) top in
  let argv := ["yosys"; temp_script W] in
  let text := log_text fn top (Some source) cmd (stdout result) (stderr result) in
  Py.endswith fn ".vhdl" = false →
  read_text W fn = Ok content →
  write_text W source (rewrite content) = Ok tt →
  write_text W (temp_script W) cmd = Ok tt →
  subprocess_run W argv = Ok result →
  append_text W (log_file W) text = Ok tt →
  snd (yosys W fn) = sv_stats (stdout result)
  ∧ actions (fst (yosys W fn))
    = ([WriteFile source (rewrite content); WriteFile (temp_script W) cmd;
        RunTool argv; AppendFile (log_file W) text]
       ++ removal W (temp_script W) ++ removal W source)%list.
Proof.
  intros top source cmd argv text Hv Hr Hws Hw Hrun Ha.
  assert (Hargv : tool_argv fn cmd (temp_script W) = argv).
  { unfold tool_argv. by rewrite Hv. }
  destruct (write_and_run_success W fn top (Some source) cmd result)
    as (logs & Hlogs & Hwr); [done | by rewrite Hargv | done |].
  rewrite Hargv in Hwr. fold text in Hwr.
  assert (Hm : get_top_module W fn = ([], top)).
  { unfold get_top_module, catch, bind, lift, ret. by rewrite Hr. }
  assert (Hp : preprocess_sv_file W fn = ([], Some (rewrite content))).
  { unfold preprocess_sv_file, catch, bind, lift, ret. by rewrite Hr. }
  unfold yosys. cbv zeta. fold (temp_script W). fold (temp_source W fn). fold source.
  unfold preprocessed_name. rewrite Hv, Hm, Hp. fold (temp_source W fn). fold source.
  unfold catch, bind, act. simpl fst. simpl snd. rewrite Hws. fold cmd. rewrite Hwr.
  unfold extract. rewrite Hv. unfold finally. simpl fst. simpl snd.
  split; [done|].
  rewrite !actions_app, !actions_cleanup. simpl.
  by rewrite (actions_logs _ Hlogs).
Qed.

(** ** Source rewriter: sources that need no rewriting *)

Lemma startswith_app a b l : Py.startswith a l = true → Py.startswith (a ++ b) l = true.
Proof.
  revert a. induction l as [|x l IH]; intros a; [by destruct (a ++ b)|].
  destruct a as [|y a]; [done|].
  change (String y a ++ b) with (String y (a ++ b)). cbn [Py.startswith].
  destruct (Ascii.eqb x y); cbn [andb]; [apply IH | done].
Qed.

Lemma contains_here l t : Py.startswith t l = true → Py.contains l t = true.
Proof. intros H. destruct t; cbn [Py.contains]; by rewrite H. Qed.

Lemma contains_app_l l a b : Py.contains l a = true → Py.contains l (a ++ b) = true.
Proof.
  induction a as [|c a IH].
  - simpl. rewrite orb_false_r. destruct l; [|done]. intros _. by destruct b.
  - change (String c a ++ b) with (String c (a ++ b)). cbn [Py.contains].
    intros H. apply orb_true_iff in H as [H | H].
    + apply (startswith_app _ b) in H.
      change (String c a ++ b) with (String c (a ++ b)) in H. by rewrite H.
    + rewrite (IH H). apply orb_true_r.
Qed.

Lemma contains_app_r l a b : Py.contains l b = true → Py.contains l (a ++ b) = true.
Proof.
  intros H. induction a as [|c a IH]; [done|].
  change (String c a ++ b) with (String c (a ++ b)). cbn [Py.contains].
  rewrite IH. apply orb_true_r.
Qed.

Lemma contains_app_false l a b :
  Py.contains l (a ++ b) = false → Py.contains l a = false ∧ Py.contains l b = false.
Proof.
  intros H. split.
  - destruct (Py.contains l a) eqn:Ha; [|done]. by rewrite contains_app_l in H.
  - destruct (Py.contains l b) eqn:Hb; [|done]. by rewrite contains_app_r in H.
Qed.

Lemma contains_longer l l' t : Py.contains l t = false → Py.contains (l ++ l') t = false.
Proof.
  induction t as [|c t IH]; cbn [Py.contains]; intros H;
    apply orb_false_iff in H as [H1 H2]; rewrite (startswith_longer _ _ l' H1); [done|].
  by rewrite IH.
Qed.

Lemma split_aux_nonempty sep skip acc t : Py.split_aux sep skip acc t ≠ [].
Proof.
  revert skip acc. induction t as [|c t IH]; intros skip acc; [done|].
  cbn [Py.split_aux]. destruct skip; [|apply IH].
  destruct (Py.startswith _ _); [done | apply IH].
Qed.

Lemma join_cons sep x l : l ≠ [] → Py.join sep (x :: l) = x ++ sep ++ Py.join sep l.
Proof. by destruct l. Qed.

Lemma join_split_aux acc t : Py.join Py.nl (Py.split_aux Py.nl 0 acc t) = Py.rev_onto acc t.
Proof.
  revert acc. induction t as [|c t IH]; intros acc; [done|].
  cbn [Py.split_aux]. unfold Py.nl at 2. cbn [Py.startswith].
  destruct (Ascii.eqb_spec Chr.newline c) as [<-|_]; cbn [andb].
  - replace (Py.startswith t "") with true by (by destruct t).
    change (String.length Py.nl - 1) with 0.
    rewrite join_cons by apply split_aux_nonempty. rewrite IH. simpl.
    by rewrite rev_onto_app.
  - by rewrite IH.
Qed.

(** Splitting a text into lines and joining them again gives the text. *)
Lemma join_split t : Py.join Py.nl (Py.split Py.nl t) = t.
Proof. unfold Py.split. by rewrite join_split_aux. Qed.

Lemma join_absent l lines :
  Py.contains l (Py.join Py.nl lines) = false →
  Forall (fun line => Py.contains l line = false) lines.
Proof.
  induction lines as [|x lines IH]; [done|]. destruct lines as [|y lines].
  - intros H. by repeat constructor.
  - rewrite join_cons by done. intros H.
    apply contains_app_false in H as [Hx H]. apply contains_app_false in H as [_ H].
    constructor; [done | by apply IH].
Qed.

(** What a text does not contain, none of its lines contains. *)
Lemma lines_absent l t :
  Py.contains l t = false →
  Forall (fun line => Py.contains l line = false) (Py.split Py.nl t).
Proof. intros H. apply join_absent. by rewrite join_split. Qed.

(** A substitution changes nothing where its pattern is not found. *)
Lemma sub_from_none icase r repl t pre :
  search_from icase r pre t = None → sub_from icase r repl 0 pre t = t.
Proof.
  revert pre. induction t as [|c t IH]; intros pre; cbn [search_from sub_from]; unfold orelse.
  - by destruct (match_at icase r pre "").
  - destruct (match_at icase r pre (String c t)); [done|]. intros H. by rewrite IH.
Qed.

Lemma search_literal_absent l r pre t :
  Py.contains l t = false → search_from false (Cat (Lit l) r) pre t = None.
Proof.
  revert pre. induction t as [|c t IH]; intros pre; cbn [Py.contains]; intros H.
  - rewrite orb_false_r in H. cbn [search_from]. unfold match_at. cbn [run].
    by rewrite lit_m_mismatch.
  - apply orb_false_iff in H as [H1 H2]. cbn [search_from]. unfold match_at at 1.
    cbn [run]. rewrite lit_m_mismatch by done. by rewrite IH.
Qed.

Lemma chr_eq_backquote icase b : chr_eq icase "`" b = true → b = "`"%char.
Proof.
  destruct icase; unfold chr_eq.
  - destruct b as [[] [] [] [] [] [] [] []]; vm_compute; congruence.
  - by intros ->%Ascii.eqb_eq.
Qed.

Lemma lit_m_backquote icase l pre t x :
  lit_m icase (String "`" l) pre t = Some x → Py.contains "`" t = true.
Proof.
  destruct t as [|b t]; [done|]. cbn [lit_m].
  destruct (chr_eq icase "`" b) eqn:Hb; [|done]. apply chr_eq_backquote in Hb as ->.
  intros _. apply contains_here. by destruct t.
Qed.

(** A directive after blanks is not found in a text without a
    backquote, in either case of the letters. *)
Lemma search_directive_absent icase p l r pre t :
  Py.contains "`" t = false →
  search_from icase (Cat (Star p) (Cat (Lit (String "`" l)) r)) pre t = None.
Proof.
  assert (Hm : ∀ pre t, Py.contains "`" t = false →
            match_at icase (Cat (Star p) (Cat (Lit (String "`" l)) r)) pre t = None).
  { intros pre' t' Ht. destruct (match_at _ _ _ _) as [m|] eqn:Hm; [exfalso | done].
    unfold match_at in Hm. cbn [run] in Hm.
    apply star_m_inv in Hm as (u & t'' & -> & _ & Hm).
    apply contains_app_false in Ht as [_ Ht].
    destruct (lit_m icase (String "`" l) _ t'') eqn:Hl; [|done].
    apply lit_m_backquote in Hl. congruence. }
  revert pre. induction t as [|c t IH]; intros pre Ht; cbn [search_from].
  - by rewrite Hm.
  - rewrite Hm by done. cbn [Py.contains] in Ht. apply orb_false_iff in Ht as [_ Ht].
    by rewrite IH.
Qed.

Lemma always_absent cur : Py.contains "always" cur = false → rmatch always_re cur = None.
Proof.
  intros Hc. destruct (rmatch always_re cur) as [m|] eqn:Hm; [exfalso | done].
  unfold rmatch, match_at, always_re in Hm. cbn [seq run] in Hm.
  apply star_m_inv in Hm as (u & t' & -> & _ & Hm).
  apply contains_app_false in Hc as [_ Hc].
  destruct (lit_m false "always" _ t') as [[pre' t'']|] eqn:Hl; [|done].
  apply lit_m_inv in Hl as [-> _].
  assert (H : Py.contains "always" ("always" ++ t'') = true) by (by apply contains_app_l).
  congruence.
Qed.

Lemma hoist_loop_plain lines out :
  Forall (fun line => rmatch always_re line = None) lines →
  hoist_loop lines 0 None out = (out ++ lines)%list.
Proof.
  intros H. revert out. induction H as [|cur lines Hcur _ IH]; intros out.
  - by rewrite app_nil_r.
  - cbn [hoist_loop]. rewrite Hcur, IH. by rewrite <- app_assoc.
Qed.

Lemma skip_sections_plain lines :
  Forall (fun line => Py.contains ("FILE " ++ String Chr.dquote "") line = false) lines →
  skip_sections lines false = lines.
Proof.
  induction 1 as [|line lines Hline _ IH]; [done|]. cbn [skip_sections].
  pose proof (contains_longer _ "verification/" _ Hline) as Hv.
  pose proof (contains_longer _ "layers-" _ Hline) as Hl.
  change (Py.contains ("FILE " ++ String Chr.dquote "verification/") line = false) in Hv.
  change (Py.contains ("FILE " ++ String Chr.dquote "layers-") line = false) in Hl.
  rewrite Hv, Hl. cbn [orb negb]. by rewrite IH.
Qed.

Lemma skip_pass_plain lines cleaned :
  Forall (fun line => Py.contains "`" line = false) lines →
  fold_left skip_step lines (0%Z, cleaned) = (0%Z, (cleaned ++ lines)%list).
Proof.
  intros H. revert cleaned. induction H as [|line lines Hline _ IH]; intros cleaned.
  - by rewrite app_nil_r.
  - cbn [fold_left].
    assert (Hstep : skip_step (0%Z, cleaned) line = (0%Z, (cleaned ++ [line])%list)).
    { unfold skip_step. cbn [Z.ltb Z.compare].
      destruct (Py.contains marker line); [|done].
      rewrite (matches_none ifdef_marker_re), (matches_none ifndef_marker_re),
        (matches_none endif_marker_re); [done | | |];
        apply search_literal_absent;
        by apply (contains_longer "`"). }
    rewrite Hstep, IH. by rewrite <- app_assoc.
Qed.

(** X9.  A source with no backquote (no compiler directive), without the
    word [automatic], without a [FILE] marker, without [always] and
    without the opening of an assignment pattern comes out of the
    rewriter exactly as it went in: no stage touches it, and the line
    ends, the last one included, are kept. *)
Theorem rewrite_identity_on_plain_source (content : string) :
  Py.contains "`" content = false →
  Py.contains "automatic" content = false →
  Py.contains ("FILE " ++ String Chr.dquote "") content = false →
  Py.contains "always" content = false →
  Py.contains "'{" content = false →
  rewrite content = content.
Proof.
  intros Htick Hauto Hfile Halways Hpat.
  assert (H1 : strip_automatic content = content).
  { unfold strip_automatic. rewrite <- (join_split content) at 2. f_equal.
    rewrite <- (map_id (Py.split Py.nl content)) at 2.
    apply map_ext_Forall. eapply Forall_impl; [apply (lines_absent _ _ Hauto)|].
    intros line Hline. cbn beta. unfold sub.
    rewrite (sub_from_none false automatic_type_re) by (by apply search_word_absent).
    apply sub_from_none. by apply search_word_absent. }
  assert (H2 : strip_includes content = content).
  { unfold strip_includes. cbv zeta.
    assert (Hf : List.filter (fun line => negb (is_verification_include line))
                   (Py.split Py.nl content) = Py.split Py.nl content).
    { apply forallb_filter_id. apply forallb_forall. intros line Hin.
      pose proof (lines_absent _ _ Htick) as Hl. rewrite Forall_forall in Hl.
      apply list_elem_of_In, Hl in Hin. unfold is_verification_include.
      pose proof (contains_longer "`" "include" _ Hin) as Hi.
      change (Py.contains "`include" line = false) in Hi. by rewrite Hi. }
    rewrite Hf, join_split. unfold sub, isub.
    rewrite (sub_from_none false) by (by apply search_directive_absent).
    apply sub_from_none. by apply search_directive_absent. }
  assert (H3 : strip_sections content = content).
  { unfold strip_sections. rewrite skip_sections_plain by (by apply lines_absent).
    apply join_split. }
  assert (H4 : strip_guards content = content).
  { unfold strip_guards, sub.
    rewrite (sub_from_none false layers_guard_re)
      by (apply search_literal_absent; by apply (contains_longer "`")).
    apply sub_from_none. apply search_literal_absent. by apply (contains_longer "`"). }
  assert (H5 : strip_initial_blocks content = content).
  { unfold strip_initial_blocks, skip_pass.
    rewrite skip_pass_plain by (by apply lines_absent). apply join_split. }
  assert (H6 : _hoist_logic_from_always content = content).
  { unfold _hoist_logic_from_always. rewrite hoist_loop_plain; [apply join_split|].
    eapply Forall_impl; [apply (lines_absent _ _ Halways)|]. apply always_absent. }
  unfold rewrite. rewrite H1, H2, H3, H4, H5, H6. by apply replace_absent.
Qed.

(** ** Source rewriter, stage 3 *)

Lemma lstrip_empty t : Py.lstrip t = "" → all_space t = true.
Proof.
  induction t as [|c t IH]; [done|]. simpl.
  destruct (Chr.is_space c); [exact IH | done].
Qed.

Lemma all_space_lstrip t : all_space (Py.lstrip t) = true → all_space t = true.
Proof.
  induction t as [|c t IH]; [done|]. simpl.
  destruct (Chr.is_space c) eqn:Hc; [exact IH|]. simpl. by rewrite Hc.
Qed.

Lemma all_space_rev_onto t acc :
  all_space (Py.rev_onto t acc) = all_space t && all_space acc.
Proof.
  revert acc. induction t as [|c t IH]; intros acc; [done|]. simpl.
  rewrite IH. simpl. destruct (Chr.is_space c), (all_space t); simpl; try done;
    by rewrite ?andb_false_r.
Qed.

Lemma rev_empty t : Py.rev t = "" → t = "".
Proof. intros H. rewrite <- (rev_involutive t). by rewrite H. Qed.

(** A line that [strip] empties holds white space only. *)
Lemma blank_all_space line : blank line = true → all_space line = true.
Proof.
  unfold blank, Py.strip, Py.rstrip. intros H. apply String.eqb_eq, rev_empty in H.
  apply lstrip_empty in H. unfold Py.rev in H. rewrite all_space_rev_onto in H.
  apply andb_true_iff in H as [H _]. by apply all_space_lstrip.
Qed.

Lemma all_space_absent a l t :
  Chr.is_space a = false → all_space t = true → Py.contains (String a l) t = false.
Proof.
  intros Ha Ht. rewrite <- (append_empty_r t).
  by rewrite contains_after_spaces.
Qed.

Lemma marker_not_blank line : section_marker line = true → blank line = false.
Proof.
  intros Hm. destruct (blank line) eqn:Hb; [|done].
  apply blank_all_space in Hb. unfold section_marker in Hm.
  change ("FILE " ++ String Chr.dquote "verification/")
    with (String "F" ("ILE " ++ String Chr.dquote "verification/")) in Hm.
  change ("FILE " ++ String Chr.dquote "layers-")
    with (String "F" ("ILE " ++ String Chr.dquote "layers-")) in Hm.
  rewrite !all_space_absent in Hm by done. done.
Qed.

Lemma skip_sections_outside pre rest :
  Forall (fun line => section_marker line = false) pre →
  skip_sections (pre ++ rest) false = (pre ++ skip_sections rest false)%list.
Proof.
  induction 1 as [|line pre Hline _ IH]; [done|].
  rewrite <- !app_comm_cons. cbn [skip_sections].
  unfold section_marker in Hline. rewrite Hline. cbn [negb]. by rewrite IH.
Qed.

Lemma skip_sections_inside body rest :
  Forall (fun line => blank line = false) body →
  skip_sections (body ++ rest) true = skip_sections rest true.
Proof.
  induction 1 as [|line body Hline _ IH]; [done|].
  rewrite <- !app_comm_cons. cbn [skip_sections].
  unfold blank in Hline. rewrite Hline.
  destruct (_ || _); cbn [negb]; exact IH.
Qed.

Lemma skip_sections_opens mark rest :
  section_marker mark = true →
  skip_sections (mark :: rest) false = skip_sections rest true.
Proof.
  intros Hm. pose proof (marker_not_blank _ Hm) as Hb. cbn [skip_sections].
  unfold section_marker in Hm. unfold blank in Hb. by rewrite Hm, Hb.
Qed.

(** X10.  Stage 3 of the rewriter on the lines of a text: a verification
    section runs from a line with a [FILE] marker up to and including the
    next blank line, and is removed whole, later markers inside it
    included; the lines before it are kept, and the scan goes on after
    it.  A section with no blank line after its marker runs to the end of
    the text. *)
Theorem skip_sections_removes_section
    (pre body post : list string) (mark end_line : string) :
  Forall (fun line => section_marker line = false) pre →
  section_marker mark = true →
  Forall (fun line => blank line = false) body →
  blank end_line = true →
  skip_sections (pre ++ mark :: body ++ end_line :: post) false
  = (pre ++ skip_sections post false)%list
  ∧ skip_sections (pre ++ mark :: body) false = pre.
Proof.
  intros Hpre Hmark Hbody Hend. rewrite !skip_sections_outside by done.
  rewrite !skip_sections_opens by done. split.
  - f_equal. rewrite skip_sections_inside by done. cbn [skip_sections].
    unfold blank in Hend. rewrite Hend. by destruct (_ || _).
  - rewrite <- (app_nil_r body), skip_sections_inside by done.
    cbn [skip_sections]. by rewrite app_nil_r.
Qed.

(** ** Source rewriter, stage 5, continued *)

Lemma skip_step_keeps d cleaned line :
  snd (skip_step (d, cleaned) line) = cleaned
  ∨ (snd (skip_step (d, cleaned) line) = (cleaned ++ [line])%list
     ∧ marker_directive line = false).
Proof.
  unfold skip_step, marker_directive.
  destruct (Py.contains marker line); cbn [andb];
    repeat match goal with
    | |- context [if ?b then _ else _] => destruct b eqn:?
    end; cbn [snd orb]; auto.
Qed.

Lemma fold_skip_step_keeps lines d cleaned :
  ∃ kept, snd (fold_left skip_step lines (d, cleaned)) = (cleaned ++ kept)%list
          ∧ kept `sublist_of` lines
          ∧ Forall (fun line => marker_directive line = false) kept.
Proof.
  revert d cleaned. induction lines as [|line lines IH]; intros d cleaned.
  - exists []. by rewrite app_nil_r.
  - cbn [fold_left]. destruct (skip_step (d, cleaned) line) as [d' cleaned'] eqn:Hs.
    destruct (IH d' cleaned') as (kept & -> & Hsub & Hk).
    destruct (skip_step_keeps d cleaned line) as [H | [H Hm]];
      rewrite Hs in H; simpl in H; subst cleaned'.
    + exists kept. split; [done|]. split; [by apply sublist_cons | done].
    + exists (line :: kept). rewrite <- app_assoc. split; [done|].
      split; [by apply sublist_skip | by constructor].
Qed.

(** X11.  Stage 5 of the rewriter only deletes whole lines: the lines it
    keeps are lines of its input, unchanged and in their order; and no
    directive of the marker [ENABLE_INITIAL_REG_] is among them. *)
Theorem skip_pass_only_deletes (lines : list string) :
  snd (skip_pass lines) `sublist_of` lines
  ∧ Forall (fun line => marker_directive line = false) (snd (skip_pass lines)).
Proof.
  unfold skip_pass. destruct (fold_skip_step_keeps lines 0 []) as (kept & -> & Hs & Hk).
  done.
Qed.

(** ** Source rewriter, stage 6, continued *)

(** X13.  A clocked block that the text does not close: when the lines
    after the header never bring the depth back to zero, the
    declarations with an initializer are taken out of the block like in
    a closed one, but their wires are never written; the result is the
    text without the declarations. *)
Theorem hoist_unclosed_block_drops_declarations
    (content hdr : string) (pre body : list string) (m : mobj) :
  Py.split Py.nl content = (pre ++ hdr :: body)%list →
  Forall (fun l => rmatch always_re l = None) pre →
  rmatch always_re hdr = Some m →
  body_ok 1 body = true →
  _hoist_logic_from_always content = Py.join Py.nl (pre ++ hdr :: kept body).
Proof.
  intros Hsplit Hpre Hhdr Hbody. unfold _hoist_logic_from_always. rewrite Hsplit. f_equal.
  rewrite hoist_loop_outside by done. cbn [hoist_loop app]. rewrite Hhdr.
  rewrite <- (app_nil_r body) at 1. rewrite hoist_loop_body by done.
  cbn [hoist_loop]. by rewrite <- app_assoc.
Qed.

(** ** Parallel driver, continued *)

(** X14.  The driver over the workers: when every future that returns
    gives the value of [yosys] on its file, in the environment of its
    worker, both numbers of every entry of the result are
    non-negative, whatever the order of completion and whichever futures
    raise. *)
Theorem process_files_entries_nonnegative
    (Ws : nat -> World) (result : nat -> outcome (Z * Z))
    (order : list nat) (files : list string) (file : string) (r : Z * Z) :
  (∀ i f v, files !! i = Some f → result i = Ok v → v = snd (yosys (Ws i) f)) →
  process_files result order files !! file = Some r →
  (0 <= fst r)%Z ∧ (0 <= snd r)%Z.
Proof.
  intros Hres. unfold process_files.
  destruct (fold_results_lookup result files order ∅ file) as [-> | (i & _ & Hi & ->)].
  - by rewrite lookup_empty.
  - intros [= <-]. destruct (result i) as [v|e] eqn:Hr; simpl; [|by split].
    rewrite (Hres _ _ _ Hi Hr). apply yosys_value_nonneg.
Qed.

(** ** Tool invoker: a rewritten source that cannot be written *)

(** X15.  No fallback when the rewritten source cannot be written: for
    a SystemVerilog file that was read and rewritten, a failure of the
    write of the rewritten source ends the call with [(0, 0)] and the
    message of the outer handler; no script is written and the tool is
    not run, on the original file either. *)
Theorem yosys_sv_source_write_failure (W : World) (fn content : string) (e : exn) :
  Py.endswith fn ".vhdl" = false →
  read_text W fn = Ok content →
  write_text W (temp_source W fn) (rewrite content) = Raise e →
  snd (yosys W fn) = (0%Z, 0%Z)
  ∧ Log "ERROR" ("Unexpected error processing " ++ fn ++ ": " ++ message e)
    ∈ fst (yosys W fn)
  ∧ actions (fst (yosys W fn))
    = ([WriteFile (temp_source W fn) (rewrite content)]
       ++ removal W (temp_script W) ++ removal W (temp_source W fn))%list.
Proof.
  intros Hv Hr Hws.
  assert (Hm : fst (get_top_module W fn) = []).
  { unfold get_top_module, catch, bind, lift, ret. by rewrite Hr. }
  assert (Hp : preprocess_sv_file W fn = ([], Some (rewrite content))).
  { unfold preprocess_sv_file, catch, bind, lift, ret. by rewrite Hr. }
  unfold yosys. cbv zeta. fold (temp_script W). fold (temp_source W fn).
  unfold preprocessed_name. rewrite Hv, Hm, Hp. fold (temp_source W fn).
  unfold catch, bind, act, finally. simpl fst. simpl snd. rewrite Hws. simpl fst. simpl snd.
  split; [done|]. split; [set_solver|].
  rewrite !actions_app, !actions_cleanup. done.
Qed.

(** ** Top module of a SystemVerilog file, read from the text *)

Lemma in_all_ascii c : In c all_ascii.
Proof.
  unfold all_ascii. apply in_map_iff. exists (nat_of_ascii c).
  split; [apply ascii_nat_embedding|]. apply in_seq.
  pose proof (nat_ascii_bounded c). lia.
Qed.

(** A test that accepts every character holds of every character. *)
Lemma for_all_ascii (f : ascii -> bool) : forallb f all_ascii = true → ∀ c, f c = true.
Proof. intros H c. rewrite forallb_forall in H. apply H, in_all_ascii. Qed.

Lemma space_not_word c : Chr.is_space c = true → Chr.is_word c = false.
Proof.
  intros Hs.
  pose proof (for_all_ascii (fun c => implb (Chr.is_space c) (negb (Chr.is_word c)))
                ltac:(by vm_compute) c) as H.
  cbn beta in H. rewrite Hs in H. by apply negb_true_iff in H.
Qed.

Lemma space_not_opening c :
  Chr.is_space c = true → Ascii.eqb "(" c || Ascii.eqb "#" c = false.
Proof.
  intros Hs.
  pose proof (for_all_ascii
                (fun c => implb (Chr.is_space c) (negb (Ascii.eqb "(" c || Ascii.eqb "#" c)))
                ltac:(by vm_compute) c) as H.
  cbn beta in H. rewrite Hs in H. by apply negb_true_iff in H.
Qed.

Lemma word_not_opening c :
  Chr.is_word c = true → Ascii.eqb "(" c || Ascii.eqb "#" c = false.
Proof.
  intros Hs.
  pose proof (for_all_ascii
                (fun c => implb (Chr.is_word c) (negb (Ascii.eqb "(" c || Ascii.eqb "#" c)))
                ltac:(by vm_compute) c) as H.
  cbn beta in H. rewrite Hs in H. by apply negb_true_iff in H.
Qed.

Lemma orelse_none_r {A} (x : option A) : orelse x None = x.
Proof. by destruct x. Qed.

(** A repetition takes the longest run when what follows it cannot begin
    with a character of its class. *)
Lemma star_m_greedy {A} (p : ascii -> bool) (k : string -> string -> option A) pre t :
  (∀ pre' c t', p c = true → k pre' (String c t') = None) →
  star_m p pre t k = k (Py.rev_onto (take_while p t) pre) (drop_while p t).
Proof.
  intros Hk. revert pre. induction t as [|c t IH]; intros pre; [done|].
  cbn [star_m take_while drop_while]. destruct (p c) eqn:Hc; [|done].
  rewrite (Hk pre c t Hc), orelse_none_r, IH. done.
Qed.

Lemma plus_greedy {A} (p : ascii -> bool) (k : string -> string -> option A) pre t :
  (∀ pre' c t', p c = true → k pre' (String c t') = None) →
  match t with
  | String c t' => if p c then star_m p (String c pre) t' k else None
  | "" => None
  end
  = match take_while p t with
    | "" => None
    | String _ _ => k (Py.rev_onto (take_while p t) pre) (drop_while p t)
    end.
Proof.
  intros Hk. destruct t as [|c t]; [done|]. cbn [take_while drop_while].
  destruct (p c); [|done]. by rewrite star_m_greedy.
Qed.

Lemma lit_m_startswith l pre t :
  lit_m false l pre t
  = if Py.startswith t l then Some (Py.rev_onto l pre, Py.drop (String.length l) t) else None.
Proof.
  revert pre t. induction l as [|a l IH]; intros pre t.
  - by destruct t.
  - destruct t as [|b t]; [done|]. cbn [lit_m Py.startswith chr_eq String.length Py.drop].
    destruct (Ascii.eqb_spec a b) as [->|_]; [|done]. cbn [andb Py.rev_onto]. by rewrite IH.
Qed.

Lemma rev_onto_append u v pre :
  Py.rev_onto (u ++ v) pre = Py.rev_onto v (Py.rev_onto u pre).
Proof.
  revert pre. induction u as [|c u IH]; intros pre; [done|].
  change (String c u ++ v) with (String c (u ++ v)). cbn [Py.rev_onto]. apply IH.
Qed.

(** What the pattern of the source finds at a place is the declaration
    at that place. *)
Lemma module_at pre t :
  match match_at false module_re pre t with
  | Some m => declaration_at pre t = Some (grp 1 m, String.length (group0 m))
  | None => declaration_at pre t = None
  end.
Proof.
  unfold match_at, module_re, declaration_at. cbn [seq alt run].
  rewrite lit_m_startswith.
  destruct (Py.startswith t "module") eqn:Hstart; cycle 1.
  { rewrite andb_false_r. by destruct (at_word_boundary pre t). }
  assert (Hb : at_word_boundary pre t = starts_word pre).
  { destruct t as [|c t]; [done|]. cbn [Py.startswith] in Hstart.
    apply andb_true_iff in Hstart as [Hc _]. apply Ascii.eqb_eq in Hc. subst c.
    unfold at_word_boundary, starts_word. destruct pre as [|b pre]; [done|].
    change (Chr.is_word "m") with true. apply xorb_true_r. }
  rewrite Hb. destruct (starts_word pre); [|done]. cbn [andb String.length].
  unfold s, w.
  set (t1 := Py.drop 6 t). set (pre1 := Py.rev_onto "module" pre).
  rewrite plus_greedy; cycle 1.
  { intros pre' c t' Hc. cbn [run]. by rewrite (space_not_word c Hc). }
  set (ws := take_while Chr.is_space t1). set (t2 := drop_while Chr.is_space t1).
  destruct ws as [|c0 ws0] eqn:Hws; [done|]. rewrite <- Hws.
  rewrite plus_greedy; cycle 1.
  { intros pre' c t' Hc. cbn [star_m].
    destruct (Chr.is_space c) eqn:Hs; [by rewrite (space_not_word c Hs) in Hc|].
    unfold orelse. cbn [lit_m chr_eq].
    pose proof (word_not_opening c Hc) as Ho. apply orb_false_iff in Ho as [-> ->]. done. }
  set (name := take_while Chr.is_word t2). set (t3 := drop_while Chr.is_word t2).
  destruct name as [|c1 name0] eqn:Hname; [done|]. rewrite <- Hname.
  rewrite span_read.
  rewrite star_m_greedy; cycle 1.
  { intros pre' c t' Hc. unfold orelse. cbn [lit_m chr_eq].
    pose proof (space_not_opening c Hc) as Ho. apply orb_false_iff in Ho as [-> ->]. done. }
  set (ws' := take_while Chr.is_space t3).
  destruct (drop_while Chr.is_space t3) as [|c t4]; [done|].
  unfold orelse. cbn [lit_m chr_eq].
  rewrite (Ascii.eqb_sym c "("), (Ascii.eqb_sym c "#").
  assert (Hlen : ∀ cs, String.length (group0 (Mobj pre
                   (String c (Py.rev_onto ws' (Py.rev_onto name (Py.rev_onto ws pre1))))
                   t4 cs))
                 = 6 + String.length ws + String.length name + String.length ws' + 1).
  { intros cs. unfold group0. cbn [m_start m_end]. unfold pre1.
    change (String c (Py.rev_onto ws' (Py.rev_onto name (Py.rev_onto ws
              (Py.rev_onto "module" pre)))))
      with (Py.rev_onto (String c "") (Py.rev_onto ws' (Py.rev_onto name (Py.rev_onto ws
              (Py.rev_onto "module" pre))))).
    rewrite <- !rev_onto_append, span_read, !length_append. simpl. lia. }
  destruct (Ascii.eqb "(" c) eqn:H1; cbn [orb].
  - rewrite Hlen. done.
  - destruct (Ascii.eqb "#" c) eqn:H2; [|done]. rewrite Hlen. done.
Qed.

Lemma module_names_from t skip pre :
  grp 1 <$> finditer_from false module_re skip pre t = declared_from skip pre t.
Proof.
  revert skip pre. induction t as [|c t IH]; intros skip pre.
  - destruct skip as [|n]; cbn [finditer_from declared_from]; [|done].
    pose proof (module_at pre "") as H. destruct (match_at false module_re pre ""); [|done].
    unfold declaration_at in H. cbn [Py.startswith] in H. rewrite andb_false_r in H. done.
  - destruct skip as [|n]; cbn [finditer_from declared_from]; [|apply IH].
    pose proof (module_at pre (String c t)) as H.
    destruct (match_at false module_re pre (String c t)) as [m|]; rewrite H.
    + cbn [fmap list_fmap]. f_equal. apply IH.
    + apply IH.
Qed.

(** The names that the pattern of the source finds are the names of the
    declarations of the text. *)
Lemma module_names_declared content : module_names content = declared_modules content.
Proof. apply module_names_from. Qed.

Lemma same_letter_lower w x :
  Chr.between 97 122 w = true → Ascii.eqb w (Chr.lower x) = same_letter w x.
Proof.
  intros Hw.
  pose proof (for_all_ascii
                (fun w => forallb (fun x => implb (Chr.between 97 122 w)
                                      (Bool.eqb (Ascii.eqb w (Chr.lower x)) (same_letter w x)))
                                  all_ascii)
                ltac:(by vm_compute) w) as H.
  cbn beta in H. rewrite forallb_forall in H. specialize (H x (in_all_ascii x)).
  rewrite Hw in H. by apply Bool.eqb_prop in H.
Qed.

Lemma begins_with_word_lower word t :
  all_chars (Chr.between 97 122) word = true →
  Py.startswith (Py.lower t) word = begins_with_word word t.
Proof.
  revert t. induction word as [|w word IH]; intros t Hword; [by destruct t|].
  cbn [all_chars] in Hword. apply andb_true_iff in Hword as [Hw Hword].
  destruct t as [|x t]; [done|].
  cbn [Py.lower Py.map Py.startswith begins_with_word].
  rewrite same_letter_lower by done. f_equal. by apply IH.
Qed.

(** A word in small letters stands in the name put in small letters
    exactly when the name mentions it. *)
Lemma mentions_lower word t :
  all_chars (Chr.between 97 122) word = true →
  Py.contains word (Py.lower t) = mentions word t.
Proof.
  intros Hword. induction t as [|x t IH].
  - cbn [Py.lower Py.map Py.contains mentions].
    by rewrite <- (begins_with_word_lower word "" Hword).
  - cbn [Py.contains mentions].
    change (Py.lower (String x t)) with (String (Chr.lower x) (Py.lower t)).
    cbn [Py.contains]. rewrite <- IH.
    change (String (Chr.lower x) (Py.lower t)) with (Py.lower (String x t)).
    by rewrite begins_with_word_lower.
Qed.

Lemma is_skipped_excluded name : is_skipped name = excluded name.
Proof.
  unfold is_skipped, excluded, skip_words. cbn [existsb].
  by rewrite !mentions_lower.
Qed.

Lemma top_of_described base content :
  top_of base (remaining content) = described_top_module base content.
Proof.
  unfold described_top_module, remaining. rewrite module_names_declared.
  erewrite filter_ext; [|intros name; by rewrite is_skipped_excluded].
  set (names := List.filter _ _). unfold top_of.
  destruct names as [|c0 names]; [done|].
  destruct (List.find _ (c0 :: names)) as [c|] eqn:Hf.
  - apply find_some in Hf as [Hin Heq]. apply String.eqb_eq in Heq. subst c.
    replace (existsb (String.eqb base) (c0 :: names)) with true; [done|].
    symmetry. apply existsb_exists. exists base. by rewrite String.eqb_refl.
  - replace (existsb (String.eqb base) (c0 :: names)) with false; [done|].
    symmetry. apply not_true_iff_false. intros He. apply existsb_exists in He as (c & Hin & Heq).
    eapply find_none in Hf; [|exact Hin]. apply String.eqb_eq in Heq. subst c.
    by rewrite String.eqb_refl in Hf.
Qed.

(** C5.  For a SystemVerilog file that can be read, [get_top_module]
    finds the module declarations of the text: each place where the
    word [module], white space, a name and, after white space or none, an
    opening parenthesis or a hash sign stand.  Of their names it keeps
    those that mention none of the five words, in small or capital
    letters; it returns the base name of the file when that name is
    among them, and otherwise the last of them; when none is left it
    returns the base name. *)
Theorem get_top_module_choice (W : World) (fn content : string) :
  read_text W fn = Ok content →
  let base := Py.splitext_root (Py.basename fn) in
  let top := snd (get_top_module W fn) in
  (∀ c, c ∈ remaining content ↔
        c ∈ module_names content ∧
        ∀ word, word ∈ ["verification"; "assert"; "assume"; "cover"; "layer"] →
                Py.contains word (Py.lower c) = false)
  ∧ (base ∈ remaining content → top = base)
  ∧ (base ∉ remaining content → ∀ c, last (remaining content) = Some c → top = c)
  ∧ (remaining content = [] → top = base)
  ∧ module_names content = declared_modules content
  ∧ (∀ c, c ∈ remaining content ↔ c ∈ declared_modules content ∧ excluded c = false)
  ∧ top = described_top_module base content.
Proof.
  intros Hr base top.
  assert (Htop : top = top_of base (remaining content)).
  { unfold top, get_top_module, catch, bind, lift. rewrite Hr. simpl.
    by rewrite candidates_remaining. }
  split.
  - intros c. unfold remaining. rewrite list_elem_of_In, List.filter_In.
    rewrite <- list_elem_of_In, negb_true_iff. unfold is_skipped.
    rewrite <- not_true_iff_false, existsb_exists. unfold skip_words.
    split.
    + intros [Hin Hno]. split; [done|]. intros word Hw.
      apply not_true_iff_false. intros Hc. apply Hno. exists word.
      by rewrite <- list_elem_of_In.
    + intros [Hin Hno]. split; [done|]. intros (word & Hw & Hc).
      apply list_elem_of_In in Hw. apply Hno in Hw. congruence.
  - rewrite Htop. split; [apply top_of_base|]. split.
    + intros Hnot c Hl. by apply top_of_last.
    + split; [by intros ->|]. split; [apply module_names_declared|]. split.
      * intros c. unfold remaining. rewrite list_elem_of_In, List.filter_In.
        by rewrite <- list_elem_of_In, negb_true_iff, module_names_declared,
          is_skipped_excluded.
      * apply top_of_described.
Qed.

(** ** Name normalizer: the labels that a second application keeps *)

Lemma prettify_name_label filename :
  prettify_name filename = label_of (Py.splitext_root filename).
Proof. reflexivity. Qed.

Lemma take_length n t : (String.length (Py.take n t) <= String.length t)%nat.
Proof.
  revert t. induction n as [|n IH]; intros [|c t]; simpl; try lia.
  specialize (IH t). lia.
Qed.

Lemma take_drop n t : t = Py.take n t ++ Py.drop n t.
Proof.
  revert t. induction n as [|n IH]; intros [|c t]; try done.
  cbn [Py.take Py.drop]. change (String c (Py.take n t) ++ Py.drop n t)
    with (String c (Py.take n t ++ Py.drop n t)). by rewrite <- IH.
Qed.

(** The name without extension is the beginning of the name. *)
Lemma splitext_root_prefix r : ∃ ext, r = Py.splitext_root r ++ ext.
Proof.
  unfold Py.splitext_root.
  repeat match goal with
  | |- context [match ?o with Some _ => _ | None => _ end] => destruct o
  | |- context [if ?b then _ else _] => destruct b
  end; first [by exists ""; rewrite append_empty_r | eexists; apply take_drop].
Qed.

Lemma append_same_length u v : String.length (u ++ v) = String.length u → v = "".
Proof. rewrite length_append. destruct v; simpl; [done | lia]. Qed.

Lemma startswith_length t l : Py.startswith t l = true → (String.length l <= String.length t)%nat.
Proof.
  revert t. induction l as [|a l IH]; intros [|b t]; simpl; try done; try lia.
  intros H. apply andb_true_iff in H as [_ H]. apply IH in H. lia.
Qed.

Lemma replace_aux_length old new skip t :
  (String.length new <= String.length old)%nat →
  (String.length (Py.replace_aux old new skip t) <= String.length t - skip)%nat.
Proof.
  intros Hlen. revert skip. induction t as [|c t IH]; intros skip; [simpl; lia|].
  cbn [Py.replace_aux]. destruct skip as [|n].
  - destruct (Py.startswith (String c t) old) eqn:Hs.
    + apply startswith_length in Hs. rewrite length_append.
      specialize (IH (String.length old - 1)%nat). simpl in *. lia.
    + specialize (IH 0%nat). simpl in *. lia.
  - specialize (IH n). simpl. lia.
Qed.

Lemma replace_length old new t :
  (String.length new <= String.length old)%nat →
  (String.length (Py.replace old new t) <= String.length t)%nat.
Proof. intros H. pose proof (replace_aux_length old new 0 t H). unfold Py.replace. lia. Qed.

(** A replacement by a shorter text shortens the text that holds the
    text replaced. *)
Lemma replace_shorter old new t :
  (String.length new < String.length old)%nat → Py.contains old t = true →
  (String.length (Py.replace old new t) < String.length t)%nat.
Proof.
  intros Hlen. unfold Py.replace. induction t as [|c t IH].
  - cbn [Py.contains]. rewrite orb_false_r. intros H. apply startswith_length in H.
    simpl in H. lia.
  - cbn [Py.contains Py.replace_aux]. intros H.
    destruct (Py.startswith (String c t) old) eqn:Hs.
    + apply startswith_length in Hs. rewrite length_append.
      pose proof (replace_aux_length old new (String.length old - 1) t ltac:(lia)).
      simpl in *. lia.
    + simpl in H. apply IH in H. simpl. lia.
Qed.

(** What a match has read: a literal, a group of one or more characters
    of a class, one or more characters of a class. *)
Lemma run_cat_lit_val {A} l r pre t cs (k : string -> string -> caps -> option A) x :
  run false (Cat (Lit l) r) pre t cs k = Some x →
  ∃ t', t = l ++ t' ∧ run false r (Py.rev_onto l pre) t' cs k = Some x.
Proof.
  cbn [run]. destruct (lit_m false l pre t) as [[pre' t']|] eqn:Hl; [|done].
  apply lit_m_inv in Hl as [-> ->]. eauto.
Qed.

Lemma run_lit_val {A} l pre t cs (k : string -> string -> caps -> option A) x :
  run false (Lit l) pre t cs k = Some x →
  ∃ t', t = l ++ t' ∧ k (Py.rev_onto l pre) t' cs = Some x.
Proof.
  cbn [run]. destruct (lit_m false l pre t) as [[pre' t']|] eqn:Hl; [|done].
  apply lit_m_inv in Hl as [-> ->]. eauto.
Qed.

Lemma run_plus_val {A} p pre t cs (k : string -> string -> caps -> option A) x :
  run false (Plus p) pre t cs k = Some x →
  ∃ g t', g ≠ "" ∧ t = g ++ t' ∧ k (Py.rev_onto g pre) t' cs = Some x.
Proof.
  cbn [run]. destruct t as [|c t]; [done|]. destruct (p c); [|done]. intros H.
  apply star_m_inv in H as (u & t' & -> & _ & H).
  exists (String c u), t'. done.
Qed.

Lemma run_grp_plus_val {A} n p pre t cs (k : string -> string -> caps -> option A) x :
  run false (Grp n (Plus p)) pre t cs k = Some x →
  ∃ g t', g ≠ "" ∧ t = g ++ t' ∧ k (Py.rev_onto g pre) t' ((n, g) :: cs) = Some x.
Proof.
  cbn [run]. destruct t as [|c t]; [done|]. destruct (p c); [|done]. intros H.
  apply star_m_inv in H as (u & t' & -> & _ & H).
  change (Py.rev_onto u (String c pre)) with (Py.rev_onto (String c u) pre) in H.
  rewrite span_read in H. exists (String c u), t'. done.
Qed.

Lemma run_cat_grp_plus_val {A} n p r pre t cs (k : string -> string -> caps -> option A) x :
  run false (Cat (Grp n (Plus p)) r) pre t cs k = Some x →
  ∃ g t', g ≠ "" ∧ t = g ++ t' ∧ run false r (Py.rev_onto g pre) t' ((n, g) :: cs) k = Some x.
Proof.
  intros H. change (run false (Grp n (Plus p)) pre t cs
                      (fun pre' t' cs' => run false r pre' t' cs' k) = Some x) in H.
  by apply run_grp_plus_val in H.
Qed.

(** A match reads a part of the text and hands the rest on. *)
Lemma run_consumes {A} r :
  ∀ pre t cs (k : string -> string -> caps -> option A) x,
    run false r pre t cs k = Some x →
    ∃ u t' cs', t = u ++ t' ∧ k (Py.rev_onto u pre) t' cs' = Some x.
Proof.
  induction r as [|l|p|r1 IH1 r2 IH2|r1 IH1 r2 IH2|p|p|r1 IH1|n r1 IH1| | |];
    intros pre t cs k x; cbn [run].
  - intros H. by exists "", t, cs.
  - destruct (lit_m false l pre t) as [[pre' t']|] eqn:Hl; [|done].
    apply lit_m_inv in Hl as [-> ->]. intros H. by exists l, t', cs.
  - destruct t as [|c t]; [done|]. destruct (p c); [|done]. intros H.
    by exists (String c ""), t, cs.
  - intros H. apply IH1 in H as (u1 & t1 & cs1 & -> & H).
    apply IH2 in H as (u2 & t2 & cs2 & -> & H).
    exists (u1 ++ u2), t2, cs2. by rewrite append_assoc, rev_onto_append.
  - unfold orelse. destruct (run false r1 pre t cs k) eqn:H1.
    + intros [= ->]. by apply IH1 in H1.
    + apply IH2.
  - intros H. apply star_m_inv in H as (u & t' & -> & _ & H). by exists u, t', cs.
  - destruct t as [|c t]; [done|]. destruct (p c); [|done]. intros H.
    apply star_m_inv in H as (u & t' & -> & _ & H). by exists (String c u), t', cs.
  - unfold orelse. destruct (run false r1 pre t cs k) eqn:H1.
    + intros [= ->]. by apply IH1 in H1.
    + intros H. by exists "", t, cs.
  - intros H. apply IH1 in H as (u & t' & cs' & -> & H). by eexists u, t', _.
  - destruct pre; [|done]. intros H. by exists "", t, cs.
  - destruct (_ || _); [|done]. intros H. by exists "", t, cs.
  - destruct (at_word_boundary pre t); [|done]. intros H. by exists "", t, cs.
Qed.

Lemma fp_map_length e m :
  (String.length (fp_map e m) <= 4 + String.length e + String.length m)%nat.
Proof.
  unfold fp_map.
  repeat match goal with |- context [if ?b then _ else _] => destruct b end;
    rewrite ?length_append; simpl; rewrite ?length_append; simpl; lia.
Qed.

(** The label of the CFG rule is shorter than the name. *)
Lemma cfg_label_shorter name label :
  rule_bits cfg_re "CFG" name = Some label →
  (String.length label < String.length name)%nat.
Proof.
  unfold rule_bits, rmatch, match_at, cfg_re. cbn [seq].
  destruct (run _ _ _ _ _ _) as [m|] eqn:Hm; [|done].
  apply run_cat_lit_val in Hm as (t1 & -> & Hm).
  apply run_cat_grp_plus_val in Hm as (g1 & t2 & _ & -> & Hm).
  apply run_cat_lit_val in Hm as (t3 & -> & Hm).
  apply run_cat_grp_plus_val in Hm as (g2 & t4 & Hg2 & -> & Hm).
  apply run_cat_lit_val in Hm as (t5 & -> & Hm).
  apply run_grp_plus_val in Hm as (g3 & t6 & Hg3 & -> & Hm).
  injection Hm as <-. unfold grp, group. cbn.
  unfold by_bits.
  repeat match goal with |- context [if ?b then _ else _] => destruct b end;
    intros [= <-]; rewrite ?length_append; simpl; rewrite ?length_append; simpl;
    rewrite ?length_append; simpl; rewrite ?length_append;
    destruct g2, g3; simpl; try done; lia.
Qed.

Lemma hardfloat_begins name m :
  rmatch hardfloat_re name = Some m → ∃ t, name = String "F" (String "P" t).
Proof.
  unfold rmatch, match_at, hardfloat_re. cbn [seq]. intros Hm.
  apply run_cat_lit_val in Hm as (t1 & -> & _). by exists t1.
Qed.

(** What the Rial rule reads, and its label. *)
Lemma rial_label name m :
  rmatch rial_re name = Some m →
  ∃ g1 ds rest, name = "Rial" ++ g1 ++ "FP" ++ ds ++ rest
    ∧ "Rial" ++ grp 1 m ++ "_" ++ grp 2 m = "Rial" ++ g1 ++ "_FP" ++ ds.
Proof.
  unfold rmatch, match_at, rial_re. cbn [seq]. intros Hm.
  apply run_cat_lit_val in Hm as (t1 & -> & Hm).
  apply run_cat_grp_plus_val in Hm as (g1 & t2 & _ & -> & Hm).
  cbn [run] in Hm.
  destruct (lit_m false "FP" _ t2) as [[pre' t3]|] eqn:Hl; [|done].
  apply lit_m_inv in Hl as [-> ->].
  destruct t3 as [|c t3]; [done|]. destruct (d c); [|done].
  apply star_m_inv in Hm as (u & t4 & -> & _ & Hm). injection Hm as <-.
  exists g1, (String c u), t4. split; [done|].
  unfold grp, group. cbn [m_caps lookup_cap Nat.eqb default].
  change (span ?p (Py.rev_onto u (String c (String "P" (String "F" ?p)))))
    with (span p (Py.rev_onto ("FP" ++ String c u) p)).
  by rewrite span_read.
Qed.

Lemma append_cancel u v1 v2 : u ++ v1 = u ++ v2 → v1 = v2.
Proof.
  induction u as [|c u IH]; [done|].
  change (String c (u ++ v1) = String c (u ++ v2) → v1 = v2). intros [= H]. by apply IH.
Qed.

(** The label of the main and of the phase rule is shorter than the
    name. *)
Lemma rial_width_label_shorter (r1 : regex) name m :
  rmatch (Cat (Grp 1 r1)
            (Grp 2 (seq [Lit "_e"; Grp 3 (Plus d); Lit "_m"; Grp 4 (Plus d); Lit "_s"; Plus d])))
         name = Some m →
  (String.length (grp 1 m ++ "_" ++ fp_map (grp 3 m) (grp 4 m)) < String.length name)%nat.
Proof.
  unfold rmatch, match_at. cbn [seq]. intros Hm. cbn [run] in Hm.
  apply run_consumes in Hm as (g1 & t1 & cs1 & -> & Hm).
  destruct (lit_m false "_e" _ t1) as [[pre' t2]|] eqn:Hl; [|done].
  apply lit_m_inv in Hl as [-> ->].
  destruct t2 as [|c3 t2]; [done|]. destruct (d c3); [|done].
  apply star_m_inv in Hm as (u3 & t3 & -> & _ & Hm).
  destruct (lit_m false "_m" _ t3) as [[pre' t4]|] eqn:Hl; [|done].
  apply lit_m_inv in Hl as [-> ->].
  destruct t4 as [|c4 t4]; [done|]. destruct (d c4); [|done].
  apply star_m_inv in Hm as (u4 & t5 & -> & _ & Hm).
  destruct (lit_m false "_s" _ t5) as [[pre' t6]|] eqn:Hl; [|done].
  apply lit_m_inv in Hl as [-> ->].
  destruct t6 as [|c5 t6]; [done|]. destruct (d c5); [|done].
  apply star_m_inv in Hm as (u5 & t7 & -> & _ & Hm). injection Hm as <-.
  unfold grp, group. cbn [m_caps lookup_cap Nat.eqb default].
  change (Py.rev_onto u3 (String c3 ?p)) with (Py.rev_onto (String c3 u3) p).
  change (Py.rev_onto u4 (String c4 ?p)) with (Py.rev_onto (String c4 u4) p).
  rewrite !span_read.
  pose proof (fp_map_length (String c3 u3) (String c4 u4)).
  rewrite !length_append. simpl in *. rewrite !length_append. simpl. rewrite !length_append.
  simpl. rewrite !length_append. simpl. lia.
Qed.

Lemma longer_differs (u v : string) :
  (String.length u < String.length v)%nat → u ≠ v.
Proof. intros Hl ->. lia. Qed.

(** Where no rule applies the name is its own label. *)
Lemma label_kept name :
  Py.startswith name "FLOPCO_FP" = true ∨ applies name = false → label_of name = name.
Proof.
  unfold label_of. intros [-> | Ha]; [done|].
  destruct (Py.startswith name "FLOPCO_FP"); [done|].
  unfold applies in Ha. repeat (apply orb_false_iff in Ha as [Ha ?]).
  destruct (rule_bits cfg_re "CFG" name); [done|].
  destruct (rmatch hardfloat_re name) eqn:Hh; [done|].
  assert (Ho : rmatch openfloat_re name = None).
  { destruct (rmatch openfloat_re name) eqn:Ho; [|done].
    destruct (openfloat_is_hardfloat name) as [? ?]; [by eexists | congruence]. }
  assert (Hd : rmatch openfloat_div_re name = None).
  { destruct (rmatch openfloat_div_re name) eqn:Hd; [|done].
    destruct (openfloat_div_is_hardfloat name) as [? ?]; [by eexists | congruence]. }
  unfold rule_bits. rewrite Ho, Hd.
  destruct (rmatch rial_re name); [done|].
  rewrite !(replace_absent "ReciprocalATan2Phase1ATan2Phase2" "Atan2" name) by done.
  rewrite !(replace_absent "SqrtACosPhase1ACosPhase2" "Acos" name) by done.
  destruct (rmatch main_re name); [done|]. by destruct (rmatch phase_re name).
Qed.

(** A rule that applies changes the name: its label differs from the
    name, and from the name with any extension. *)
Lemma label_changed name ext :
  Py.startswith name "FLOPCO_FP" = false → applies name = true →
  label_of name ≠ name ++ ext.
Proof.
  intros Hflop Ha. unfold label_of. rewrite Hflop.
  assert (Hshort : ∀ label, (String.length label < String.length name)%nat →
                           label ≠ name ++ ext).
  { intros label Hl. apply longer_differs. rewrite length_append. lia. }
  destruct (rule_bits cfg_re "CFG" name) as [label|] eqn:Hcfg.
  { by apply Hshort, cfg_label_shorter. }
  destruct (rmatch hardfloat_re name) as [m|] eqn:Hh.
  { destruct (hardfloat_begins name m Hh) as (t & ->). intros Heq.
    apply (f_equal (fun u => Py.startswith u "H")) in Heq. by vm_compute in Heq. }
  assert (Ho : rmatch openfloat_re name = None).
  { destruct (rmatch openfloat_re name) eqn:Ho; [|done].
    destruct (openfloat_is_hardfloat name) as [? ?]; [by eexists | congruence]. }
  assert (Hd : rmatch openfloat_div_re name = None).
  { destruct (rmatch openfloat_div_re name) eqn:Hd; [|done].
    destruct (openfloat_div_is_hardfloat name) as [? ?]; [by eexists | congruence]. }
  unfold rule_bits at 1 2. rewrite Ho, Hd.
  destruct (rmatch rial_re name) as [m|] eqn:Hr.
  { destruct (rial_label name m Hr) as (g1 & ds & rest & -> & ->). intros Heq.
    rewrite !append_assoc in Heq. apply append_cancel, append_cancel in Heq.
    apply (f_equal (fun u => Py.startswith u "_")) in Heq. by vm_compute in Heq. }
  unfold applies in Ha. rewrite Hcfg, Hh, Hr in Ha. cbn [found orb] in Ha.
  set (n1 := Py.replace "ReciprocalATan2Phase1ATan2Phase2" "Atan2" name).
  set (n2 := Py.replace "SqrtACosPhase1ACosPhase2" "Acos" n1).
  assert (H1 : (String.length n1 <= String.length name)%nat)
    by (apply replace_length; simpl; lia).
  assert (H2 : (String.length n2 <= String.length n1)%nat)
    by (apply replace_length; simpl; lia).
  assert (Htail : ∀ label,
            label = match rmatch main_re n2 with
                    | Some m => grp 1 m ++ "_" ++ fp_map (grp 3 m) (grp 4 m)
                    | None => match rmatch phase_re n2 with
                              | Some m => grp 1 m ++ "_" ++ fp_map (grp 3 m) (grp 4 m)
                              | None => n2
                              end
                    end →
            (String.length label <= String.length n2)%nat
            ∧ (found (rmatch main_re n2) || found (rmatch phase_re n2) = true →
               (String.length label < String.length n2)%nat)).
  { intros label ->. destruct (rmatch main_re n2) as [m|] eqn:Hm.
    - pose proof (rial_width_label_shorter _ n2 m Hm). split; [lia | done].
    - destruct (rmatch phase_re n2) as [m|] eqn:Hp.
      + pose proof (rial_width_label_shorter _ n2 m Hp). split; [lia | done].
      + split; [lia | done]. }
  destruct (Htail _ eq_refl) as [Hle Hlt]. apply Hshort.
  destruct (Py.contains "ReciprocalATan2Phase1ATan2Phase2" name) eqn:Hc1.
  { pose proof (replace_shorter "ReciprocalATan2Phase1ATan2Phase2" "Atan2" name
                  ltac:(simpl; lia) Hc1). fold n1 in H. lia. }
  assert (Hn1 : n1 = name) by (by apply replace_absent).
  destruct (Py.contains "SqrtACosPhase1ACosPhase2" name) eqn:Hc2.
  { rewrite <- Hn1 in Hc2.
    pose proof (replace_shorter "SqrtACosPhase1ACosPhase2" "Acos" n1
                  ltac:(simpl; lia) Hc2). fold n2 in H. lia. }
  assert (Hn2 : n2 = name) by (unfold n2; rewrite Hn1; by apply replace_absent).
  cbn [orb] in Ha. rewrite <- Hn2 in Ha. specialize (Hlt Ha). lia.
Qed.

(** A name is its own label exactly when it is in canonical form. *)
Lemma prettify_name_fixed r : prettify_name r = r ↔ canonical r = true.
Proof.
  rewrite prettify_name_label. unfold canonical. split.
  - intros Hfix. destruct (splitext_root_prefix r) as (ext & Hext).
    set (name := Py.splitext_root r) in *.
    assert (Hkept : Py.startswith name "FLOPCO_FP" = true ∨ applies name = false).
    { destruct (Py.startswith name "FLOPCO_FP") eqn:Hf; [by left | right].
      destruct (applies name) eqn:Ha; [|done].
      exfalso. apply (label_changed name ext Hf Ha). by rewrite <- Hext. }
    rewrite (label_kept name Hkept) in Hfix. rewrite Hfix, String.eqb_refl.
    rewrite Hfix in Hkept. destruct Hkept as [-> | ->]; [done | by rewrite orb_true_r].
  - intros H. apply andb_true_iff in H as [Hroot H]. apply String.eqb_eq in Hroot.
    rewrite Hroot. apply label_kept. apply orb_true_iff in H as [H | H]; [by left | right].
    by apply negb_true_iff.
Qed.

Lemma all_chars_app p u v :
  all_chars p (u ++ v) = all_chars p u && all_chars p v.
Proof.
  induction u as [|c u IH]; [done|].
  change (String c u ++ v) with (String c (u ++ v)). cbn [all_chars].
  by rewrite IH, andb_assoc.
Qed.

(** What the Rial rule reads: an operation of word characters and a
    format of digits. *)
Lemma rial_reads name m :
  rmatch rial_re name = Some m →
  ∃ c1 g1 c2 ds rest,
    name = "Rial" ++ String c1 g1 ++ "FP" ++ String c2 ds ++ rest
    ∧ w c1 = true ∧ all_chars w g1 = true ∧ d c2 = true ∧ all_chars d ds = true
    ∧ "Rial" ++ grp 1 m ++ "_" ++ grp 2 m = "Rial" ++ String c1 g1 ++ "_FP" ++ String c2 ds.
Proof.
  unfold rmatch, match_at, rial_re. cbn [seq]. intros Hm.
  apply run_cat_lit_val in Hm as (t1 & -> & Hm).
  cbn [run] in Hm. destruct t1 as [|c1 t1]; [done|]. destruct (w c1) eqn:Hc1; [|done].
  apply star_m_inv in Hm as (g1 & t2 & -> & Hg1 & Hm).
  destruct (lit_m false "FP" _ t2) as [[pre' t3]|] eqn:Hl; [|done].
  apply lit_m_inv in Hl as [-> ->].
  destruct t3 as [|c2 t3]; [done|]. destruct (d c2) eqn:Hc2; [|done].
  apply star_m_inv in Hm as (ds & t4 & -> & Hds & Hm). injection Hm as <-.
  exists c1, g1, c2, ds, t4. split; [done|]. repeat (split; [done|]).
  unfold grp, group. cbn [m_caps lookup_cap Nat.eqb default].
  change (Py.rev_onto g1 (String c1 ?p)) with (Py.rev_onto (String c1 g1) p).
  change (span ?p (Py.rev_onto ds (String c2 (String "P" (String "F" ?p)))))
    with (span p (Py.rev_onto ("FP" ++ String c2 ds) p)).
  by rewrite !span_read.
Qed.

(** The Rial pattern matches every label of the Rial rule. *)
Lemma rial_matches_its_label c1 g1 c2 ds :
  w c1 = true → all_chars w g1 = true → d c2 = true → all_chars d ds = true →
  is_Some (rmatch rial_re ("Rial" ++ String c1 g1 ++ "_FP" ++ String c2 ds)).
Proof.
  intros Hc1 Hg1 Hc2 Hds. unfold rmatch, match_at, rial_re. cbn [seq].
  apply run_literal_complete.
  change (String c1 g1 ++ "_FP" ++ String c2 ds)
    with (String c1 (g1 ++ String "_" ("FP" ++ String c2 ds))).
  replace (g1 ++ String "_" ("FP" ++ String c2 ds))
    with ((g1 ++ "_") ++ "FP" ++ String c2 ds) by (by rewrite append_assoc).
  apply run_plus_group_complete.
  - intros pre' t' ca cb H. done.
  - done.
  - rewrite all_chars_app, Hg1. done.
  - cbn [run]. rewrite lit_m_read, Hc2. rewrite <- (append_empty_r ds).
    apply star_m_complete; [done | by eexists].
Qed.

(** The label of the Rial rule is rewritten by a second application. *)
Lemma rial_label_rewritten filename m :
  rmatch rial_re (Py.splitext_root filename) = Some m →
  prettify_name filename = "Rial" ++ grp 1 m ++ "_" ++ grp 2 m
  ∧ prettify_name (prettify_name filename) ≠ prettify_name filename.
Proof.
  intros Hm. set (name := Py.splitext_root filename) in *.
  destruct (rial_reads name m Hm) as (c1 & g1 & c2 & ds & rest & Hname & Hc1 & Hg1 & Hc2 & Hds & Hl).
  assert (Hlabel : prettify_name filename = "Rial" ++ grp 1 m ++ "_" ++ grp 2 m).
  { rewrite prettify_name_label. fold name. unfold label_of.
    replace (Py.startswith name "FLOPCO_FP") with false by (by rewrite Hname).
    replace (rule_bits cfg_re "CFG" name) with (@None string); cycle 1.
    { unfold rule_bits, rmatch, match_at, cfg_re. cbn [seq].
      rewrite match_literal_first; [done | by rewrite Hname]. }
    replace (rmatch hardfloat_re name) with (@None mobj); cycle 1.
    { unfold rmatch, match_at, hardfloat_re. cbn [seq].
      rewrite match_literal_first; [done | by rewrite Hname]. }
    replace (rule_bits openfloat_re "OpenFloat" name) with (@None string); cycle 1.
    { unfold rule_bits, rmatch, match_at, openfloat_re. cbn [seq].
      rewrite match_literal_first; [done | by rewrite Hname]. }
    replace (rule_bits openfloat_div_re "OpenFloat" name) with (@None string); cycle 1.
    { unfold rule_bits, rmatch, match_at, openfloat_div_re. cbn [seq].
      rewrite match_literal_first; [done | by rewrite Hname]. }
    by rewrite Hm. }
  split; [done|]. rewrite Hlabel, Hl. intros Hfix.
  apply prettify_name_fixed in Hfix. unfold canonical in Hfix.
  apply andb_true_iff in Hfix as [_ Hfix].
  replace (Py.startswith _ "FLOPCO_FP") with false in Hfix by done.
  cbn [orb] in Hfix. apply negb_true_iff in Hfix.
  destruct (rial_matches_its_label c1 g1 c2 ds Hc1 Hg1 Hc2 Hds) as [m' Hm'].
  unfold applies in Hfix. rewrite Hm' in Hfix. cbn [found] in Hfix.
  by rewrite !orb_true_r in Hfix.
Qed.

(** C3, as amended.  [prettify_name] is a function of its argument.  A
    name is left as it is exactly when it is in canonical form: it has
    no extension, and it begins with [FLOPCO_FP] or no rule applies to
    it; a rule that applies always changes the name.  So a second
    application keeps the label of a name exactly when that label is in
    canonical form; and it never keeps a label of the Rial rule, which
    the Rial pattern matches again. *)
Theorem prettify_name_stable_iff_canonical :
  (∀ a b : string, a = b → prettify_name a = prettify_name b)
  ∧ (∀ r : string, prettify_name r = r ↔ canonical r = true)
  ∧ (∀ n : string, prettify_name (prettify_name n) = prettify_name n
                   ↔ canonical (prettify_name n) = true)
  ∧ (∀ (n : string) (m : mobj),
       rmatch rial_re (Py.splitext_root n) = Some m →
       prettify_name n = "Rial" ++ grp 1 m ++ "_" ++ grp 2 m
       ∧ prettify_name (prettify_name n) ≠ prettify_name n).
Proof.
  split; [by intros a b ->|]. split; [apply prettify_name_fixed|].
  split; [intros n; apply prettify_name_fixed | apply rial_label_rewritten].
Qed.

(** C3 as stated fails: the label of [RialAddFP16.sv] is rewritten again
    by a second application. *)
Lemma prettify_name_not_idempotent :
  prettify_name "RialAddFP16.sv" = "RialAdd_FP16"
  ∧ prettify_name (prettify_name "RialAddFP16.sv") = "RialAdd__FP16"
  ∧ ¬ (∀ n, prettify_name (prettify_name n) = prettify_name n).
Proof.
  assert (H1 : prettify_name "RialAddFP16.sv" = "RialAdd_FP16") by (by vm_compute).
  assert (H2 : prettify_name "RialAdd_FP16" = "RialAdd__FP16") by (by vm_compute).
  split; [done|]. split; [by rewrite H1|].
  intros H. specialize (H "RialAddFP16.sv"). rewrite H1, H2 in H. discriminate.
Qed.

(** ** Instances on concrete inputs *)

Lemma process_files_one_entry_per_file_witness :
  let result := fun i : nat => if (i =? 1)%nat then Raise (Exn OtherException "boom")
                               else Ok (Z.of_nat i, 7%Z) in
  let files := ["a.sv"; "b.sv"; "c.vhdl"] in
  dom (process_files result [2; 0; 1]%nat files) = list_to_set files
  ∧ process_files result [2; 0; 1]%nat files !! "b.sv" = Some (0%Z, 0%Z)
  ∧ process_files result [2; 0; 1]%nat files !! "c.vhdl" = Some (2%Z, 7%Z).
Proof.
  intros result files.
  assert (Hp : [2; 0; 1]%nat ≡ₚ List.seq 0 (length files)).
  { simpl. etrans; [apply perm_swap | apply perm_skip, perm_swap]. }
  destruct (process_files_one_entry_per_file result [2; 0; 1]%nat files Hp)
    as (Hdom & _ & Hraise & Hok).
  split; [exact Hdom|]. split.
  - apply (Hraise 1%nat "b.sv" (Exn OtherException "boom")); [reflexivity | | reflexivity].
    intros [|[|[|j]]]; simpl; intros; try discriminate; reflexivity.
  - apply (Hok 2%nat "c.vhdl"); [reflexivity | | reflexivity].
    intros [|[|[|j]]]; simpl; intros; try discriminate; reflexivity.
Defined.

Lemma sum_cell_counts_after_last_marker_witness :
  sum_cell_counts (Py.join Py.nl
    ["2. Printing statistics."; " Number of cells: 7";
     "5. Printing statistics."; " Number of cells: 10"; " Number of cells: 5"; ""])
  = 15%Z.
Proof.
  refine (proj2 (sum_cell_counts_after_last_marker _)
            ["2. Printing statistics."; " Number of cells: 7"]
            "5. Printing statistics." [" Number of cells: 10"; " Number of cells: 5"]
            _ _ _).
  - reflexivity.
  - reflexivity.
  - repeat constructor.
Defined.

Lemma yosys_vhdl_wire_bits_zero_witness :
  fst (snd (yosys sample_world "adder.vhdl")) = 0%Z.
Proof. apply yosys_vhdl_wire_bits_zero. reflexivity. Defined.


Lemma yosys_falls_back_to_original_witness :
  RunTool ["yosys"; "tmp_4242.ys"] ∈ fst (yosys sample_world "missing.sv")
  ∧ snd (yosys sample_world "missing.sv") = (9%Z, 4%Z).
Proof.
  destruct (yosys_falls_back_to_original sample_world "missing.sv"
              (Exn FileNotFoundError "No such file or directory") eq_refl eq_refl)
    as (_ & _ & _ & _ & _ & _ & Hrun).
  destruct (Hrun eq_refl) as [Hin Hres].
  split; [exact Hin|]. exact (Hres _ eq_refl eq_refl).
Defined.

Lemma get_top_module_choice_witness :
  snd (get_top_module design_world "rtl/design.sv") = "core"
  ∧ snd (get_top_module design_world "rtl/alu.sv") = "alu"
  ∧ snd (get_top_module design_world "rtl/checks.sv") = "checks".
Proof.
  split; [|split].
  - rewrite (proj2 (proj2 (proj2 (proj2 (proj2 (proj2
               (get_top_module_choice design_world "rtl/design.sv" _ eq_refl))))))).
    reflexivity.
  - rewrite (proj2 (proj2 (proj2 (proj2 (proj2 (proj2
               (get_top_module_choice design_world "rtl/alu.sv" _ eq_refl))))))).
    reflexivity.
  - rewrite (proj2 (proj2 (proj2 (proj2 (proj2 (proj2
               (get_top_module_choice design_world "rtl/checks.sv" _ eq_refl))))))).
    reflexivity.
Defined.

Lemma prettify_name_stable_iff_canonical_witness :
  prettify_name (prettify_name "FPADD_8_24.sv") = prettify_name "FPADD_8_24.sv"
  ∧ prettify_name "Rialto" = "Rialto"
  ∧ prettify_name "RialAdd_e3_m4" = "RialAdd_e3_m4"
  ∧ prettify_name "FPfoo" = "FPfoo"
  ∧ prettify_name (prettify_name "RialMulFP32.sv") ≠ prettify_name "RialMulFP32.sv".
Proof.
  destruct prettify_name_stable_iff_canonical as (_ & Hfix & Htwice & Hrial).
  split; [apply Htwice; reflexivity|].
  split; [apply Hfix; reflexivity|].
  split; [apply Hfix; reflexivity|].
  split; [apply Hfix; reflexivity|].
  exact (proj2 (Hrial "RialMulFP32.sv" _ eq_refl)).
Defined.



Lemma get_top_entity_is_word_witness :
  ("Adder" ≠ "" ∧ all_chars Chr.is_word "Adder" = true)
  ∧ snd (get_top_entity design_world "zaehler.vhdl") = Some ("Z" ++ String "228" "hler")
  ∧ all_chars Chr.is_word ("Z" ++ String "228" "hler") = true.
Proof.
  split; [apply (get_top_entity_is_word sample_world "adder.vhdl" "Adder"); reflexivity|].
  split; [reflexivity|].
  apply (get_top_entity_is_word design_world "zaehler.vhdl" ("Z" ++ String "228" "hler")).
  reflexivity.
Defined.

Lemma prettify_name_openfloat_rules_dead_witness :
  is_Some (rmatch openfloat_re "FP_add_32_1")
  ∧ prettify_name "FP_add_32_1.sv" = "HardFloat_add_e32_m1"
  ∧ is_Some (rmatch openfloat_div_re "FP_div_8_23_4")
  ∧ prettify_name "FP_div_8_23_4.sv" = "HardFloat_div_8_e23_m4".
Proof.
  assert (H1 : is_Some (rmatch openfloat_re "FP_add_32_1")) by (vm_compute; eauto).
  assert (H2 : is_Some (rmatch openfloat_div_re "FP_div_8_23_4")) by (vm_compute; eauto).
  split; [exact H1|]. split.
  - destruct (proj2 (proj2 (prettify_name_openfloat_rules_dead "FP_add_32_1.sv"))
                (or_introl H1)) as (m & Hm & Hp).
    vm_compute in Hm. injection Hm as <-. rewrite Hp. reflexivity.
  - split; [exact H2|].
    destruct (proj2 (proj2 (prettify_name_openfloat_rules_dead "FP_div_8_23_4.sv"))
                (or_intror H2)) as (m & Hm & Hp).
    vm_compute in Hm. injection Hm as <-. rewrite Hp. reflexivity.
Defined.

Lemma yosys_calls_remove_on_what_it_writes_witness :
  ∃ before what rest,
    fst (yosys stuck_world "top.sv")
    = (before ++ RemoveFile "tmp_4242_top.sv"
         :: Log "WARNING" ("Could not remove " ++ what ++ " tmp_4242_top.sv: Permission denied")
         :: rest)%list
    ∧ WriteFile "tmp_4242_top.sv"
        (Py.join Py.nl ["module sub(input a);"; "endmodule"; "module top(input b);";
                        "endmodule"]) ∈ before.
Proof.
  destruct (yosys_calls_remove_on_what_it_writes stuck_world "top.sv" "tmp_4242_top.sv"
              (Py.join Py.nl ["module sub(input a);"; "endmodule"; "module top(input b);";
                              "endmodule"]))
    as (before & after & Hfst & Hin & _ & Hwarn).
  - vm_compute. left.
  - reflexivity.
  - simpl in Hwarn. destruct Hwarn as (what & rest & ->).
    exists before, what, rest. split; [exact Hfst | exact Hin].
Defined.

Lemma yosys_vhdl_success_witness :
  snd (yosys sample_world "adder.vhdl") = (0%Z, 4%Z)
  ∧ actions (fst (yosys sample_world "adder.vhdl"))
    = [WriteFile "tmp_4242.ys" "ghdl --std=08 -fsynopsys adder.vhdl -e Adder; synth; stat";
       RunTool ["yosys"; "-m"; "ghdl"; "-p";
                "ghdl --std=08 -fsynopsys adder.vhdl -e Adder; synth; stat"];
       AppendFile "/work/scripts/../yosys_output.log"
         (log_text "adder.vhdl" "Adder" None
            "ghdl --std=08 -fsynopsys adder.vhdl -e Adder; synth; stat"
            (Py.join Py.nl ["Printing statistics."; "   Number of wire bits: 9";
                            "   Number of cells: 4"; ""]) "");
       RemoveFile "tmp_4242.ys"].
Proof.
  destruct (yosys_vhdl_success sample_world "adder.vhdl" "Adder"
              (Completed (Py.join Py.nl ["Printing statistics."; "   Number of wire bits: 9";
                                         "   Number of cells: 4"; ""]) "" 0))
    as [Hv Ha]; [reflexivity | reflexivity | reflexivity | reflexivity | reflexivity |].
  split; [rewrite Hv | rewrite Ha]; reflexivity.
Defined.

Lemma yosys_sv_success_witness :
  snd (yosys sample_world "top.sv") = (9%Z, 4%Z)
  ∧ List.map is_log (fst (yosys sample_world "top.sv"))
    = [false; false; false; false; false; false].
Proof.
  destruct (yosys_sv_success sample_world "top.sv"
              (Py.join Py.nl ["module sub(input a);"; "endmodule"; "module top(input b);";
                              "endmodule"])
              (Completed (Py.join Py.nl ["Printing statistics."; "   Number of wire bits: 9";
                                         "   Number of cells: 4"; ""]) "" 0))
    as [Hv Ha];
    [reflexivity | reflexivity | reflexivity | reflexivity | reflexivity | reflexivity |].
  split; [rewrite Hv; reflexivity | reflexivity].
Defined.

Lemma rewrite_identity_on_plain_source_witness :
  rewrite (Py.join Py.nl ["module m(input a, output b);"; "  assign b = a;"; "endmodule"; ""])
  = Py.join Py.nl ["module m(input a, output b);"; "  assign b = a;"; "endmodule"; ""].
Proof. apply rewrite_identity_on_plain_source; reflexivity. Defined.

Lemma skip_sections_removes_section_witness :
  let mark := "// ----- 8< ----- FILE " ++ String Chr.dquote "verification/assert.sv" in
  skip_sections ["module m;"; "endmodule"; mark; "module check;"; mark; "endmodule"; "  ";
                 "module n;"; "endmodule"] false
  = ["module m;"; "endmodule"; "module n;"; "endmodule"]
  ∧ skip_sections ["module m;"; "endmodule"; mark; "module check;"; "endmodule"] false
    = ["module m;"; "endmodule"].
Proof.
  intros mark.
  destruct (skip_sections_removes_section ["module m;"; "endmodule"]
              ["module check;"; mark; "endmodule"] ["module n;"; "endmodule"] mark "  ")
    as [H1 _]; [by repeat constructor | reflexivity | by repeat constructor | reflexivity |].
  destruct (skip_sections_removes_section ["module m;"; "endmodule"]
              ["module check;"; "endmodule"] [] mark "  ")
    as [_ H2]; [by repeat constructor | reflexivity | by repeat constructor | reflexivity |].
  split; [exact H1 | exact H2].
Defined.

Lemma skip_pass_no_residual_suppression_witness :
  skip_pass ["`ifdef ENABLE_INITIAL_REG_"; "  initial x = 0;";
             "`endif // ENABLE_INITIAL_REG_"; "assign y = x;"]
  = (0%Z, ["assign y = x;"]).
Proof.
  destruct (skip_pass_no_residual_suppression
              ["`ifdef ENABLE_INITIAL_REG_"; "  initial x = 0;";
               "`endif // ENABLE_INITIAL_REG_"] ["assign y = x;"])
    as [_ H]; [reflexivity | by repeat constructor |].
  exact H.
Defined.

Lemma hoist_unclosed_block_drops_declarations_witness :
  _hoist_logic_from_always
    (Py.join Py.nl ["module m(input clk);"; "  always @(posedge clk) begin";
                    "    logic [7:0] tmp = a + b;"; "    q <= tmp;"])
  = Py.join Py.nl ["module m(input clk);"; "  always @(posedge clk) begin";
                   "    q <= tmp;"].
Proof.
  erewrite (hoist_unclosed_block_drops_declarations _ "  always @(posedge clk) begin"
              ["module m(input clk);"] ["    logic [7:0] tmp = a + b;"; "    q <= tmp;"]);
    [reflexivity | reflexivity | by repeat constructor | reflexivity | reflexivity].
Defined.

Lemma process_files_entries_nonnegative_witness :
  let result := fun i : nat =>
    match i with
    | 0 => Ok (snd (yosys sample_world "adder.vhdl"))
    | 1 => Raise (Exn OtherException "A process in the pool was terminated abruptly")
    | _ => Ok (snd (yosys sample_world "top.sv"))
    end in
  (0 <= 9)%Z ∧ (0 <= 4)%Z.
Proof.
  intros result.
  apply (process_files_entries_nonnegative (fun _ => sample_world) result [2; 0; 1]
           ["adder.vhdl"; "missing.sv"; "top.sv"] "top.sv" (9%Z, 4%Z)).
  - intros [|[|[|i]]] f v; simpl; intros Hf Hv; try discriminate;
      injection Hf as <-; injection Hv as <-; reflexivity.
  - vm_compute. reflexivity.
Defined.

Lemma yosys_sv_source_write_failure_witness :
  snd (yosys readonly_world "top.sv") = (0%Z, 0%Z)
  ∧ runs (fst (yosys readonly_world "top.sv")) = 0.
Proof.
  destruct (yosys_sv_source_write_failure readonly_world "top.sv"
              (Py.join Py.nl ["module sub(input a);"; "endmodule"; "module top(input b);";
                              "endmodule"])
              (Exn OSError "Read-only file system"))
    as (Hv & _ & _); [reflexivity | reflexivity | reflexivity |].
  split; [exact Hv | reflexivity].
Defined.
